(** * ScriptorAI local service: job queue, batch processor and semantic search

    A shallow embedding of
    - [scriptor_local/models/database.py]     (class [Database]),
    - [scriptor_local/services/batch_processor.py] (class [BatchProcessor]),
    - [scriptor_local/services/embeddings.py] (class [EmbeddingService]),
    together with the properties the specification states about them.

    Conventions.
    - A Python [dict] with string keys is a [gmap string value]; a table is
      the list of its rows in insertion (rowid) order.
    - Python floats are modelled by the rationals they denote ([Q], compared
      with [==]): rounding, overflow, infinities and NaN are outside the
      model; a float32 component of a stored vector is its 32-bit pattern.
    - Code that raises returns [inl e]; effects on the database are explicit
      state passing, and a raised exception keeps the writes already
      committed. *)

From Stdlib Require Import ZArith QArith Qabs String Ascii List Sorted Permutation Lia OrderedTypeEx.
From stdpp Require Import gmap strings list pretty.

Local Open Scope string_scope.
Local Open Scope Z_scope.

(** ** Values *)

(** What a Python variable or an SQLite cell holds in this program. *)
Inductive value : Type :=
| VNone
| VBool (b : bool)
| VInt (z : Z)
| VFloat (q : Q)
| VStr (s : string)
| VBytes (b : list Byte.byte)
| VDict (d : list (string * value)).

(** A [dict] with string keys; also a row as returned by [dict(row)]. *)
Notation pydict := (gmap string value).

(** Exceptions, by class, with the text [str(e)] gives. *)
Inductive exn : Type :=
| ValueError (msg : string)
| KeyError (msg : string)
| TypeError (msg : string)
| FileNotFoundError (msg : string)
| RuntimeError (msg : string)
| DatabaseError (msg : string)
| OverflowError (msg : string).

Definition exn_str (e : exn) : string :=
  match e with
  | ValueError m | TypeError m | FileNotFoundError m | RuntimeError m
  | DatabaseError m | OverflowError m => m
  | KeyError m => "'" ++ m ++ "'"
  end.

(** [r[c]] on a row that has every column of its table: an absent key reads
    as NULL. *)
Definition col (r : pydict) (c : string) : value := default VNone (r !! c).

(** ** Comparison functions

    A comparison is well behaved when it is a total preorder: [cmp_ok]. *)

Definition leb_of {A : Type} (cmp : A -> A -> comparison) (a b : A) : bool :=
  match cmp a b with Gt => false | _ => true end.

Definition cmp_on {A B : Type} (f : B -> A) (cmp : A -> A -> comparison) (x y : B) :=
  cmp (f x) (f y).

Definition cmp_rev {A : Type} (cmp : A -> A -> comparison) (x y : A) := cmp y x.

Definition cmp_lex {A : Type} (c1 c2 : A -> A -> comparison) (x y : A) :=
  match c1 x y with Eq => c2 x y | c => c end.

Record cmp_ok {A : Type} (cmp : A -> A -> comparison) : Prop := {
  cmp_antisym : forall a b, cmp a b = CompOpp (cmp b a);
  cmp_lt_trans : forall a b c, cmp a b = Lt -> cmp b c = Lt -> cmp a c = Lt;
  cmp_eq_l : forall a b c, cmp a b = Eq -> cmp a c = cmp b c
}.

(** ** The order SQLite sorts values in

    NULL first, then numbers by value, then text by [memcmp] (collation
    BINARY), then blobs by [memcmp]. *)

Definition storage_class (v : value) : Z :=
  match v with
  | VNone => 0
  | VBool _ | VInt _ | VFloat _ => 1
  | VStr _ => 2
  | VBytes _ => 3
  | VDict _ => 4
  end.

Definition num_key (v : value) : Q :=
  match v with
  | VBool b => if b then 1%Q else 0%Q
  | VInt z => inject_Z z
  | VFloat q => q
  | _ => 0%Q
  end.

Definition text_key (v : value) : string :=
  match v with
  | VStr s => s
  | VBytes b => string_of_list_byte b
  | _ => ""
  end.

Definition sql_compare : value -> value -> comparison :=
  cmp_lex (cmp_on storage_class Z.compare)
    (cmp_lex (cmp_on num_key Qcompare) (cmp_on text_key String.compare)).

Definition sql_leb : value -> value -> bool := leb_of sql_compare.

(** ** A stable sort

    [ORDER BY] and [list.sort] are modelled by insertion into a sorted list
    from the right, which keeps elements that compare equal in their
    original order. *)

Fixpoint insert_sorted {A : Type} (leb : A -> A -> bool) (x : A) (l : list A) : list A :=
  match l with
  | [] => [x]
  | y :: l' => if leb x y then x :: y :: l' else y :: insert_sorted leb x l'
  end.

Definition stable_sort {A : Type} (leb : A -> A -> bool) (l : list A) : list A :=
  foldr (insert_sorted leb) [] l.

(** ** The database ([models/database.py])

    One connection, whose statements take effect in order.  The schema
    declares foreign keys but the connection never turns
    [PRAGMA foreign_keys] on, so no delete cascades.  Column type affinity
    (a number bound to a TEXT column is stored as text) is not modelled:
    every caller in the program binds text to TEXT columns and integers to
    INTEGER columns. *)

Record database : Type := Database {
  papers : list pydict;
  chunks : list pydict;
  embeddings : list pydict;
  jobs : list pydict
}.

Definition with_papers (d : database) (t : list pydict) : database :=
  {| papers := t; chunks := chunks d; embeddings := embeddings d; jobs := jobs d |}.
Definition with_chunks (d : database) (t : list pydict) : database :=
  {| papers := papers d; chunks := t; embeddings := embeddings d; jobs := jobs d |}.
Definition with_embeddings (d : database) (t : list pydict) : database :=
  {| papers := papers d; chunks := chunks d; embeddings := t; jobs := jobs d |}.
Definition with_jobs (d : database) (t : list pydict) : database :=
  {| papers := papers d; chunks := chunks d; embeddings := embeddings d; jobs := t |}.

(** [a = b] in a WHERE clause: NULL equals nothing. *)
Definition sql_eqb (a b : value) : bool :=
  match a, b with
  | VNone, _ | _, VNone => false
  | _, _ => match sql_compare a b with Eq => true | _ => false end
  end.

(** Binding a Python value to a [?]: the sqlite3 module takes None, bool,
    int, float, str and bytes, and raises on anything else; an int has to
    fit in 64 bits. *)
Definition bind_param (v : value) : exn + value :=
  match v with
  | VDict _ => inl (DatabaseError "Error binding parameter: type 'dict' is not supported")
  | VBool b => inr (VInt (if b then 1 else 0))
  | VInt z =>
      if (- 2 ^ 63 <=? z) && (z <? 2 ^ 63) then inr v
      else inl (OverflowError "Python int too large to convert to SQLite INTEGER")
  | _ => inr v
  end.

Fixpoint bind_params (sets : list (string * value)) : exn + list (string * value) :=
  match sets with
  | [] => inr []
  | (f, v) :: rest =>
      match bind_param v with
      | inl e => inl e
      | inr v' =>
          match bind_params rest with
          | inl e => inl e
          | inr rest' => inr ((f, v') :: rest')
          end
      end
  end.

(** [SET f1 = ?, f2 = ?, ...] on one row; on a repeated column the rightmost
    assignment is the one that counts. *)
Definition assign (r : pydict) (sets : list (string * value)) : pydict :=
  fold_left (fun r fv => <[fst fv := snd fv]> r) sets r.

Definition violates_not_null (not_null : list string) (sets : list (string * value)) : bool :=
  existsb (fun fv => bool_decide (fst fv ∈ not_null) &&
                     match snd fv with VNone => true | _ => false end) sets.

(** [UPDATE t SET ... WHERE id = ?]. *)
Definition sql_update (t : list pydict) (not_null : list string)
    (sets : list (string * value)) (key : value) : exn + list pydict :=
  match bind_params sets with
  | inl e => inl e
  | inr sets' =>
      match bind_param key with
      | inl e => inl e
      | inr key' =>
          if existsb (fun r => sql_eqb (col r "id") key') t
             && violates_not_null not_null sets'
          then inl (DatabaseError "NOT NULL constraint failed")
          else inr (map (fun r => if sql_eqb (col r "id") key' then assign r sets' else r) t)
      end
  end.

(** The row [(chunk_id, vector)] of the embeddings table. *)
Definition emb_row (chunk_id : value) (vector : list Byte.byte) : pydict :=
  list_to_map [("chunk_id", chunk_id); ("vector", VBytes vector)].

(** The loop that builds [set_clauses] and [values]: the items of [updates]
    whose key is an allowed field, in order. *)
Definition set_clauses (allowed : list string) (updates : list (string * value))
    : list (string * value) :=
  List.filter (fun fv => bool_decide (fst fv ∈ allowed)) updates.

Section Database.
(** [json.dumps] and [json.loads]. *)
Variable json_dumps : value -> string.
Variable json_loads : string -> exn + value.

Definition paper_allowed_fields : list string :=
  ["title"; "authors"; "year"; "doi"; "indexed_at";
   "embeddings_ready"; "status"; "collection"; "metadata"].

Definition job_allowed_fields : list string :=
  ["status"; "error"; "started_at"; "finished_at"].

Definition encode_metadata (fv : string * value) : string * value :=
  match fv with
  | (f, VDict d) => if String.eqb f "metadata" then (f, VStr (json_dumps (VDict d))) else fv
  | _ => fv
  end.

Definition get_paper (paper_id : value) (d : database) : option pydict :=
  List.find (fun r => sql_eqb (col r "id") paper_id) (papers d).

Definition update_paper (paper_id : value) (updates : list (string * value))
    (d : database) : exn + database :=
  match map encode_metadata (set_clauses paper_allowed_fields updates) with
  | [] => inr d
  | sets =>
      match sql_update (papers d) ["title"; "local_pdf_path"; "added_at"] sets paper_id with
      | inl e => inl e
      | inr t => inr (with_papers d t)
      end
  end.

(** Jobs. *)

Definition lookup_key (r : pydict) (k : string) : exn + value :=
  match r !! k with
  | Some v => inr v
  | None => inl (KeyError k)
  end.

Definition has_id (t : list pydict) (k : string) (v : value) : bool :=
  existsb (fun r => sql_eqb (col r k) v) t.

Definition add_job (now : string) (job : pydict) (d : database) : exn + database :=
  match lookup_key job "id", lookup_key job "paper_id", lookup_key job "type" with
  | inl e, _, _ | inr _, inl e, _ | inr _, inr _, inl e => inl e
  | inr jid, inr pid, inr ty =>
      let prio := default (VInt 0) (job !! "priority") in
      let meta := json_dumps (default (VDict []) (job !! "metadata")) in
      match bind_param jid, bind_param pid, bind_param ty, bind_param prio with
      | inr jid', inr pid', inr ty', inr prio' =>
          match pid', ty' with
          | VNone, _ | _, VNone => inl (DatabaseError "NOT NULL constraint failed")
          | _, _ =>
              if has_id (jobs d) "id" jid'
              then inl (DatabaseError "UNIQUE constraint failed: jobs.id")
              else inr (with_jobs d (jobs d ++ [
                list_to_map [("id", jid'); ("paper_id", pid'); ("type", ty');
                             ("status", VStr "pending"); ("priority", prio');
                             ("error", VNone); ("created_at", VStr now);
                             ("started_at", VNone); ("finished_at", VNone);
                             ("metadata", VStr meta)]]))
          end
      | inl e, _, _, _ | inr _, inl e, _, _ | inr _, inr _, inl e, _
      | inr _, inr _, inr _, inl e => inl e
      end
  end.

Definition is_pending (r : pydict) : bool := sql_eqb (col r "status") (VStr "pending").

(** [ORDER BY priority DESC, created_at ASC]. *)
Definition job_cmp : pydict -> pydict -> comparison :=
  cmp_lex (cmp_rev (cmp_on (fun r => col r "priority") sql_compare))
          (cmp_on (fun r => col r "created_at") sql_compare).

Definition get_pending_jobs (d : database) : list pydict :=
  stable_sort (leb_of job_cmp) (List.filter is_pending (jobs d)).

Definition update_job (job_id : value) (updates : list (string * value))
    (d : database) : exn + database :=
  match set_clauses job_allowed_fields updates with
  | [] => inr d
  | sets =>
      match sql_update (jobs d) ["paper_id"; "type"; "created_at"] sets job_id with
      | inl e => inl e
      | inr t => inr (with_jobs d t)
      end
  end.
(** Chunks. *)

(** [INSERT OR REPLACE]: a row with the same primary key goes, the new row
    is appended. *)
Definition insert_or_replace (t : list pydict) (k : string) (r : pydict) : list pydict :=
  List.filter (fun r' => negb (sql_eqb (col r' k) (col r k))) t ++ [r].

Definition add_chunk (chunk : pydict) (d : database) : exn + database :=
  match lookup_key chunk "id", lookup_key chunk "paper_id", lookup_key chunk "page",
        lookup_key chunk "bbox", lookup_key chunk "text" with
  | inr cid, inr pid, inr page, inr bbox, inr text =>
      let idx := default (VInt 0) (chunk !! "chunk_index") in
      match bind_param cid, bind_param pid, bind_param page, bind_param text, bind_param idx with
      | inr cid', inr pid', inr page', inr text', inr idx' =>
          match pid', page', text' with
          | VNone, _, _ | _, VNone, _ | _, _, VNone =>
              inl (DatabaseError "NOT NULL constraint failed")
          | _, _, _ =>
              inr (with_chunks d (insert_or_replace (chunks d) "id"
                (list_to_map [("id", cid'); ("paper_id", pid'); ("page", page');
                              ("bbox", VStr (json_dumps bbox)); ("text", text');
                              ("chunk_index", idx')])))
          end
      | inl e, _, _, _, _ | inr _, inl e, _, _, _ | inr _, inr _, inl e, _, _
      | inr _, inr _, inr _, inl e, _ | inr _, inr _, inr _, inr _, inl e => inl e
      end
  | inl e, _, _, _, _ | inr _, inl e, _, _, _ | inr _, inr _, inl e, _, _
  | inr _, inr _, inr _, inl e, _ | inr _, inr _, inr _, inr _, inl e => inl e
  end.

(** The statements already executed stay in effect when a later chunk
    raises. *)
Fixpoint add_chunks (cs : list pydict) (d : database) : option exn * database :=
  match cs with
  | [] => (None, d)
  | c :: rest =>
      match add_chunk c d with
      | inl e => (Some e, d)
      | inr d' => add_chunks rest d'
      end
  end.

(** [ORDER BY page, chunk_index]. *)
Definition chunk_cmp : pydict -> pydict -> comparison :=
  cmp_lex (cmp_on (fun r => col r "page") sql_compare)
          (cmp_on (fun r => col r "chunk_index") sql_compare).

Definition decode_bbox (r : pydict) : exn + pydict :=
  match col r "bbox" with
  | VStr s =>
      match json_loads s with
      | inl e => inl e
      | inr v => inr (<["bbox" := v]> r)
      end
  | _ => inl (TypeError "the JSON object must be str, bytes or bytearray")
  end.

Fixpoint decode_rows (rows : list pydict) : exn + list pydict :=
  match rows with
  | [] => inr []
  | r :: rest =>
      match decode_bbox r with
      | inl e => inl e
      | inr r' =>
          match decode_rows rest with
          | inl e => inl e
          | inr rest' => inr (r' :: rest')
          end
      end
  end.

Definition chunk_rows (paper_id : value) (d : database) : list pydict :=
  stable_sort (leb_of chunk_cmp)
    (List.filter (fun r => sql_eqb (col r "paper_id") paper_id) (chunks d)).

Definition get_chunks (paper_id : value) (d : database) : exn + list pydict :=
  decode_rows (chunk_rows paper_id d).

Definition delete_chunks (paper_id : value) (d : database) : database :=
  with_chunks d (List.filter (fun r => negb (sql_eqb (col r "paper_id") paper_id)) (chunks d)).

(** Embeddings. *)

Definition add_embedding (chunk_id : value) (vector : list Byte.byte)
    (d : database) : exn + database :=
  match bind_param chunk_id with
  | inl e => inl e
  | inr cid =>
      inr (with_embeddings d (insert_or_replace (embeddings d) "chunk_id"
             (emb_row cid vector)))
  end.
End Database.

(** ** The embedding service ([services/embeddings.py])

    A vector is a numpy array of float32; each component is its 32-bit
    pattern, [0 <= w < 2^32]. *)

Definition byte_of_Z (z : Z) : Byte.byte :=
  default Byte.x00 (Byte.of_N (Z.to_N (Z.land z 255))).

Definition Z_of_byte (b : Byte.byte) : Z := Z.of_N (Byte.to_N b).

(** One float32 in memory order (little endian, as on every platform the
    service runs on). *)
Definition f32_bytes (w : Z) : list Byte.byte :=
  [byte_of_Z w; byte_of_Z (Z.shiftr w 8); byte_of_Z (Z.shiftr w 16); byte_of_Z (Z.shiftr w 24)].

Definition f32_of_bytes (b0 b1 b2 b3 : Byte.byte) : Z :=
  Z.lor (Z_of_byte b0)
    (Z.lor (Z.shiftl (Z_of_byte b1) 8)
       (Z.lor (Z.shiftl (Z_of_byte b2) 16) (Z.shiftl (Z_of_byte b3) 24))).

(** [vector.astype(np.float32).tobytes()] on a float32 array. *)
Definition vector_to_bytes (vector : list Z) : list Byte.byte :=
  flat_map f32_bytes vector.

Fixpoint f32_words (data : list Byte.byte) : list Z :=
  match data with
  | b0 :: b1 :: b2 :: b3 :: rest => f32_of_bytes b0 b1 b2 b3 :: f32_words rest
  | _ => []
  end.

(** [np.frombuffer(data, dtype=np.float32)]. *)
Definition bytes_to_vector (data : list Byte.byte) : exn + list Z :=
  if (length data mod 4 =? 0)%nat
  then inr (f32_words data)
  else inl (ValueError "buffer size must be a multiple of element size").

(** The number a float32 pattern denotes, when it is finite: sign bit 31,
    exponent bits 23..30 (bias 127), 23 mantissa bits; exponent 255 is an
    infinity or a NaN. *)
Definition f32_value (w : Z) : option Q :=
  let e := Z.land (Z.shiftr w 23) 255 in
  let m := Z.land w (2 ^ 23 - 1) in
  if e =? 255 then None
  else
    let magnitude :=
      if e =? 0 then (inject_Z m * Qpower 2 (-149))%Q
      else (inject_Z (2 ^ 23 + m) * Qpower 2 (e - 150))%Q in
    Some (if Z.testbit w 31 then (- magnitude)%Q else magnitude).

(** [results[:top_k]]: a negative bound counts from the end. *)
Definition slice_to {A : Type} (k : Z) (l : list A) : list A :=
  if 0 <=? k then take (Z.to_nat k) l
  else take (length l - Z.to_nat (- k))%nat l.

Definition as_number (v : value) : option Q :=
  match v with
  | VBool b => Some (if b then 1%Q else 0%Q)
  | VInt z => Some (inject_Z z)
  | VFloat q => Some q
  | _ => None
  end.

Definition score_of (r : pydict) : Q := default 0%Q (r !! "score" ≫= as_number).

Fixpoint Qmin_list (q : Q) (l : list Q) : Q :=
  match l with
  | [] => q
  | x :: l' => Qmin_list (if Qlt_le_dec x q then x else q) l'
  end.

Fixpoint Qmax_list (q : Q) (l : list Q) : Q :=
  match l with
  | [] => q
  | x :: l' => Qmax_list (if Qlt_le_dec q x then x else q) l'
  end.

Section EmbeddingService.
(** [self.model.encode(text, normalize_embeddings=True)]: the model may be
    missing ([RuntimeError]). *)
Variable embed_text : string -> exn + list Z.
(** The floating-point sum of products [np.dot] computes on two arrays of
    one length. *)
Variable dot_value : list Z -> list Z -> Q.

(** [np.dot] on two one-dimensional arrays: numpy raises [ValueError] when
    the shapes are not aligned. *)
Definition cosine_similarity (query_vec doc_vec : list Z) : exn + Q :=
  if (length query_vec =? length doc_vec)%nat
  then inr (dot_value query_vec doc_vec)
  else inl (ValueError "shapes not aligned").

Definition score_chunk (query_vec : list Z) (chunk : pydict) : exn + pydict :=
  match chunk !! "vector" with
  | None => inl (KeyError "vector")
  | Some (VBytes data) =>
      match bytes_to_vector data with
      | inl e => inl e
      | inr doc_vec =>
          match cosine_similarity query_vec doc_vec with
          | inl e => inl e
          | inr score => inr (delete "vector" (<["score" := VFloat score]> chunk))
          end
      end
  | Some _ => inl (TypeError "a bytes-like object is required")
  end.

Fixpoint score_chunks (query_vec : list Z) (cs : list pydict) : exn + list pydict :=
  match cs with
  | [] => inr []
  | c :: rest =>
      match score_chunk query_vec c with
      | inl e => inl e
      | inr r =>
          match score_chunks query_vec rest with
          | inl e => inl e
          | inr rs => inr (r :: rs)
          end
      end
  end.

(** [results.sort(key=lambda x: x["score"], reverse=True)]. *)
Definition by_score_desc : pydict -> pydict -> bool :=
  leb_of (cmp_rev (cmp_on score_of Qcompare)).

Definition search (query : string) (chunks_with_embeddings : list pydict) (top_k : Z)
    : exn + list pydict :=
  match embed_text query with
  | inl e => inl e
  | inr query_vec =>
      match score_chunks query_vec chunks_with_embeddings with
      | inl e => inl e
      | inr results => inr (slice_to top_k (stable_sort by_score_desc results))
      end
  end.

Fixpoint read_scores (results : list pydict) : exn + list value :=
  match results with
  | [] => inr []
  | r :: rest =>
      match r !! "score" with
      | None => inl (KeyError "score")
      | Some v =>
          match read_scores rest with
          | inl e => inl e
          | inr vs => inr (v :: vs)
          end
      end
  end.

Fixpoint numbers (vs : list value) : option (list Q) :=
  match vs with
  | [] => Some []
  | v :: rest =>
      match as_number v, numbers rest with
      | Some q, Some qs => Some (q :: qs)
      | _, _ => None
      end
  end.

Definition normalize_scores (results : list pydict) : exn + list pydict :=
  match read_scores results with
  | inl e => inl e
  | inr vs =>
      match numbers vs with
      | None => inl (TypeError "unsupported operand type(s)")
      | Some [] => inr results
      | Some (q :: qs) =>
          let min_score := Qmin_list q qs in
          let max_score := Qmax_list q qs in
          let score_range := (max_score - min_score)%Q in
          if Qeq_bool score_range 0
          then inr (map (fun r => <["normalized_score" := VFloat (1 # 2)]> r) results)
          else inr (map (fun r =>
                 <["normalized_score" :=
                     VFloat ((score_of r - min_score) / score_range)]> r) results)
      end
  end.
End EmbeddingService.

(** ** The batch processor ([services/batch_processor.py]) *)

(** What [_notify_progress] hands to the registered observer. *)
Record progress_event : Type := ProgressEvent {
  ev_job_id : value;
  ev_status : string;
  ev_progress : Q;
  ev_message : string
}.

(** What a progress callback does when it is called with an event, given
    the events it was called with before: it returns ([None]) or raises. *)
Definition callback : Type := list progress_event -> progress_event -> option exn.

(** A [BatchProcessor] with the database it holds.  [_progress_callback] is
    the registered callable, or [None] when [if self._progress_callback]
    fails (nothing registered); [delivered] lists the events it was called
    with; [clock] counts the readings of [datetime.utcnow()] taken so
    far. *)
Record processor : Type := Processor {
  db : database;
  _running : bool;
  _current_job : option pydict;
  _progress_callback : option callback;
  delivered : list progress_event;
  clock : nat
}.

Definition with_db (s : processor) (d : database) : processor :=
  {| db := d; _running := _running s; _current_job := _current_job s;
     _progress_callback := _progress_callback s; delivered := delivered s;
     clock := clock s |}.
Definition with_running (s : processor) (b : bool) : processor :=
  {| db := db s; _running := b; _current_job := _current_job s;
     _progress_callback := _progress_callback s; delivered := delivered s;
     clock := clock s |}.
Definition with_current_job (s : processor) (j : option pydict) : processor :=
  {| db := db s; _running := _running s; _current_job := j;
     _progress_callback := _progress_callback s; delivered := delivered s;
     clock := clock s |}.
Definition with_delivered (s : processor) (l : list progress_event) : processor :=
  {| db := db s; _running := _running s; _current_job := _current_job s;
     _progress_callback := _progress_callback s; delivered := l;
     clock := clock s |}.
Definition with_clock (s : processor) (n : nat) : processor :=
  {| db := db s; _running := _running s; _current_job := _current_job s;
     _progress_callback := _progress_callback s; delivered := delivered s;
     clock := n |}.

(** Code that reads and writes the processor and may raise. *)
Definition M (A : Type) : Type := processor -> (exn + A) * processor.

Definition ret {A : Type} (a : A) : M A := fun s => (inr a, s).
Definition raise {A : Type} (e : exn) : M A := fun s => (inl e, s).
Definition bind {A B : Type} (m : M A) (k : A -> M B) : M B :=
  fun s =>
    match m s with
    | (inl e, s') => (inl e, s')
    | (inr a, s') => k a s'
    end.

Notation "'let!' x ':=' m 'in' k" := (bind m (fun x => k))
  (at level 10, x name, m at level 100, k at level 200).

(** A call that may raise and touches nothing. *)
Definition lift {A : Type} (r : exn + A) : M A := fun s => (r, s).
(** A statement on the database. *)
Definition exec (f : database -> exn + database) : M unit :=
  fun s =>
    match f (db s) with
    | inl e => (inl e, s)
    | inr d => (inr tt, with_db s d)
    end.
Definition query {A : Type} (f : database -> A) : M A := fun s => (inr (f (db s)), s).

Fixpoint for_each {A : Type} (f : A -> M unit) (l : list A) : M unit :=
  match l with
  | [] => ret tt
  | x :: rest => let! _ := f x in for_each f rest
  end.

(** What [run_batch] returns: [{"error": "Batch already running", "status":
    "busy"}], or [{"status": "completed", "processed": p, "failed": f,
    "errors": errors if errors else None}] with [errors] the list of
    [{"job_id": id, "error": text}]. *)
Inductive batch_result : Type :=
| Busy
| Completed (processed failed : nat) (errors : option (list (value * string))).

(** The three counters the loop of [run_batch] updates. *)
Record tally : Type := Tally {
  processed : nat;
  failed : nat;
  errors : list (value * string)
}.

Definition batch_size : nat := 32.

(** [range(0, n, batch_size)]. *)
Definition batch_starts (n : nat) : list nat :=
  map (fun k => (k * batch_size)%nat) (seq 0 ((n + (batch_size - 1)) / batch_size)).

(** [v == s] for a string literal [s]. *)
Definition eq_str (v : value) (s : string) : bool :=
  match v with
  | VStr s' => String.eqb s' s
  | _ => false
  end.

(** The dictionaries [_process_job] and [run_batch] pass to [update_job]:
    [{"status": "running", "started_at": now}],
    [{"status": "completed", "finished_at": now}] and
    [{"status": "failed", "error": str(e), "finished_at": now}]. *)
Definition mark_running (now : string) : list (string * value) :=
  [("status", VStr "running"); ("started_at", VStr now)].

Definition mark_completed (now : string) : list (string * value) :=
  [("status", VStr "completed"); ("finished_at", VStr now)].

Definition mark_failed (e now : string) : list (string * value) :=
  [("status", VStr "failed"); ("error", VStr e); ("finished_at", VStr now)].

(** [dict(row)] for a row of a table with the given columns: every column
    is a key, and NULL reads as [None]. *)
Definition dict_row (columns : list string) (r : pydict) : pydict :=
  foldr (fun c d => <[c := col r c]> d) r columns.

(** The columns of the [jobs] table. *)
Definition job_columns : list string :=
  ["id"; "paper_id"; "type"; "status"; "priority"; "error"; "created_at";
   "started_at"; "finished_at"; "metadata"].

Section BatchProcessor.
Variable json_dumps : value -> string.
Variable json_loads : string -> exn + value.
(** [datetime.utcnow().isoformat()] at the n-th reading of the clock. *)
Variable utcnow : nat -> string.
(** [Path(p).exists()] and [str(Path(p))]. *)
Variable pdf_exists : string -> bool.
Variable path_str : string -> string.
(** The collaborators of [text_extraction.py] and the embedding model. *)
Variable extract_text_from_pdf : string -> exn + (list pydict * bool).
Variable extract_doi_from_pdf : string -> exn + option string.
Variable embed_texts : list value -> exn + list (list Z).
(** [str(v)] for the values an f-string is given that are not text,
    None, a truth value or an integer. *)
Variable repr_other : value -> string.

Definition py_str (v : value) : string :=
  match v with
  | VStr s => s
  | VNone => "None"
  | VBool true => "True"
  | VBool false => "False"
  | VInt z => pretty z
  | _ => repr_other v
  end.

Definition utcnow_isoformat : M string :=
  fun s => (inr (utcnow (clock s)), with_clock s (S (clock s))).

(** The callback is called with no [try] around it: what it raises, the
    caller of [_notify_progress] gets. *)
Definition _notify_progress (job_id : value) (status : string) (progress : Q)
    (message : string) : M unit :=
  fun s =>
    match _progress_callback s with
    | Some call =>
        let event := ProgressEvent job_id status progress message in
        let s' := with_delivered s (delivered s ++ [event]) in
        match call (delivered s) event with
        | Some e => (inl e, s')
        | None => (inr tt, s')
        end
    | None => (inr tt, s)
    end.

Definition _extract_text (paper : pydict) (pdf_path : string) : M unit :=
  let! paper_id := lift (lookup_key paper "id") in
  let! _ := _notify_progress (VStr "") "running" (1 # 10) "Extracting text from PDF..." in
  let! extracted := lift (extract_text_from_pdf pdf_path) in
  let chunks := fst extracted in
  let has_text := snd extracted in
  if negb has_text then
    exec (update_paper json_dumps paper_id
            [("status", VStr "needs_ocr"); ("metadata", VDict [("has_text", VBool false)])])
  else
    let chunks := map (fun chunk => <["paper_id" := paper_id]> chunk) chunks in
    let! _ := _notify_progress (VStr "") "running" (1 # 2)
                ("Saving " ++ pretty (length chunks) ++ " text chunks...") in
    let! _ := exec (fun d => inr (delete_chunks paper_id d)) in
    let! _ := (fun s => match add_chunks json_dumps chunks (db s) with
                        | (Some e, d) => (inl e, with_db s d)
                        | (None, d) => (inr tt, with_db s d)
                        end) in
    let! now := utcnow_isoformat in
    let! _ := exec (update_paper json_dumps paper_id
                      [("indexed_at", VStr now); ("status", VStr "indexed")]) in
    _notify_progress (VStr "") "running" 1
      ("Extracted " ++ pretty (length chunks) ++ " chunks").

Definition _extract_doi (paper : pydict) (pdf_path : string) : M unit :=
  let! paper_id := lift (lookup_key paper "id") in
  let! _ := _notify_progress (VStr "") "running" (1 # 2) "Extracting DOI..." in
  let! doi := lift (extract_doi_from_pdf pdf_path) in
  match doi with
  | Some (String c rest as doi) =>
      let! _ := exec (update_paper json_dumps paper_id [("doi", VStr doi)]) in
      _notify_progress (VStr "") "running" 1 ("Found DOI: " ++ doi)
  | _ => _notify_progress (VStr "") "running" 1 "No DOI found"
  end.

(** The body of the inner loop: one chunk with the embedding [zip] pairs it
    with. *)
Definition store_embedding (ce : pydict * list Z) : M unit :=
  exec (add_embedding (col (fst ce) "id") (vector_to_bytes (snd ce))).

Definition embed_batch (chunks : list pydict) (texts : list value) (total i : nat) : M unit :=
  let batch_texts := take batch_size (drop i texts) in
  let batch_chunks := take batch_size (drop i chunks) in
  let! embeddings := lift (embed_texts batch_texts) in
  let! _ := for_each store_embedding (combine batch_chunks embeddings) in
  let progress :=
    ((1 # 10) + (8 # 10) * inject_Z (Z.of_nat (i + length batch_texts))
                / inject_Z (Z.of_nat total))%Q in
  _notify_progress (VStr "") "running"
    (if Qlt_le_dec progress (9 # 10) then progress else (9 # 10))
    ("Embedded " ++ pretty (Nat.min (i + batch_size) total) ++ "/" ++ pretty total).

(** The pairs (chunk, embedding) one pass over the batches starting at
    [starts] writes, in order: what [embed_texts] returns for each batch,
    zipped with the chunks of the batch. *)
Fixpoint embedding_pass (chunks : list pydict) (texts : list value) (starts : list nat)
    : exn + list (pydict * list Z) :=
  match starts with
  | [] => inr []
  | i :: rest =>
      match embed_texts (take batch_size (drop i texts)) with
      | inl e => inl e
      | inr embeddings =>
          match embedding_pass chunks texts rest with
          | inl e => inl e
          | inr pairs =>
            inr (combine (take batch_size (drop i chunks)) embeddings ++ pairs)%list
          end
      end
  end.

Definition _compute_embeddings (paper : pydict) : M unit :=
  let! paper_id := lift (lookup_key paper "id") in
  let! chunks := (fun s => (get_chunks json_loads paper_id (db s), s)) in
  match chunks with
  | [] => raise (ValueError ("No chunks found for paper " ++ py_str paper_id
                             ++ ". Run text extraction first."))
  | _ =>
      let total := length chunks in
      let! _ := _notify_progress (VStr "") "running" (1 # 10)
                  ("Computing embeddings for " ++ pretty total ++ " chunks...") in
      let texts := map (fun c => col c "text") chunks in
      let! _ := for_each (embed_batch chunks texts total) (batch_starts (length texts)) in
      let! _ := exec (update_paper json_dumps paper_id [("embeddings_ready", VInt 1)]) in
      _notify_progress (VStr "") "running" 1
        ("Computed " ++ pretty total ++ " embeddings")
  end.

Definition _process_job (job : pydict) : M unit :=
  let! job_id := lift (lookup_key job "id") in
  let! job_type := lift (lookup_key job "type") in
  let! paper_id := lift (lookup_key job "paper_id") in
  let! now := utcnow_isoformat in
  let! _ := exec (update_job job_id (mark_running now)) in
  let! _ := _notify_progress job_id "running" 0 ("Starting " ++ py_str job_type) in
  let! paper := query (get_paper paper_id) in
  match paper with
  | None => raise (ValueError ("Paper " ++ py_str paper_id ++ " not found"))
  | Some paper =>
      match col paper "local_pdf_path" with
      | VStr pdf_path =>
          if negb (pdf_exists pdf_path)
          then raise (FileNotFoundError ("PDF not found: " ++ path_str pdf_path))
          else
            let! _ :=
              if eq_str job_type "EXTRACT_TEXT" then _extract_text paper pdf_path
              else if eq_str job_type "EXTRACT_DOI" then _extract_doi paper pdf_path
              else if eq_str job_type "EMBED" then _compute_embeddings paper
              else raise (ValueError ("Unknown job type: " ++ py_str job_type)) in
            let! now := utcnow_isoformat in
            let! _ := exec (update_job job_id (mark_completed now)) in
            _notify_progress job_id "completed" 1 ("Completed " ++ py_str job_type)
      | _ => raise (TypeError "expected str, bytes or os.PathLike object")
      end
  end.

(** One turn of the [while True] loop of [run_batch] on the job it picked:
    the inner [try ... except Exception]. *)
Definition process_next (job : pydict) (t : tally) : M tally :=
  fun s =>
    match _process_job job (with_current_job s (Some job)) with
    | (inr _, s') =>
        (inr (Tally (S (processed t)) (failed t) (errors t)), with_current_job s' None)
    | (inl e, s') =>
        match (let! job_id := lift (lookup_key job "id") in
               let! now := utcnow_isoformat in
               let! _ := exec (update_job job_id (mark_failed (exn_str e) now)) in
               ret job_id) s' with
        | (inl e', s'') => (inl e', s'')
        | (inr job_id, s'') =>
            (inr (Tally (processed t) (S (failed t))
                    (errors t ++ [(job_id, exn_str e)])),
             with_current_job s'' None)
        end
    end.

(** The loop; [None] when [fuel] turns did not reach the [break].
    [pending_jobs[0]] is the [dict(row)] of the first row. *)
Fixpoint batch_loop (fuel : nat) (t : tally) (s : processor)
    : option ((exn + tally) * processor) :=
  match fuel with
  | O => None
  | S fuel' =>
      match get_pending_jobs (db s) with
      | [] => Some (inr t, s)
      | row :: _ =>
          match process_next (dict_row job_columns row) t s with
          | (inl e, s') => Some (inl e, s')
          | (inr t', s') => batch_loop fuel' t' s'
          end
      end
  end.

Definition run_batch (fuel : nat) (s : processor)
    : option ((exn + batch_result) * processor) :=
  if _running s then Some (inr Busy, s)
  else
    match batch_loop fuel (Tally 0 0 []) (with_running s true) with
    | None => None
    | Some (inl e, s') => Some (inl e, with_running s' false)
    | Some (inr t, s') =>
        Some (inr (Completed (processed t) (failed t)
                     (match errors t with [] => None | l => Some l end)),
              with_running s' false)
    end.
End BatchProcessor.

(** ** Predicates the properties are stated with *)

(** [a] may be listed before [b] under [ORDER BY priority DESC, created_at
    ASC]: [a] has the strictly higher priority, or the priorities tie and
    [a] was not created after [b]. *)
Definition listed_before (a b : pydict) : Prop :=
  sql_compare (col b "priority") (col a "priority") = Lt \/
  (sql_compare (col a "priority") (col b "priority") = Eq /\
   sql_compare (col a "created_at") (col b "created_at") <> Gt).

(** The row was not created after the rows inserted later. *)
Definition created_no_later (a b : pydict) : Prop :=
  sql_leb (col a "created_at") (col b "created_at") = true.

Definition has_priority (p : value) (r : pydict) : bool :=
  match sql_compare (col r "priority") p with Eq => true | _ => false end.

(** Two versions of a row agree on the columns [cols] / on every column
    outside [cols]. *)
Definition same_on (cols : list string) (r r' : pydict) : Prop :=
  forall c, c ∈ cols -> r' !! c = r !! c.

Definition same_outside (cols : list string) (r r' : pydict) : Prop :=
  forall c, c ∉ cols -> r' !! c = r !! c.

(** [UPDATE jobs SET ... WHERE id = key] as a function on the table. *)
Definition set_job (key : value) (sets : list (string * value)) (t : list pydict)
    : list pydict :=
  map (fun r => if sql_eqb (col r "id") key then assign r sets else r) t.

(** Claiming as the specification words it: marking a job that is not
    pending as running raises. *)
Definition claim_rejects_non_pending : Prop :=
  forall (d : database) (jid now : string),
    existsb (fun r => sql_eqb (col r "id") (VStr jid) && negb (is_pending r)) (jobs d) = true ->
    exists e, update_job (VStr jid) (mark_running now) d = inl e.

(** A list is in order for [leb], checked by running [leb]. *)
Fixpoint in_order {A : Type} (leb : A -> A -> bool) (l : list A) : bool :=
  match l with
  | [] => true
  | x :: l' => forallb (leb x) l' && in_order leb l'
  end.

(** A computation that leaves the [jobs] table and the [_running] flag as
    it found them. *)
Definition keeps_jobs {A : Type} (m : M A) : Prop :=
  forall s, jobs (db (snd (m s))) = jobs (db s) /\ _running (snd (m s)) = _running s.

(** The primary key of a table: every [id] is text and no two rows share
    one. *)
Definition text_ids (t : list pydict) : Prop :=
  Forall (fun r => exists i, col r "id" = VStr i) t /\
  NoDup (map (fun r => col r "id") t).

(** How a job that was run ends: the row [r'] keeps every column of [r]
    outside the allowed list and is either completed with [finished_at]
    set, or failed with an error text and [finished_at] set and an entry for
    it in [errs]. *)
Definition outcome (errs : list (value * string)) (r r' : pydict) : Prop :=
  same_outside job_allowed_fields r r' /\
  ((col r' "status" = VStr "completed" /\ exists t, col r' "finished_at" = VStr t) \/
   (col r' "status" = VStr "failed" /\
    exists e t, col r' "error" = VStr e /\ col r' "finished_at" = VStr t /\
                In (col r "id", e) errs)).

(** A row in the course of a batch: as it was, or run and no longer
    pending. *)
Definition advanced (errs : list (value * string)) (r r' : pydict) : Prop :=
  r' = r \/ (is_pending r = true /\ is_pending r' = false /\ outcome errs r r').

(** How a batch leaves a job row: a row that was not pending is untouched,
    a pending row has been run. *)
Definition settled (errs : list (value * string)) (r r' : pydict) : Prop :=
  if is_pending r then outcome errs r r' else r' = r.

(** The entry [(jid, e)] of the summary has its failed row in the table. *)
Definition recorded (t : list pydict) (je : value * string) : Prop :=
  exists r, In r t /\ col r "id" = fst je /\ col r "status" = VStr "failed" /\
            col r "error" = VStr (snd je) /\ exists f, col r "finished_at" = VStr f.

(** One write of the embedding pass, as a function on the table. *)
Definition write_embedding (t : list pydict) (ce : pydict * list Z) : list pydict :=
  insert_or_replace t "chunk_id" (emb_row (col (fst ce) "id") (vector_to_bytes (snd ce))).

(** A computation that leaves the [papers] table as it found it. *)
Definition keeps_papers {A : Type} (m : M A) : Prop :=
  forall s, papers (db (snd (m s))) = papers (db s).

(** The result carries a number under ["score"]. *)
Definition has_score (r : pydict) : Prop :=
  exists v q, r !! "score" = Some v /\ as_number v = Some q.

(** The bound as the specification words it: never more than [top_k]
    results, whatever [top_k]. *)
Definition claim_at_most_top_k (embed_text : string -> exn + list Z)
    (dot_value : list Z -> list Z -> Q) : Prop :=
  forall (query : string) (cs : list pydict) (top_k : Z) (rs : list pydict),
    search embed_text dot_value query cs top_k = inr rs ->
    Z.of_nat (length rs) <= top_k.

(** [text_ids], checked by running it. *)
Definition id_text (r : pydict) : option string :=
  match col r "id" with VStr i => Some i | _ => None end.

Fixpoint distinct (l : list string) : bool :=
  match l with
  | [] => true
  | x :: l' => negb (existsb (String.eqb x) l') && distinct l'
  end.

Definition text_ids_check (t : list pydict) : bool :=
  forallb (fun r => match id_text r with Some _ => true | None => false end) t
  && distinct (omap id_text t).

(** ** Sample data *)

Module Demo.
Definition json_dumps (v : value) : string :=
  match v with VDict [] => "{}" | _ => "{...}" end.
Definition json_loads (s : string) : exn + value := inr (VDict []).
Definition utcnow (n : nat) : string := "2024-05-01T10:00:00.00" ++ pretty (1000 + n)%nat.

Definition job (jid pid ty : string) (prio : Z) : pydict :=
  list_to_map [("id", VStr jid); ("paper_id", VStr pid); ("type", VStr ty);
               ("priority", VInt prio)].

Definition empty : database := Database [] [] [] [].

Definition enqueue (now : string) (j : pydict) (d : database) : database :=
  match add_job json_dumps now j d with
  | inr d' => d'
  | inl _ => d
  end.

(** Three jobs enqueued lowest priority first; [j2] asks for the embeddings
    of a paper that has no chunks. *)
Definition queue : database :=
  enqueue (utcnow 2) (job "j3" "p1" "EXTRACT_TEXT" 10)
    (enqueue (utcnow 1) (job "j2" "p2" "EMBED" 10)
       (enqueue (utcnow 0) (job "j1" "p1" "EMBED" 1) empty)).

(** The same queue after a call that also names columns it may not set. *)
Definition touch : list (string * value) :=
  [("status", VStr "completed"); ("id", VStr "zz"); ("priority", VInt 99)].

Definition queue_touched : database :=
  match update_job (VStr "j2") touch queue with
  | inr d => d
  | inl _ => queue
  end.

(** The same queue after [j2] has run to completion. *)
Definition queue_done : database :=
  match update_job (VStr "j2") [("status", VStr "completed");
                                ("finished_at", VStr (utcnow 3))] queue with
  | inr d => d
  | inl _ => queue
  end.
(** A library of one paper, [p1], whose PDF exists and yields two chunks;
    a second paper, [p2], has a PDF and no chunks. *)
Definition pdf_exists (path : string) : bool :=
  String.eqb path "/pdfs/p1.pdf" || String.eqb path "/pdfs/p2.pdf".
Definition path_str (path : string) : string := path.

Definition chunk (cid text : string) (idx : Z) : pydict :=
  list_to_map [("id", VStr cid); ("page", VInt 0); ("bbox", VDict []);
               ("text", VStr text); ("chunk_index", VInt idx)].

Definition extract_text_from_pdf (path : string) : exn + (list pydict * bool) :=
  if String.eqb path "/pdfs/p1.pdf"
  then inr ([chunk "c1" "a cat sat on the mat" 0; chunk "c2" "the stock market fell" 1], true)
  else inl (RuntimeError "cannot open document").
Definition extract_doi_from_pdf (path : string) : exn + option string := inr None.

(** Every text gets the vector (1.0, 0.0). *)
Definition embed_texts (texts : list value) : exn + list (list Z) :=
  inr (map (fun _ => [1065353216; 0]) texts).
Definition embed_text (text : string) : exn + list Z := inr [1065353216; 0].
Definition repr_other (v : value) : string := "?".

Definition paper (pid path : string) : pydict :=
  list_to_map [("id", VStr pid); ("title", VStr "Untitled"); ("local_pdf_path", VStr path);
               ("added_at", VStr "2024-05-01T09:00:00"); ("embeddings_ready", VInt 0);
               ("status", VStr "pending")].

Definition library : database :=
  with_papers queue [paper "p1" "/pdfs/p1.pdf"; paper "p2" "/pdfs/p2.pdf"].

(** A callback that records and never raises. *)
Definition quiet : callback := fun _ _ => None.

Definition idle (d : database) : processor :=
  {| db := d; _running := false; _current_job := None;
     _progress_callback := Some quiet; delivered := []; clock := 3 |}.

Definition run (fuel : nat) (s : processor) :=
  run_batch json_dumps json_loads utcnow pdf_exists path_str
    extract_text_from_pdf extract_doi_from_pdf embed_texts repr_other fuel s.
(** The library after a batch: [p1] has its two chunks and their
    embeddings. *)
Definition indexed : database :=
  match run 4 (idle library) with
  | Some (_, s') => db s'
  | None => library
  end.

Definition embed (p : pydict) (s : processor) : (exn + unit) * processor :=
  _compute_embeddings json_dumps json_loads embed_texts repr_other p s.
(** The exact sum of products of the numbers two vectors denote. *)
Definition dot_value (q d : list Z) : Q :=
  fold_right Qplus 0%Q
    (map (fun ab => (default 0%Q (f32_value (fst ab)) * default 0%Q (f32_value (snd ab)))%Q)
         (combine q d)).

Definition candidate (cid : string) (vector : list Z) : pydict :=
  list_to_map [("id", VStr cid); ("page", VInt 0); ("text", VStr "...");
               ("vector", VBytes (vector_to_bytes vector))].

(** Three candidates scoring 1.0, 0.5 and 1.0 against the query vector
    (1.0, 0.0), and one of the wrong dimension. *)
Definition candidates : list pydict :=
  [candidate "c1" [1065353216; 0]; candidate "c2" [1056964608; 0];
   candidate "c3" [1065353216; 1065353216]].
Definition short_candidate : pydict := candidate "c4" [1065353216].

Definition find (query : string) (cs : list pydict) (top_k : Z) : exn + list pydict :=
  search embed_text dot_value query cs top_k.

Definition ranking (top_k : Z) : list pydict :=
  match find "cat" candidates top_k with
  | inr rs => rs
  | inl _ => []
  end.

(** The results of [test_normalize_scores]. *)
Definition scored (rid : string) (score : Q) : pydict :=
  list_to_map [("id", VStr rid); ("score", VFloat score)].
Definition results : list pydict :=
  [scored "1" (9 # 10); scored "2" (5 # 10); scored "3" (1 # 10)].
End Demo.

(** ** More of the store ([models/database.py]) *)

(** [ORDER BY added_at DESC]. *)
Definition newest_first : pydict -> pydict -> comparison :=
  cmp_rev (cmp_on (fun r => col r "added_at") sql_compare).

(** [SELECT status, COUNT( * ) FROM jobs GROUP BY status]: one entry per
    group of rows whose status compares equal (NULL groups with NULL), keyed
    by the status of the first row of the group. *)
Fixpoint count_into (groups : list (value * nat)) (v : value) : list (value * nat) :=
  match groups with
  | [] => [(v, 1%nat)]
  | (k, n) :: rest =>
      match sql_compare k v with
      | Eq => (k, S n) :: rest
      | _ => (k, n) :: count_into rest v
      end
  end.

Definition group_counts (t : list pydict) : list (value * nat) :=
  fold_left (fun groups r => count_into groups (col r "status")) t [].

(** [status.get(name, 0)] on the dictionary built from the groups. *)
Definition status_count (groups : list (value * nat)) (name : string) : nat :=
  match List.find (fun kn => eq_str (fst kn) name) groups with
  | Some (_, n) => n
  | None => 0%nat
  end.

(** What [get_batch_status] returns. *)
Record batch_status : Type := BatchStatus {
  st_pending : nat;
  st_running : nat;
  st_completed : nat;
  st_failed : nat;
  st_current_job : option pydict
}.

Definition get_batch_status (d : database) : batch_status :=
  let status := group_counts (jobs d) in
  {| st_pending := status_count status "pending";
     st_running := status_count status "running";
     st_completed := status_count status "completed";
     st_failed := status_count status "failed";
     st_current_job :=
       List.find (fun r => sql_eqb (col r "status") (VStr "running")) (jobs d) |}.

Section Store.
Variable json_dumps : value -> string.
Variable json_loads : string -> exn + value.
(** [json.loads] on a [bytes] object. *)
Variable json_loads_bytes : list Byte.byte -> exn + value.

Definition add_paper (now : string) (paper : pydict) (d : database) : exn + database :=
  match lookup_key paper "id", lookup_key paper "local_pdf_path" with
  | inl e, _ | inr _, inl e => inl e
  | inr pid, inr path =>
      match bind_params
              [("id", pid);
               ("title", default (VStr "Untitled") (paper !! "title"));
               ("authors", default VNone (paper !! "authors"));
               ("year", default VNone (paper !! "year"));
               ("doi", default VNone (paper !! "doi"));
               ("source_url", default VNone (paper !! "source_url"));
               ("local_pdf_path", path);
               ("added_at", VStr now);
               ("status", VStr "pending");
               ("collection", default (VStr "default") (paper !! "collection"));
               ("metadata",
                VStr (json_dumps (default (VDict []) (paper !! "metadata"))))] with
      | inl e => inl e
      | inr values =>
          if violates_not_null ["title"; "local_pdf_path"; "added_at"] values
          then inl (DatabaseError "NOT NULL constraint failed")
          else if has_id (papers d) "id" (col (list_to_map values) "id")
          then inl (DatabaseError "UNIQUE constraint failed: papers.id")
          else inr (with_papers d (papers d ++ [
                 list_to_map (values ++ [("indexed_at", VNone);
                                         ("embeddings_ready", VInt 0)])]))%list
      end
  end.

(** [if collection:] is false for [None] and for the empty string. *)
Definition list_papers (collection : option string) (d : database) : list pydict :=
  stable_sort (leb_of newest_first)
    match collection with
    | Some (String c rest) =>
        List.filter (fun r => sql_eqb (col r "collection") (VStr (String c rest))) (papers d)
    | _ => papers d
    end.

Definition delete_paper (paper_id : value) (d : database) : exn + database :=
  match bind_param paper_id with
  | inl e => inl e
  | inr pid =>
      inr (with_papers d (List.filter (fun r => negb (sql_eqb (col r "id") pid)) (papers d)))
  end.

(** [SELECT c.id, c.page, c.bbox, c.text, e.vector FROM chunks c JOIN
    embeddings e ON c.id = e.chunk_id WHERE c.paper_id = ? ORDER BY c.page,
    c.chunk_index]. *)
Definition joined_rows (paper_id : value) (d : database) : list (pydict * pydict) :=
  stable_sort (leb_of (cmp_on fst chunk_cmp))
    (flat_map (fun c => map (fun e => (c, e))
                 (List.filter (fun e => sql_eqb (col c "id") (col e "chunk_id"))
                    (embeddings d)))
       (List.filter (fun c => sql_eqb (col c "paper_id") paper_id) (chunks d))).

Definition joined_row (ce : pydict * pydict) : pydict :=
  list_to_map [("id", col (fst ce) "id"); ("page", col (fst ce) "page");
               ("bbox", col (fst ce) "bbox"); ("text", col (fst ce) "text");
               ("vector", col (snd ce) "vector")].

Definition get_embeddings (paper_id : value) (d : database) : exn + list pydict :=
  match bind_param paper_id with
  | inl e => inl e
  | inr pid => decode_rows json_loads (map joined_row (joined_rows pid d))
  end.

(** Annotations.  The statements touch the [annotations] table only, which
    is passed and returned as such. *)

Definition get_annotation (annotation_id : value) (t : list pydict) : exn + option pydict :=
  match bind_param annotation_id with
  | inl e => inl e
  | inr aid =>
      match List.find (fun r => sql_eqb (col r "id") aid) t with
      | None => inr None
      | Some r =>
          match
            match col r "geometry" with
            | VStr g => json_loads g
            | VBytes g => json_loads_bytes g
            | _ => inl (TypeError "the JSON object must be str, bytes or bytearray")
            end
          with
          | inl e => inl e
          | inr v => inr (Some (<["geometry" := v]> r))
          end
      end
  end.

Definition annotation_not_null : list string :=
  ["paper_id"; "page"; "type"; "geometry"; "created_at"; "updated_at"].

Definition save_annotation (now : string) (annotation : pydict) (t : list pydict)
    : exn + list pydict :=
  match lookup_key annotation "id" with
  | inl e => inl e
  | inr aid =>
      match get_annotation aid t with
      | inl e => inl e
      | inr (Some _) =>
          match lookup_key annotation "page", lookup_key annotation "type",
                lookup_key annotation "geometry" with
          | inl e, _, _ | inr _, inl e, _ | inr _, inr _, inl e => inl e
          | inr page, inr ty, inr geometry =>
              sql_update t annotation_not_null
                [("page", page); ("type", ty); ("geometry", VStr (json_dumps geometry));
                 ("color", default VNone (annotation !! "color"));
                 ("opacity", default (VFloat 1) (annotation !! "opacity"));
                 ("text_content", default VNone (annotation !! "text_content"));
                 ("updated_at", VStr now)]
                aid
          end
      | inr None =>
          match lookup_key annotation "paper_id", lookup_key annotation "page",
                lookup_key annotation "type", lookup_key annotation "geometry" with
          | inl e, _, _, _ | inr _, inl e, _, _ | inr _, inr _, inl e, _
          | inr _, inr _, inr _, inl e => inl e
          | inr pid, inr page, inr ty, inr geometry =>
              match bind_params
                      [("id", aid); ("paper_id", pid); ("page", page); ("type", ty);
                       ("geometry", VStr (json_dumps geometry));
                       ("color", default VNone (annotation !! "color"));
                       ("opacity", default (VFloat 1) (annotation !! "opacity"));
                       ("text_content", default VNone (annotation !! "text_content"));
                       ("created_at", VStr now); ("updated_at", VStr now)] with
              | inl e => inl e
              | inr values =>
                  if violates_not_null annotation_not_null values
                  then inl (DatabaseError "NOT NULL constraint failed")
                  else if has_id t "id" (col (list_to_map values) "id")
                  then inl (DatabaseError "UNIQUE constraint failed: annotations.id")
                  else inr (t ++ [list_to_map values])%list
              end
          end
      end
  end.

Definition delete_annotation (annotation_id : value) (t : list pydict) : exn + list pydict :=
  match bind_param annotation_id with
  | inl e => inl e
  | inr aid => inr (List.filter (fun r => negb (sql_eqb (col r "id") aid)) t)
  end.
End Store.

(** ** More of the processor and its callers *)

(** [set_progress_callback]. *)
Definition set_progress_callback (call : callback) (s : processor) : processor :=
  {| db := db s; _running := _running s; _current_job := _current_job s;
     _progress_callback := Some call; delivered := delivered s; clock := clock s |}.

Section Enqueue.
Variable json_dumps : value -> string.

(** [enqueue_paper_jobs]: the three ids are what [uuid.uuid4()] returns, the
    three times what the clock reads at each [add_job].  A job that cannot
    be added raises and leaves the earlier ones in the table. *)
Definition standard_jobs (id1 id2 id3 : string) (paper_id : value) : list pydict :=
  [list_to_map [("id", VStr id1); ("paper_id", paper_id); ("type", VStr "EXTRACT_TEXT");
                ("priority", VInt 10)];
   list_to_map [("id", VStr id2); ("paper_id", paper_id); ("type", VStr "EXTRACT_DOI");
                ("priority", VInt 5)];
   list_to_map [("id", VStr id3); ("paper_id", paper_id); ("type", VStr "EMBED");
                ("priority", VInt 1)]].

Fixpoint add_jobs (jobs_nows : list (pydict * string)) (d : database)
    : option exn * database :=
  match jobs_nows with
  | [] => (None, d)
  | (job, now) :: rest =>
      match add_job json_dumps now job d with
      | inl e => (Some e, d)
      | inr d' => add_jobs rest d'
      end
  end.

Definition enqueue_paper_jobs (id1 id2 id3 now1 now2 now3 : string) (paper_id : value)
    (d : database) : (exn + list pydict) * database :=
  let jobs := standard_jobs id1 id2 id3 paper_id in
  match add_jobs (combine jobs [now1; now2; now3]) d with
  | (Some e, d') => (inl e, d')
  | (None, d') => (inr jobs, d')
  end.
End Enqueue.

(** ** The API ([api/routes.py]) *)

(** What a refused request is answered with. *)
Inductive http_error : Type := HTTPException (status_code : Z) (detail : string).

(** [verify_token]; [auth_token] is [config.auth_token]. *)
Definition verify_token (auth_token : string) (authorization : option string)
    : http_error + string :=
  match authorization with
  | None | Some EmptyString => inl (HTTPException 401 "Missing authorization header")
  | Some authorization =>
      let token :=
        if String.prefix "Bearer " authorization
        then String.substring 7 (String.length authorization - 7) authorization
        else authorization in
      if String.eqb token auth_token then inr token
      else inl (HTTPException 401 "Invalid token")
  end.

(** [bool(v)]. *)
Definition truthy (v : value) : bool :=
  match v with
  | VNone => false
  | VBool b => b
  | VInt z => negb (z =? 0)
  | VFloat q => negb (Qeq_bool q 0)
  | VStr s => negb (String.eqb s EmptyString)
  | VBytes b => match b with [] => false | _ => true end
  | VDict d => match d with [] => false | _ => true end
  end.

(** The outcome of a route: refused with an HTTP error, failed with an
    exception nothing catches, or answered. *)
Inductive response (A : Type) : Type :=
| Refused (e : http_error)
| Failed (e : exn)
| Answered (a : A).
Arguments Refused {A} e.
Arguments Failed {A} e.
Arguments Answered {A} a.

Section Routes.
Variable json_loads : string -> exn + value.
Variable embed_text : string -> exn + list Z.
Variable dot_value : list Z -> list Z -> Q.

(** [semantic_search], after the token check; the answer is the list under
    ["results"]. *)
Definition semantic_search (paper_id query : string) (top_k : Z) (d : database)
    : response (list pydict) :=
  match get_paper (VStr paper_id) d with
  | None => Refused (HTTPException 404 "Paper not found")
  | Some paper =>
      if negb (truthy (default VNone (paper !! "embeddings_ready")))
      then Refused (HTTPException 400
             "Paper not ready for semantic search. Run batch processing first.")
      else
        match get_embeddings json_loads (VStr paper_id) d with
        | inl e => Failed e
        | inr [] => Refused (HTTPException 400 "No embeddings found for this paper")
        | inr chunks_with_embeddings =>
            match search embed_text dot_value query chunks_with_embeddings top_k with
            | inl e => Failed e
            | inr results =>
                match normalize_scores results with
                | inl e => Failed e
                | inr results => Answered results
                end
            end
        end
  end.
End Routes.

(** ** More predicates *)

(** A progress event carries a fraction. *)
Definition progress_in_range (ev : progress_event) : Prop :=
  (0 <= ev_progress ev)%Q /\ (ev_progress ev <= 1)%Q.

(** What running from [s] to [s'] may do to the observer and the clock:
    events are only appended, each carries a fraction, none is delivered
    when no observer is registered, the registration stays, and the clock
    does not run backwards. *)
Definition reported (s s' : processor) : Prop :=
  exists evs,
    delivered s' = (delivered s ++ evs)%list /\
    Forall progress_in_range evs /\
    (_progress_callback s = None -> evs = []) /\
    _progress_callback s' = _progress_callback s /\
    (clock s <= clock s')%nat.

(** What the observer does with an event delivered in [s]: the exception
    it raises, if it raises one ([None] also when none is registered). *)
Definition raised (s : processor) (ev : progress_event) : option exn :=
  match _progress_callback s with
  | Some call => call (delivered s) ev
  | None => None
  end.

(** The processor once the event has been handed to the observer. *)
Definition notified (s : processor) (ev : progress_event) : processor :=
  match _progress_callback s with
  | Some _ => with_delivered s (delivered s ++ [ev])
  | None => s
  end.

(** The [papers] table before and after: the same rows in the same places,
    each with every column outside the allowed list as it was. *)
Definition same_papers (d d' : database) : Prop :=
  Forall2 (same_outside paper_allowed_fields) (papers d) (papers d').

(** A computation that takes every processor to one related to it by
    [R]. *)
Definition preserves (R : processor -> processor -> Prop) {A : Type} (m : M A) : Prop :=
  forall s, R s (snd (m s)).

(** The number of rows with the given status. *)
Definition count_status (name : string) (t : list pydict) : nat :=
  length (List.filter (fun r => eq_str (col r "status") name) t).


(** What a statement stores for a value read from a dictionary: the key is
    there and its value binds to [w]. *)
Definition stored_as (v : option value) (w : value) : Prop :=
  exists x, v = Some x /\ bind_param x = inr w.

(** ** More sample data *)

Module Sample.
(** A fourth job for the sample queue. *)
Definition job4 : pydict := Demo.job "j4" "p1" "EXTRACT_DOI" 5.
Definition queue4 : database := Demo.enqueue (Demo.utcnow 3) job4 Demo.queue.

(** A third paper for the sample library, given with its id and its path
    only. *)
Definition paper3 : pydict :=
  list_to_map [("id", VStr "p3"); ("local_pdf_path", VStr "/pdfs/p3.pdf")].
Definition library3 : database :=
  match add_paper Demo.json_dumps "2024-05-02T08:00:00" paper3 Demo.library with
  | inr d => d
  | inl _ => Demo.library
  end.

(** The sample results, normalized. *)
Definition normalized : list pydict :=
  match normalize_scores Demo.results with
  | inr out => out
  | inl _ => []
  end.

(** An annotation saved twice. *)
Definition json_loads_bytes (b : list Byte.byte) : exn + value := inr (VDict []).
Definition annotation : pydict :=
  list_to_map [("id", VStr "a1"); ("paper_id", VStr "p1"); ("page", VInt 0);
               ("type", VStr "highlight"); ("geometry", VDict [])].
Definition save (now : string) (a : pydict) (t : list pydict) : exn + list pydict :=
  save_annotation Demo.json_dumps Demo.json_loads json_loads_bytes now a t.
Definition saved_once : list pydict :=
  match save "2024-05-02T09:00:00" annotation [] with
  | inr t => t
  | inl _ => []
  end.
Definition saved_twice : list pydict :=
  match save "2024-05-02T10:00:00" annotation saved_once with
  | inr t => t
  | inl _ => []
  end.

(** What the sample batch returns and the processor it leaves. *)
Definition result : exn + batch_result :=
  match Demo.run 4 (Demo.idle Demo.library) with
  | Some (r, _) => r
  | None => inr Busy
  end.
Definition after : processor :=
  match Demo.run 4 (Demo.idle Demo.library) with
  | Some (_, s') => s'
  | None => Demo.idle Demo.library
  end.

(** A job for a paper the library does not have. *)
Definition stray : pydict := Demo.job "j9" "p9" "EMBED" 1.
Definition process (job : pydict) (s : processor) : (exn + unit) * processor :=
  _process_job Demo.json_dumps Demo.json_loads Demo.utcnow Demo.pdf_exists Demo.path_str
    Demo.extract_text_from_pdf Demo.extract_doi_from_pdf Demo.embed_texts Demo.repr_other
    job s.
(** The text of [p1] extracted once more into the library the batch left,
    and [p1] embedded there. *)
Definition extract (p : pydict) (pdf_path : string) (s : processor)
    : (exn + unit) * processor :=
  _extract_text Demo.json_dumps Demo.utcnow Demo.extract_text_from_pdf p pdf_path s.
Definition extracted : (exn + unit) * processor :=
  extract (Demo.paper "p1" "/pdfs/p1.pdf") "/pdfs/p1.pdf" (Demo.idle Demo.indexed).
Definition embedded : processor :=
  snd (Demo.embed (Demo.paper "p1" "/pdfs/p1.pdf") (Demo.idle Demo.indexed)).

(** A callback that raises when a stage reports its end (progress 1.0), and
    an idle processor with it registered. *)
Definition strict : callback :=
  fun _ ev =>
    if Qeq_bool (ev_progress ev) 1 then Some (RuntimeError "callback failed") else None.
Definition watched (d : database) : processor :=
  set_progress_callback strict (Demo.idle d).
End Sample.

(** * Properties *)

(** ** Total preorders from comparisons *)

Section CmpOrder.
Context {A : Type}.

Variable cmp : A -> A -> comparison.
Hypothesis Hok : cmp_ok cmp.

Lemma cmp_eq_r a b c : cmp b c = Eq -> cmp a b = cmp a c.
Proof.
  intros H. rewrite (cmp_antisym _ Hok a b), (cmp_antisym _ Hok a c).
  f_equal. symmetry. apply (cmp_eq_l _ Hok).
  rewrite (cmp_antisym _ Hok), H. reflexivity.
Qed.

Lemma cmp_refl a : cmp a a = Eq.
Proof.
  pose proof (cmp_antisym _ Hok a a) as H. destruct (cmp a a); simpl in H; congruence.
Qed.

Lemma cmp_gt_trans a b c : cmp a b = Gt -> cmp b c = Gt -> cmp a c = Gt.
Proof.
  intros H1 H2. rewrite (cmp_antisym _ Hok).
  rewrite (cmp_lt_trans _ Hok c b a); [reflexivity | |].
  - rewrite (cmp_antisym _ Hok), H2. reflexivity.
  - rewrite (cmp_antisym _ Hok), H1. reflexivity.
Qed.

Lemma leb_of_total a b : leb_of cmp a b = true \/ leb_of cmp b a = true.
Proof.
  unfold leb_of. rewrite (cmp_antisym _ Hok b a).
  destruct (cmp a b); simpl; auto.
Qed.

Lemma leb_of_trans a b c :
  leb_of cmp a b = true -> leb_of cmp b c = true -> leb_of cmp a c = true.
Proof.
  unfold leb_of. intros H1 H2.
  destruct (cmp a b) eqn:Eab; try discriminate.
  - rewrite (cmp_eq_l _ Hok a b c Eab). exact H2.
  - destruct (cmp b c) eqn:Ebc; try discriminate.
    + rewrite (cmp_eq_r a b c Ebc) in Eab. rewrite Eab. reflexivity.
    + rewrite (cmp_lt_trans _ Hok a b c Eab Ebc). reflexivity.
Qed.

Lemma leb_of_refl a : leb_of cmp a a = true.
Proof. unfold leb_of. rewrite cmp_refl. reflexivity. Qed.
End CmpOrder.

(** Comparing through a key, reversing, and comparing by a second key on
    ties all keep a comparison a total preorder. *)
Section CmpCombinators.
Context {A B : Type}.

Lemma cmp_on_ok (f : B -> A) cmp : cmp_ok cmp -> cmp_ok (cmp_on f cmp).
Proof.
  intros [H1 H2 H3]. split; unfold cmp_on; intros.
  - apply H1.
  - eapply H2; eauto.
  - apply H3; assumption.
Qed.

Lemma cmp_rev_ok (cmp : A -> A -> comparison) : cmp_ok cmp -> cmp_ok (cmp_rev cmp).
Proof.
  intros H. split; unfold cmp_rev; intros.
  - apply (cmp_antisym _ H).
  - eapply (cmp_lt_trans _ H); eauto.
  - apply (cmp_eq_r _ H). rewrite (cmp_antisym _ H), H0. reflexivity.
Qed.

Lemma cmp_lex_ok (c1 c2 : A -> A -> comparison) :
  cmp_ok c1 -> cmp_ok c2 -> cmp_ok (cmp_lex c1 c2).
Proof.
  intros H1 H2. split; unfold cmp_lex.
  - intros a b. rewrite (cmp_antisym _ H1 a b).
    destruct (c1 b a); simpl; auto. apply (cmp_antisym _ H2).
  - intros a b c Hab Hbc.
    destruct (c1 a b) eqn:Eab; try discriminate;
      destruct (c1 b c) eqn:Ebc; try discriminate.
    + rewrite (cmp_eq_l _ H1 a b c Eab), Ebc. eapply (cmp_lt_trans _ H2); eauto.
    + rewrite (cmp_eq_l _ H1 a b c Eab), Ebc. reflexivity.
    + rewrite <- (cmp_eq_r _ H1 a b c Ebc), Eab. reflexivity.
    + rewrite (cmp_lt_trans _ H1 a b c Eab Ebc). reflexivity.
  - intros a b c Hab.
    destruct (c1 a b) eqn:Eab; try discriminate.
    rewrite (cmp_eq_l _ H1 a b c Eab).
    destruct (c1 b c); auto. apply (cmp_eq_l _ H2); assumption.
Qed.
End CmpCombinators.

Lemma Z_compare_ok : cmp_ok Z.compare.
Proof.
  split.
  - intros. apply Z.compare_antisym.
  - intros a b c. rewrite !Z.compare_lt_iff. lia.
  - intros a b c H. apply Z.compare_eq in H. subst. reflexivity.
Qed.

Lemma Q_compare_ok : cmp_ok Qcompare.
Proof.
  split.
  - intros. symmetry. apply Qcompare_antisym.
  - intros a b c. rewrite <- !Qlt_alt. apply Qlt_trans.
  - intros a b c H. apply Qeq_alt in H. rewrite H. reflexivity.
Qed.

Lemma string_compare_ok : cmp_ok String.compare.
Proof.
  split.
  - intros. apply String.compare_antisym.
  - intros a b c H1 H2.
    apply String_as_OT.cmp_lt. apply String_as_OT.cmp_lt in H1, H2.
    eapply String_as_OT.lt_trans; eauto.
  - intros a b c H. apply String.compare_eq_iff in H. subst. reflexivity.
Qed.

Lemma sql_compare_ok : cmp_ok sql_compare.
Proof.
  unfold sql_compare.
  repeat first [apply cmp_lex_ok | apply cmp_on_ok];
    auto using Z_compare_ok, Q_compare_ok, string_compare_ok.
Qed.

(** ** The stable sort sorts, permutes, and is stable *)

Section StableSort.
Context {A : Type}.
Variable leb : A -> A -> bool.

Lemma insert_sorted_perm x l : Permutation (insert_sorted leb x l) (x :: l).
Proof.
  induction l as [|y l IH]; simpl; [reflexivity|].
  destruct (leb x y); [reflexivity|].
  rewrite IH. apply perm_swap.
Qed.

Lemma stable_sort_perm l : Permutation (stable_sort leb l) l.
Proof.
  induction l as [|x l IH]; simpl; [reflexivity|].
  rewrite insert_sorted_perm. constructor. exact IH.
Qed.

Lemma stable_sort_length l : length (stable_sort leb l) = length l.
Proof. apply Permutation_length, stable_sort_perm. Qed.

Lemma stable_sort_In x l : In x (stable_sort leb l) <-> In x l.
Proof.
  split; apply Permutation_in; [|symmetry]; apply stable_sort_perm.
Qed.

Hypothesis leb_total : forall a b, leb a b = true \/ leb b a = true.
Hypothesis leb_trans :
  forall a b c, leb a b = true -> leb b c = true -> leb a c = true.

Lemma insert_sorted_sorted x l :
  StronglySorted (fun a b => leb a b = true) l ->
  StronglySorted (fun a b => leb a b = true) (insert_sorted leb x l).
Proof.
  induction 1 as [|y l Hs IH Hall]; simpl.
  - repeat constructor.
  - destruct (leb x y) eqn:E.
    + constructor; [constructor; assumption|].
      constructor; [assumption|].
      rewrite List.Forall_forall in Hall |- *. intros z Hz. eauto.
    + constructor; [assumption|].
      rewrite List.Forall_forall. intros z Hz.
      apply (Permutation_in _ (insert_sorted_perm x l)) in Hz.
      destruct Hz as [<-|Hz].
      * destruct (leb_total x y) as [H|H]; congruence.
      * rewrite List.Forall_forall in Hall. auto.
Qed.

Lemma stable_sort_sorted l :
  StronglySorted (fun a b => leb a b = true) (stable_sort leb l).
Proof.
  induction l; simpl; [constructor | apply insert_sorted_sorted; assumption].
Qed.
End StableSort.

(** Stability: a class of elements that already stand in order keeps its
    original order. *)
Section Stability.
Context {A : Type}.
Variable leb : A -> A -> bool.
Variable P : A -> bool.

Lemma filter_insert_sorted_out x l :
  P x = false -> List.filter P (insert_sorted leb x l) = List.filter P l.
Proof.
  intros Hx. induction l as [|y l IH]; simpl.
  - rewrite Hx. reflexivity.
  - destruct (leb x y); simpl; [rewrite Hx; reflexivity|].
    rewrite IH. reflexivity.
Qed.

Lemma filter_insert_sorted_in x l :
  P x = true ->
  (forall y, In y l -> P y = true -> leb x y = true) ->
  List.filter P (insert_sorted leb x l) = x :: List.filter P l.
Proof.
  intros Hx. induction l as [|y l IH]; simpl; intros Hall.
  - rewrite Hx. reflexivity.
  - destruct (leb x y) eqn:E; simpl.
    + rewrite Hx. reflexivity.
    + destruct (P y) eqn:Py.
      * rewrite Hall in E; auto. discriminate.
      * apply IH. intros z Hz. apply Hall. auto.
Qed.

Lemma stable_sort_stable l :
  StronglySorted (fun a b => leb a b = true) (List.filter P l) ->
  List.filter P (stable_sort leb l) = List.filter P l.
Proof.
  induction l as [|x l IH]; simpl; [reflexivity|].
  destruct (P x) eqn:Px; intros Hs.
  - inversion Hs as [|? ? Hs' Hall]; subst.
    rewrite filter_insert_sorted_in; auto.
    + rewrite IH; auto.
    + intros y Hy Py. rewrite List.Forall_forall in Hall. apply Hall.
      apply filter_In. split; [|assumption].
      apply stable_sort_In in Hy. exact Hy.
  - rewrite filter_insert_sorted_out; auto.
Qed.
End Stability.


Lemma StronglySorted_filter_impl {A : Type} (R R' : A -> A -> Prop) (P : A -> bool) l :
  (forall a b, P a = true -> P b = true -> R a b -> R' a b) ->
  StronglySorted R l -> StronglySorted R' (List.filter P l).
Proof.
  intros HR. induction 1 as [|x l Hs IH Hall]; simpl; [constructor|].
  destruct (P x) eqn:Px; [|exact IH].
  constructor; [exact IH|].
  rewrite List.Forall_forall in Hall |- *.
  intros y Hy. apply filter_In in Hy as [Hy Py]. auto.
Qed.

Lemma StronglySorted_weaken {A : Type} (R R' : A -> A -> Prop) l :
  (forall a b, R a b -> R' a b) -> StronglySorted R l -> StronglySorted R' l.
Proof.
  intros HR. induction 1 as [|x l Hs IH Hall]; constructor; auto.
  rewrite List.Forall_forall in Hall |- *. auto.
Qed.

(** ** The job store *)

Lemma job_cmp_ok : cmp_ok job_cmp.
Proof.
  unfold job_cmp.
  apply cmp_lex_ok; [apply cmp_rev_ok|]; apply cmp_on_ok; apply sql_compare_ok.
Qed.

Lemma job_leb_listed_before a b : leb_of job_cmp a b = true <-> listed_before a b.
Proof.
  unfold leb_of, job_cmp, cmp_lex, cmp_rev, cmp_on, listed_before.
  rewrite (cmp_antisym _ sql_compare_ok (col a "priority") (col b "priority")).
  destruct (sql_compare (col b "priority") (col a "priority")); simpl.
  - destruct (sql_compare (col a "created_at") (col b "created_at")); split;
      try discriminate; auto; intros [H|[_ H]]; congruence.
  - split; auto.
  - split; [discriminate|]. intros [H|[H _]]; discriminate.
Qed.

(** C1.  [get_pending_jobs] returns exactly the rows whose status is
    ['pending'], each as often as the table has it; any row listed earlier
    has a higher priority than a row listed later, or the same priority and
    a creation time that is not later; and when the table's creation times
    do not decrease along the order of insertion (the clock [add_job] reads
    does not run backwards), the jobs of any one priority are listed in the
    order they were inserted. *)
Theorem get_pending_jobs_ordered (d : database) :
  Permutation (get_pending_jobs d) (List.filter is_pending (jobs d)) /\
  StronglySorted listed_before (get_pending_jobs d) /\
  (StronglySorted created_no_later (jobs d) ->
   forall p, List.filter (has_priority p) (get_pending_jobs d)
             = List.filter (has_priority p) (List.filter is_pending (jobs d))).
Proof.
  unfold get_pending_jobs. split; [apply stable_sort_perm|]. split.
  - eapply StronglySorted_weaken; [intros a b; apply job_leb_listed_before|].
    apply stable_sort_sorted.
    + apply leb_of_total, job_cmp_ok.
    + apply leb_of_trans, job_cmp_ok.
  - intros Hclock p. apply stable_sort_stable.
    apply StronglySorted_filter_impl with (R := created_no_later).
    + intros a b Ha Hb Hab. apply job_leb_listed_before. right.
      unfold has_priority in Ha, Hb.
      destruct (sql_compare (col a "priority") p) eqn:Ea; try discriminate.
      destruct (sql_compare (col b "priority") p) eqn:Eb; try discriminate.
      split.
      * rewrite (cmp_eq_l _ sql_compare_ok _ _ _ Ea).
        rewrite (cmp_antisym _ sql_compare_ok), Eb. reflexivity.
      * unfold created_no_later, sql_leb, leb_of in Hab.
        destruct (sql_compare (col a "created_at") (col b "created_at"));
          congruence.
    + apply StronglySorted_filter_impl with (R := created_no_later); auto.
Qed.

Lemma in_order_sorted {A : Type} (leb : A -> A -> bool) (l : list A) :
  in_order leb l = true -> StronglySorted (fun a b => leb a b = true) l.
Proof.
  induction l as [|x l IH]; simpl; intros H; constructor;
    apply andb_prop in H as [H1 H2]; auto.
  rewrite List.Forall_forall. rewrite forallb_forall in H1. exact H1.
Qed.

Lemma get_pending_jobs_ordered_witness :
  map (fun r => col r "id")
      (List.filter (has_priority (VInt 10)) (get_pending_jobs Demo.queue))
  = [VStr "j2"; VStr "j3"].
Proof.
  rewrite (proj2 (proj2 (get_pending_jobs_ordered Demo.queue))).
  - vm_compute. reflexivity.
  - apply (in_order_sorted (fun a b => sql_leb (col a "created_at") (col b "created_at"))).
    vm_compute. reflexivity.
Defined.

(** ** Updates *)

Lemma bind_params_fst sets sets' :
  bind_params sets = inr sets' -> map fst sets' = map fst sets.
Proof.
  revert sets'. induction sets as [|[f v] sets IH]; simpl; intros sets' H.
  - inversion H. reflexivity.
  - destruct (bind_param v); [discriminate|].
    destruct (bind_params sets); [discriminate|].
    inversion H; subst. simpl. f_equal. apply IH. reflexivity.
Qed.

Lemma assign_lookup_other (r : pydict) sets c :
  ~ In c (map fst sets) -> assign r sets !! c = r !! c.
Proof.
  unfold assign. revert r. induction sets as [|[f v] sets IH]; simpl; intros r Hc.
  - reflexivity.
  - rewrite IH by tauto. apply lookup_insert_ne. intros ->. tauto.
Qed.

Lemma Forall2_map_same {A : Type} (R : A -> A -> Prop) (f : A -> A) (l : list A) :
  (forall x, R x (f x)) -> Forall2 R l (map f l).
Proof. intros H. induction l; simpl; constructor; auto. Qed.

Lemma sql_update_frame t not_null sets key t' (allowed : list string) :
  (forall f, In f (map fst sets) -> f ∈ allowed) ->
  sql_update t not_null sets key = inr t' ->
  Forall2 (same_outside allowed) t t'.
Proof.
  unfold sql_update. intros Hsub H.
  destruct (bind_params sets) as [|sets'] eqn:Eb; [discriminate|].
  destruct (bind_param key) as [|key']; [discriminate|].
  destruct (_ && _); [discriminate|].
  inversion H; subst. apply Forall2_map_same. intros r c Hc.
  destruct (sql_eqb _ _); [|reflexivity].
  apply assign_lookup_other. rewrite (bind_params_fst _ _ Eb). intros Hin.
  apply Hc, Hsub, Hin.
Qed.

Lemma set_clauses_allowed allowed updates f :
  In f (map fst (set_clauses allowed updates)) -> f ∈ allowed.
Proof.
  unfold set_clauses. rewrite in_map_iff. intros [fv [<- Hin]].
  apply filter_In in Hin as [_ H]. apply bool_decide_eq_true in H. exact H.
Qed.

Lemma set_clauses_idem allowed updates :
  set_clauses allowed (set_clauses allowed updates) = set_clauses allowed updates.
Proof.
  unfold set_clauses. induction updates as [|fv l IH]; simpl; [reflexivity|].
  destruct (bool_decide _) eqn:E; simpl; [rewrite E, IH|]; auto.
Qed.

Lemma encode_metadata_fst json_dumps fv : fst (encode_metadata json_dumps fv) = fst fv.
Proof.
  destruct fv as [f []]; simpl; try reflexivity.
  destruct (String.eqb f "metadata"); reflexivity.
Qed.

Lemma same_outside_same_on (allowed cols : list string) (r r' : pydict) :
  (forall c, c ∈ cols -> c ∉ allowed) -> same_outside allowed r r' -> same_on cols r r'.
Proof. intros H Hs c Hc. apply Hs, H, Hc. Qed.

Lemma Forall2_weaken {A : Type} (R R' : A -> A -> Prop) l l' :
  (forall a b, R a b -> R' a b) -> Forall2 R l l' -> Forall2 R' l l'.
Proof. intros H. induction 1; constructor; auto. Qed.

Lemma update_paper_frame json_dumps key updates d d' :
  update_paper json_dumps key updates d = inr d' ->
  Forall2 (same_outside paper_allowed_fields) (papers d) (papers d') /\
  chunks d' = chunks d /\ embeddings d' = embeddings d /\ jobs d' = jobs d.
Proof.
  unfold update_paper. intros H.
  destruct (map _ _) as [|fv sets] eqn:Es.
  - inversion H; subst. repeat split; auto. apply Forall2_same_length_lookup_2; auto.
    intros i x y Hx Hy. rewrite Hx in Hy. inversion Hy. intros c _. reflexivity.
  - destruct (sql_update _ _ _ _) as [|t] eqn:Eu; [discriminate|].
    inversion H; subst. simpl. repeat split; auto.
    eapply sql_update_frame; [|exact Eu].
    intros f Hf. rewrite <- Es in Hf. rewrite map_map in Hf.
    apply (set_clauses_allowed _ updates).
    rewrite in_map_iff in Hf |- *. destruct Hf as [x [Hx Hin]].
    exists x. rewrite encode_metadata_fst in Hx. auto.
Qed.

Lemma update_job_frame key updates d d' :
  update_job key updates d = inr d' ->
  Forall2 (same_outside job_allowed_fields) (jobs d) (jobs d') /\
  papers d' = papers d /\ chunks d' = chunks d /\ embeddings d' = embeddings d.
Proof.
  unfold update_job. intros H.
  destruct (set_clauses _ _) as [|fv sets] eqn:Es.
  - inversion H; subst. repeat split; auto. apply Forall2_same_length_lookup_2; auto.
    intros i x y Hx Hy. rewrite Hx in Hy. inversion Hy. intros c _. reflexivity.
  - destruct (sql_update _ _ _ _) as [|t] eqn:Eu; [discriminate|].
    inversion H; subst. simpl. repeat split; auto.
    eapply sql_update_frame; [|exact Eu].
    intros f Hf. rewrite <- Es in Hf. eapply set_clauses_allowed; eauto.
Qed.

(** C10.  A successful [update_paper] leaves every row of [papers] with the
    value it had in every column outside the allowed list, in particular in
    [id], [local_pdf_path] and [added_at], and leaves the other tables as
    they were; likewise [update_job] for [jobs] and the columns [id],
    [paper_id], [type], [priority] and [created_at].  Keys outside the
    allowed list are ignored: the call does what it does on the allowed
    items alone, and with no allowed item it returns without touching the
    database.  (A call that raises writes nothing.) *)
Theorem updates_touch_only_allowed_fields
    (json_dumps : value -> string) (key : value)
    (updates : list (string * value)) (d : database) :
  (forall d', update_paper json_dumps key updates d = inr d' ->
     Forall2 (same_outside paper_allowed_fields) (papers d) (papers d') /\
     Forall2 (same_on ["id"; "local_pdf_path"; "added_at"]) (papers d) (papers d') /\
     chunks d' = chunks d /\ embeddings d' = embeddings d /\ jobs d' = jobs d) /\
  (forall d', update_job key updates d = inr d' ->
     Forall2 (same_outside job_allowed_fields) (jobs d) (jobs d') /\
     Forall2 (same_on ["id"; "paper_id"; "type"; "priority"; "created_at"])
             (jobs d) (jobs d') /\
     papers d' = papers d /\ chunks d' = chunks d /\ embeddings d' = embeddings d) /\
  update_paper json_dumps key updates d
    = update_paper json_dumps key (set_clauses paper_allowed_fields updates) d /\
  update_job key updates d = update_job key (set_clauses job_allowed_fields updates) d /\
  (set_clauses paper_allowed_fields updates = [] ->
     update_paper json_dumps key updates d = inr d) /\
  (set_clauses job_allowed_fields updates = [] -> update_job key updates d = inr d).
Proof.
  repeat split.
  - apply (update_paper_frame _ _ _ _ _ H).
  - eapply Forall2_weaken; [|apply (update_paper_frame _ _ _ _ _ H)].
    intros a b. apply same_outside_same_on.
    intros c Hc. unfold paper_allowed_fields.
    set_unfold. intuition (subst; discriminate).
  - apply (update_paper_frame _ _ _ _ _ H).
  - apply (update_paper_frame _ _ _ _ _ H).
  - apply (update_paper_frame _ _ _ _ _ H).
  - apply (update_job_frame _ _ _ _ H).
  - eapply Forall2_weaken; [|apply (update_job_frame _ _ _ _ H)].
    intros a b. apply same_outside_same_on.
    intros c Hc. unfold job_allowed_fields.
    set_unfold. intuition (subst; discriminate).
  - apply (update_job_frame _ _ _ _ H).
  - apply (update_job_frame _ _ _ _ H).
  - apply (update_job_frame _ _ _ _ H).
  - unfold update_paper. rewrite set_clauses_idem. reflexivity.
  - unfold update_job. rewrite set_clauses_idem. reflexivity.
  - intros H. unfold update_paper. rewrite H. reflexivity.
  - intros H. unfold update_job. rewrite H. reflexivity.
Qed.


Lemma updates_touch_only_allowed_fields_witness :
  Forall2 (same_on ["id"; "paper_id"; "type"; "priority"; "created_at"])
          (jobs Demo.queue) (jobs Demo.queue_touched).
Proof.
  apply (proj1 (proj2 (updates_touch_only_allowed_fields
                         Demo.json_dumps (VStr "j2") Demo.touch Demo.queue))
           Demo.queue_touched).
  vm_compute. reflexivity.
Defined.

(** ** Marking a job as running *)

Lemma update_job_mark (jid now : string) (d : database) :
  update_job (VStr jid) (mark_running now) d
  = inr (with_jobs d (set_job (VStr jid) (mark_running now) (jobs d))).
Proof.
  unfold update_job, mark_running, set_clauses, sql_update. simpl.
  destruct (existsb _ _); reflexivity.
Qed.

(** C2, as the code has it.  Marking a job as running never looks at the
    job's current status: for every table and every job id the update
    succeeds, every row with that id gets status ['running'] and the given
    [started_at] and keeps its other columns, and every other row and table
    stays as it was. *)
Theorem mark_running_unconditional (jid now : string) (d : database) :
  exists d',
    update_job (VStr jid) (mark_running now) d = inr d' /\
    Forall2 (fun r r' =>
               if sql_eqb (col r "id") (VStr jid)
               then r' = <["started_at" := VStr now]> (<["status" := VStr "running"]> r)
               else r' = r)
            (jobs d) (jobs d') /\
    papers d' = papers d /\ chunks d' = chunks d /\ embeddings d' = embeddings d.
Proof.
  eexists. split; [apply update_job_mark|]. simpl. repeat split.
  unfold set_job. apply Forall2_map_same. intros r.
  destruct (sql_eqb _ _); reflexivity.
Qed.

(** C2, as stated, fails: [j2] has status ['completed'], and marking it as
    running succeeds and sets it to ['running']. *)
Lemma claim_rejects_non_pending_fails :
  map (fun r => (col r "id", col r "status")) (jobs Demo.queue_done)
    = [(VStr "j1", VStr "pending"); (VStr "j2", VStr "completed");
       (VStr "j3", VStr "pending")] /\
  match update_job (VStr "j2") (mark_running (Demo.utcnow 4)) Demo.queue_done with
  | inr d' =>
      map (fun r => (col r "id", col r "status")) (jobs d')
        = [(VStr "j1", VStr "pending"); (VStr "j2", VStr "running");
           (VStr "j3", VStr "pending")]
  | inl _ => False
  end /\
  ~ claim_rejects_non_pending.
Proof.
  split; [vm_compute; reflexivity|]. split; [vm_compute; reflexivity|].
  intros H. destruct (H Demo.queue_done "j2" (Demo.utcnow 4)) as [e He].
  - vm_compute. reflexivity.
  - rewrite update_job_mark in He. discriminate.
Qed.

(** ** The batch processor *)

Section BatchProperties.
Variable json_dumps : value -> string.
Variable json_loads : string -> exn + value.
Variable utcnow : nat -> string.
Variable pdf_exists : string -> bool.
Variable path_str : string -> string.
Variable extract_text_from_pdf : string -> exn + (list pydict * bool).
Variable extract_doi_from_pdf : string -> exn + option string.
Variable embed_texts : list value -> exn + list (list Z).
Variable repr_other : value -> string.

Local Notation process_job :=
  (_process_job json_dumps json_loads utcnow pdf_exists path_str
     extract_text_from_pdf extract_doi_from_pdf embed_texts repr_other).
Local Notation next_job :=
  (process_next json_dumps json_loads utcnow pdf_exists path_str
     extract_text_from_pdf extract_doi_from_pdf embed_texts repr_other).
Local Notation loop :=
  (batch_loop json_dumps json_loads utcnow pdf_exists path_str
     extract_text_from_pdf extract_doi_from_pdf embed_texts repr_other).
Local Notation batch :=
  (run_batch json_dumps json_loads utcnow pdf_exists path_str
     extract_text_from_pdf extract_doi_from_pdf embed_texts repr_other).


Lemma keeps_jobs_ret {A : Type} (a : A) : keeps_jobs (ret a).
Proof. intros s. split; reflexivity. Qed.

Lemma keeps_jobs_raise {A : Type} (e : exn) : keeps_jobs (@raise A e).
Proof. intros s. split; reflexivity. Qed.

Lemma keeps_jobs_lift {A : Type} (r : exn + A) : keeps_jobs (lift r).
Proof. intros s. split; reflexivity. Qed.

Lemma keeps_jobs_bind {A B : Type} (m : M A) (k : A -> M B) :
  keeps_jobs m -> (forall a, keeps_jobs (k a)) -> keeps_jobs (bind m k).
Proof.
  intros Hm Hk s. unfold bind. specialize (Hm s).
  destruct (m s) as [[e|a] s']; simpl in *; [exact Hm|].
  destruct (Hk a s') as [H1 H2]. destruct Hm as [H3 H4]. split; congruence.
Qed.

Lemma keeps_jobs_notify j st p msg : keeps_jobs (_notify_progress j st p msg).
Proof.
  intros s. unfold _notify_progress.
  destruct (_progress_callback s) as [call|]; [destruct (call _ _)|]; split; reflexivity.
Qed.

Lemma keeps_jobs_utcnow : keeps_jobs (utcnow_isoformat utcnow).
Proof. intros s. split; reflexivity. Qed.

Lemma keeps_jobs_exec (f : database -> exn + database) :
  (forall d d', f d = inr d' -> jobs d' = jobs d) -> keeps_jobs (exec f).
Proof.
  intros Hf s. unfold exec. destruct (f (db s)) as [e|d] eqn:E; simpl.
  - split; reflexivity.
  - split; [apply (Hf _ _ E) | reflexivity].
Qed.

Lemma keeps_jobs_for_each {A : Type} (f : A -> M unit) (l : list A) :
  (forall a, keeps_jobs (f a)) -> keeps_jobs (for_each f l).
Proof.
  intros Hf. induction l as [|x l IH]; simpl.
  - apply keeps_jobs_ret.
  - apply keeps_jobs_bind; auto.
Qed.

Lemma update_paper_jobs key updates d d' :
  update_paper json_dumps key updates d = inr d' -> jobs d' = jobs d.
Proof. intros H. apply (update_paper_frame _ _ _ _ _ H). Qed.

Lemma add_chunk_jobs c d d' : add_chunk json_dumps c d = inr d' -> jobs d' = jobs d.
Proof.
  unfold add_chunk. intros H.
  repeat case_match; simplify_eq; reflexivity.
Qed.

Lemma add_chunks_jobs cs d : jobs (snd (add_chunks json_dumps cs d)) = jobs d.
Proof.
  revert d. induction cs as [|c cs IH]; intros d; simpl; [reflexivity|].
  destruct (add_chunk json_dumps c d) as [e|d'] eqn:E; simpl; [reflexivity|].
  rewrite IH. apply (add_chunk_jobs _ _ _ E).
Qed.

Lemma add_embedding_jobs cid v d d' : add_embedding cid v d = inr d' -> jobs d' = jobs d.
Proof.
  unfold add_embedding. destruct (bind_param cid); intros H; inversion H; reflexivity.
Qed.

Create HintDb keeps.

Local Hint Resolve keeps_jobs_ret keeps_jobs_raise keeps_jobs_lift keeps_jobs_notify
  keeps_jobs_utcnow keeps_jobs_for_each : keeps.

Ltac keeps :=
  repeat first
    [ apply keeps_jobs_bind; [|intros ?]
    | apply keeps_jobs_exec; intros ? ?;
        first [apply update_paper_jobs | apply add_embedding_jobs]
    | solve [auto with keeps] ].

Lemma keeps_jobs_extract_text paper path :
  keeps_jobs (_extract_text json_dumps utcnow extract_text_from_pdf paper path).
Proof.
  unfold _extract_text.
  apply keeps_jobs_bind; [auto with keeps|intros paper_id].
  apply keeps_jobs_bind; [auto with keeps|intros _].
  apply keeps_jobs_bind; [auto with keeps|intros extracted].
  destruct (negb (snd extracted)); [keeps|].
  apply keeps_jobs_bind; [auto with keeps|intros _].
  apply keeps_jobs_bind.
  { apply keeps_jobs_exec. intros d d' H. inversion H. reflexivity. }
  intros _. apply keeps_jobs_bind; [|intros _; keeps].
  intros s. pose proof (add_chunks_jobs
    (map (fun chunk => <["paper_id" := paper_id]> chunk) (fst extracted)) (db s)) as H.
  destruct (add_chunks json_dumps _ (db s)) as [[e|] d]; simpl in *; auto.
Qed.

Lemma keeps_jobs_extract_doi paper path :
  keeps_jobs (_extract_doi json_dumps extract_doi_from_pdf paper path).
Proof.
  unfold _extract_doi.
  apply keeps_jobs_bind; [auto with keeps|intros paper_id].
  apply keeps_jobs_bind; [auto with keeps|intros _].
  apply keeps_jobs_bind; [auto with keeps|intros doi].
  destruct doi as [[|c rest]|]; keeps.
Qed.

Lemma keeps_jobs_compute_embeddings paper :
  keeps_jobs (_compute_embeddings json_dumps json_loads embed_texts repr_other paper).
Proof.
  unfold _compute_embeddings.
  apply keeps_jobs_bind; [auto with keeps|intros paper_id].
  apply keeps_jobs_bind; [intros s; split; reflexivity|intros chunks].
  destruct chunks as [|c cs]; [auto with keeps|].
  apply keeps_jobs_bind; [auto with keeps|intros _].
  apply keeps_jobs_bind; [|intros _; keeps].
  apply keeps_jobs_for_each. intros i. unfold embed_batch.
  apply keeps_jobs_bind; [auto with keeps|intros embs].
  apply keeps_jobs_bind; [|intros _; auto with keeps].
  apply keeps_jobs_for_each. intros ce. unfold store_embedding. keeps.
Qed.
Lemma update_job_completed (jid now : string) (d : database) :
  update_job (VStr jid) (mark_completed now) d
  = inr (with_jobs d (set_job (VStr jid) (mark_completed now) (jobs d))).
Proof.
  unfold update_job, mark_completed, set_clauses, sql_update. simpl.
  destruct (existsb _ _); reflexivity.
Qed.

Lemma update_job_failed (jid e now : string) (d : database) :
  update_job (VStr jid) (mark_failed e now) d
  = inr (with_jobs d (set_job (VStr jid) (mark_failed e now) (jobs d))).
Proof.
  unfold update_job, mark_failed, set_clauses, sql_update. simpl.
  destruct (existsb _ _); reflexivity.
Qed.

Lemma bind_run {A B : Type} (m : M A) (k : A -> M B) s :
  bind m k s = match m s with (inl e, s') => (inl e, s') | (inr a, s') => k a s' end.
Proof. reflexivity. Qed.

Lemma keeps_run {A : Type} (m : M A) s :
  keeps_jobs m -> exists r s', m s = (r, s') /\ jobs (db s') = jobs (db s) /\ _running s' = _running s.
Proof. intros H. destruct (H s) as [H1 H2]. destruct (m s) as [r s']. eauto. Qed.

Lemma notify_run j st p msg s :
  exists r s',
    _notify_progress j st p msg s = (r, s') /\ db s' = db s /\ _running s' = _running s /\
    clock s' = clock s /\ _progress_callback s' = _progress_callback s /\
    (_progress_callback s = None -> r = inr tt /\ s' = s).
Proof.
  unfold _notify_progress.
  destruct (_progress_callback s) as [call|] eqn:E; [destruct (call _ _)|];
    eexists _, _; (split; [reflexivity|]); simpl; repeat split; auto; discriminate.
Qed.

Lemma lookup_key_col (r : pydict) (k : string) (v : value) :
  col r k = v -> v <> VNone -> lookup_key r k = inr v.
Proof.
  unfold col, lookup_key. destruct (r !! k); simpl; intros; subst; [reflexivity|congruence].
Qed.

Lemma lookup_key_some (r : pydict) (k : string) (v : value) :
  r !! k = Some v -> lookup_key r k = inr v.
Proof. unfold lookup_key. intros ->. reflexivity. Qed.

Lemma process_job_jobs (job : pydict) (jid : string) (ty pid : value) (s : processor) :
  col job "id" = VStr jid -> job !! "type" = Some ty -> job !! "paper_id" = Some pid ->
  let J1 := set_job (VStr jid) (mark_running (utcnow (clock s))) (jobs (db s)) in
  match process_job job s with
  | (inl e, s') =>
      (jobs (db s') = J1 \/
       exists now, jobs (db s') = set_job (VStr jid) (mark_completed now) J1) /\
      _running s' = _running s
  | (inr _, s') =>
      (exists now, jobs (db s') = set_job (VStr jid) (mark_completed now) J1) /\
      _running s' = _running s
  end.
Proof.
  intros Hid Hty Hpid J1. unfold _process_job.
  rewrite bind_run. unfold lift at 1.
  rewrite (lookup_key_col _ _ _ Hid) by discriminate.
  rewrite bind_run. unfold lift at 1. rewrite (lookup_key_some _ _ _ Hty).
  rewrite bind_run. unfold lift at 1. rewrite (lookup_key_some _ _ _ Hpid).
  rewrite bind_run. unfold utcnow_isoformat at 1.
  rewrite bind_run. unfold exec at 1. simpl db.
  rewrite (update_job_mark jid). fold J1.
  rewrite bind_run.
  match goal with |- context [_notify_progress ?a ?b ?c ?d ?s] =>
    destruct (notify_run a b c d s) as (r1 & s1 & -> & Hdb1 & Hrun1 & _) end.
  simpl in Hdb1, Hrun1.
  destruct r1 as [e1|[]]; [rewrite Hdb1; simpl; auto|].
  rewrite bind_run. unfold query at 1.
  destruct (get_paper pid (db s1)) as [paper|]; [|simpl; rewrite Hdb1; auto].
  destruct (col paper "local_pdf_path") eqn:Epath; try (simpl; rewrite Hdb1; auto).
  destruct (negb (pdf_exists s0)); [simpl; rewrite Hdb1; auto|].
  rewrite bind_run.
  match goal with |- context [match ?m s1 with _ => _ end] =>
    assert (Hk : keeps_jobs m) end.
  { repeat case_match; auto using keeps_jobs_raise, keeps_jobs_extract_text,
      keeps_jobs_extract_doi, keeps_jobs_compute_embeddings. }
  destruct (keeps_run _ s1 Hk) as (r & s2 & -> & Hj2 & Hr2). clear Hk.
  rewrite Hdb1 in Hj2. simpl in Hj2.
  destruct r as [e|[]]; [split; [left|]; congruence|].
  rewrite bind_run. unfold utcnow_isoformat at 1.
  rewrite bind_run. unfold exec at 1. simpl db.
  rewrite (update_job_completed jid).
  match goal with |- context [_notify_progress ?a ?b ?c ?d ?s] =>
    destruct (notify_run a b c d s) as (r3 & s3 & -> & Hdb3 & Hrun3 & _) end.
  simpl in Hdb3, Hrun3.
  destruct r3 as [e3|[]]; rewrite Hdb3; simpl; rewrite Hj2;
    (split; [eauto|congruence]).
Qed.

Lemma sql_eqb_text (a b : string) : sql_eqb (VStr a) (VStr b) = true <-> a = b.
Proof.
  unfold sql_eqb, sql_compare, cmp_lex, cmp_on. simpl.
  destruct (String.compare a b) eqn:E; split; intros H; try discriminate; auto.
  - apply String.compare_eq_iff. exact E.
  - subst. rewrite (cmp_refl _ string_compare_ok b) in E. discriminate.
  - subst. rewrite (cmp_refl _ string_compare_ok b) in E. discriminate.
Qed.

Lemma assign_app (r : pydict) s1 s2 : assign r (s1 ++ s2) = assign (assign r s1) s2.
Proof. unfold assign. apply fold_left_app. Qed.

Lemma marks_allowed (c : string) (sets : list (string * value)) :
  (forall f, In f (map fst sets) -> In f job_allowed_fields) ->
  c ∉ job_allowed_fields -> ~ In c (map fst sets).
Proof. intros H Hc Hin. apply Hc, list_elem_of_In, H, Hin. Qed.

Lemma closed_row_frame (r : pydict) (s1 s2 : list (string * value)) :
  (forall f, In f (map fst s1) -> In f job_allowed_fields) ->
  (forall f, In f (map fst s2) -> In f job_allowed_fields) ->
  same_outside job_allowed_fields r (assign (assign r s1) s2).
Proof.
  intros H1 H2 c Hc. rewrite !assign_lookup_other; eauto using marks_allowed.
Qed.

Lemma same_outside_id (r r' : pydict) :
  same_outside job_allowed_fields r r' -> col r' "id" = col r "id".
Proof.
  intros H. unfold col. rewrite H; [reflexivity|].
  intros Hin. apply list_elem_of_In in Hin. simpl in Hin.
  repeat destruct Hin as [Hin|Hin]; try discriminate. exact Hin.
Qed.

Lemma closed_row_completed (r : pydict) a b :
  let r' := assign (assign r (mark_running a)) (mark_completed b) in
  col r' "id" = col r "id" /\ is_pending r' = false /\ outcome [] r r'.
Proof.
  intros r'. assert (Hout : same_outside job_allowed_fields r r').
  { apply closed_row_frame; simpl; tauto. }
  assert (Hst : col r' "status" = VStr "completed").
  { unfold r', col, assign. simpl. by simplify_map_eq. }
  split; [|split; [|split]].
  - apply same_outside_id, Hout.
  - unfold is_pending. rewrite Hst. reflexivity.
  - exact Hout.
  - left. split; [exact Hst|]. exists b. unfold r', col, assign. simpl. by simplify_map_eq.
Qed.

Lemma closed_row_failed (r : pydict) a e b :
  let r' := assign (assign r (mark_running a)) (mark_failed e b) in
  col r' "id" = col r "id" /\ is_pending r' = false /\ outcome [(col r "id", e)] r r' /\
  col r' "status" = VStr "failed" /\ col r' "error" = VStr e /\
  col r' "finished_at" = VStr b.
Proof.
  intros r'. assert (Hout : same_outside job_allowed_fields r r').
  { apply closed_row_frame; simpl; tauto. }
  assert (Hst : col r' "status" = VStr "failed").
  { unfold r', col, assign. simpl. by simplify_map_eq. }
  assert (He : col r' "error" = VStr e).
  { unfold r', col, assign. simpl. by simplify_map_eq. }
  assert (Hf : col r' "finished_at" = VStr b).
  { unfold r', col, assign. simpl. by simplify_map_eq. }
  repeat split; auto.
  - apply same_outside_id, Hout.
  - unfold is_pending. rewrite Hst. reflexivity.
  - right. split; [exact Hst|]. exists e, b. simpl. auto.
Qed.

Lemma set_job_twice key (s1 s2 : list (string * value)) t :
  ~ In "id" (map fst s1) ->
  set_job key s2 (set_job key s1 t)
  = map (fun r => if sql_eqb (col r "id") key then assign (assign r s1) s2 else r) t.
Proof.
  intros Hid. unfold set_job. rewrite map_map. apply map_ext. intros r.
  destruct (sql_eqb (col r "id") key) eqn:E.
  - unfold col at 1. rewrite assign_lookup_other by exact Hid. fold (col r "id").
    rewrite E. reflexivity.
  - rewrite E. reflexivity.
Qed.

Lemma set_job_thrice key (s1 s2 s3 : list (string * value)) t :
  ~ In "id" (map fst s1) -> ~ In "id" (map fst s2) ->
  set_job key s3 (set_job key s2 (set_job key s1 t))
  = map (fun r => if sql_eqb (col r "id") key
                  then assign (assign (assign r s1) s2) s3 else r) t.
Proof.
  intros H1 H2. unfold set_job. rewrite !map_map. apply map_ext. intros r.
  assert (Hc1 : col (assign r s1) "id" = col r "id")
    by (unfold col; rewrite assign_lookup_other by exact H1; reflexivity).
  assert (Hc2 : col (assign (assign r s1) s2) "id" = col r "id")
    by (unfold col; rewrite !assign_lookup_other by assumption; reflexivity).
  destruct (sql_eqb (col r "id") key) eqn:E.
  - rewrite Hc1, E, Hc2, E. reflexivity.
  - rewrite !E. reflexivity.
Qed.

(** A job that was marked completed and then failed: the last notification
    raised. *)
Lemma closed_row_late (r : pydict) a c e b :
  let r' := assign (assign (assign r (mark_running a)) (mark_completed c))
              (mark_failed e b) in
  col r' "id" = col r "id" /\ is_pending r' = false /\ outcome [(col r "id", e)] r r' /\
  col r' "status" = VStr "failed" /\ col r' "error" = VStr e /\
  col r' "finished_at" = VStr b.
Proof.
  intros r'. assert (Hout : same_outside job_allowed_fields r r').
  { intros k Hk. unfold r'.
    rewrite !assign_lookup_other; [reflexivity| | |];
      apply marks_allowed; simpl; tauto. }
  assert (Hst : col r' "status" = VStr "failed").
  { unfold r', col, assign. simpl. by simplify_map_eq. }
  assert (He : col r' "error" = VStr e).
  { unfold r', col, assign. simpl. by simplify_map_eq. }
  assert (Hf : col r' "finished_at" = VStr b).
  { unfold r', col, assign. simpl. by simplify_map_eq. }
  repeat split; auto.
  - apply same_outside_id, Hout.
  - unfold is_pending. rewrite Hst. reflexivity.
  - right. split; [exact Hst|]. exists e, b. simpl. auto.
Qed.

Lemma col_dict_row (columns : list string) (r : pydict) (k : string) :
  col (dict_row columns r) k = col r k.
Proof.
  induction columns as [|c cs IH]; simpl; [reflexivity|].
  unfold col. destruct (decide (c = k)) as [->|Hne].
  - rewrite lookup_insert_eq. reflexivity.
  - rewrite lookup_insert_ne by exact Hne. exact IH.
Qed.

Lemma lookup_dict_row (columns : list string) (r : pydict) (k : string) :
  In k columns -> dict_row columns r !! k = Some (col r k).
Proof.
  induction columns as [|c cs IH]; simpl; [tauto|].
  intros Hin. destruct (decide (c = k)) as [->|Hne].
  - apply lookup_insert_eq.
  - rewrite lookup_insert_ne by exact Hne. apply IH. tauto.
Qed.

(** One job leaves the pending set. *)
Lemma close_one (f : pydict -> pydict) (jid : string) (job : pydict) (t : list pydict)
    (R : pydict -> pydict -> Prop) :
  (forall r, col (f r) "id" = col r "id") ->
  (forall r, is_pending (f r) = false) ->
  (forall r, R r r) -> R job (f job) ->
  text_ids t -> In job t -> is_pending job = true -> col job "id" = VStr jid ->
  let t' := map (fun r => if sql_eqb (col r "id") (VStr jid) then f r else r) t in
  text_ids t' /\
  S (length (List.filter is_pending t')) = length (List.filter is_pending t) /\
  Forall2 R t t' /\ In (f job) t'.
Proof.
  intros Hfid Hfp Hrefl HR [Htxt Hnd] Hin Hpend Hjid t'.
  assert (Hids : map (fun r => col r "id") t' = map (fun r => col r "id") t).
  { unfold t'. rewrite map_map. apply map_ext. intros r.
    destruct (sql_eqb _ _); auto. }
  split; [split|].
  - unfold t'. rewrite List.Forall_forall in Htxt |- *. intros r' Hr'.
    apply in_map_iff in Hr' as [r [<- Hr]].
    destruct (Htxt r Hr) as [i Hi].
    destruct (sql_eqb _ _); [rewrite Hfid|]; eauto.
  - rewrite Hids. exact Hnd.
  - clear Hids. unfold t'. clear t'.
    induction t as [|r t IH]; [destruct Hin|].
    inversion Htxt as [|? ? [i Hi] Htxt']; subst.
    inversion Hnd as [|? ? Hnotin Hnd']; subst.
    simpl. rewrite Hi. destruct (sql_eqb (VStr i) (VStr jid)) eqn:E.
    + apply sql_eqb_text in E. subst i.
      assert (r = job) as ->.
      { destruct Hin as [|Hin]; [assumption|]. exfalso. apply Hnotin.
        rewrite Hi, <- Hjid. apply list_elem_of_In, in_map_iff. eauto. }
      assert (Hrest : map (fun r => if sql_eqb (col r "id") (VStr jid) then f r else r) t = t).
      { rewrite <- (map_id t) at 2. apply map_ext_in. intros r Hr.
        destruct (sql_eqb (col r "id") (VStr jid)) eqn:E; [|reflexivity].
        exfalso. apply Hnotin. rewrite List.Forall_forall in Htxt'.
        destruct (Htxt' r Hr) as [i' Hi']. rewrite Hi' in E.
        apply sql_eqb_text in E. subst i'. rewrite Hi, <- Hi'.
        apply list_elem_of_In, in_map_iff. eauto. }
      rewrite Hrest, Hfp, Hpend. simpl. repeat split; auto.
      constructor; auto. apply Forall2_same_length_lookup_2; auto.
      intros k x y Hx Hy. rewrite Hx in Hy. inversion Hy. auto.
    + assert (Hin' : In job t).
      { destruct Hin as [->|]; [|assumption]. rewrite Hi in Hjid. inversion Hjid; subst.
        rewrite (proj2 (sql_eqb_text jid jid)) in E by reflexivity. discriminate. }
      destruct (IH Htxt' Hnd' Hin') as (Hlen & Hall & Hinf).
      repeat split.
      * destruct (is_pending r); simpl; congruence.
      * constructor; auto.
      * right. exact Hinf.
Qed.

Lemma next_job_step (job : pydict) (jid : string) (ty pid : value) (t : tally)
    (s : processor) :
  col job "id" = VStr jid -> job !! "type" = Some ty -> job !! "paper_id" = Some pid ->
  exists s' a b,
    _running s' = _running s /\
    ((next_job job t s = (inr (Tally (S (processed t)) (failed t) (errors t)), s') /\
      jobs (db s') = set_job (VStr jid) (mark_completed b)
                       (set_job (VStr jid) (mark_running a) (jobs (db s)))) \/
     (exists e s1,
        process_job job (with_current_job s (Some job)) = (inl e, s1) /\
        next_job job t s
          = (inr (Tally (processed t) (S (failed t))
                    (errors t ++ [(VStr jid, exn_str e)])), s') /\
        (jobs (db s') = set_job (VStr jid) (mark_failed (exn_str e) b)
                          (set_job (VStr jid) (mark_running a) (jobs (db s))) \/
         exists c,
           jobs (db s') = set_job (VStr jid) (mark_failed (exn_str e) b)
                            (set_job (VStr jid) (mark_completed c)
                               (set_job (VStr jid) (mark_running a) (jobs (db s))))))).
Proof.
  intros Hid Hty Hpid. unfold process_next.
  pose proof (process_job_jobs job jid ty pid (with_current_job s (Some job)) Hid Hty Hpid)
    as H.
  simpl in H.
  destruct (process_job job (with_current_job s (Some job))) as [[e|u] s1].
  - destruct H as [Hj Hr]. cbv beta iota.
    assert (Hfail :
      (let! job_id := lift (lookup_key job "id") in
       let! now := utcnow_isoformat utcnow in
       let! _ := exec (update_job job_id (mark_failed (exn_str e) now)) in
       ret job_id) s1
      = (inr (VStr jid),
         with_db (with_clock s1 (S (clock s1)))
           (with_jobs (db s1)
              (set_job (VStr jid) (mark_failed (exn_str e) (utcnow (clock s1)))
                 (jobs (db s1)))))).
    { unfold bind, lift, utcnow_isoformat, exec, ret.
      rewrite (lookup_key_col _ _ _ Hid) by discriminate. simpl db.
      rewrite (update_job_failed jid). reflexivity. }
    rewrite Hfail.
    eexists _, _, _. split; [|right; exists e, s1; split; [reflexivity|split; [reflexivity|]]].
    + simpl. exact Hr.
    + simpl. destruct Hj as [Hj|[c Hj]]; rewrite Hj; [left|right; exists c]; reflexivity.
  - destruct H as [[now Hj] Hr]. cbv beta iota.
    eexists _, _, _. split; [|left; split; [reflexivity|]].
    + simpl. exact Hr.
    + simpl. exact Hj.
Qed.

Lemma advanced_refl errs r : advanced errs r r.
Proof. left. reflexivity. Qed.

Lemma outcome_weaken e1 e2 r r' :
  (forall x, In x e1 -> In x e2) -> outcome e1 r r' -> outcome e2 r r'.
Proof.
  intros Hsub [H1 H2]. split; [exact H1|].
  destruct H2 as [H2|[H2 (e & t & H3 & H4 & H5)]]; [left; exact H2|].
  right. split; [exact H2|]. exists e, t. auto.
Qed.

Lemma advanced_trans e1 e2 a b c :
  advanced e1 a b -> advanced e2 b c -> advanced (e1 ++ e2) a c.
Proof.
  intros [->|(Ha & Hb & Ho)] [->|(Hb' & Hc & Ho')].
  - left. reflexivity.
  - right. split; [|split]; auto. eapply outcome_weaken; [|exact Ho'].
    intros x Hx. apply in_or_app. auto.
  - right. split; [|split]; auto. eapply outcome_weaken; [|exact Ho].
    intros x Hx. apply in_or_app. auto.
  - congruence.
Qed.

Lemma Forall2_compose {A : Type} (R S Q : A -> A -> Prop) l1 l2 l3 :
  (forall a b c, R a b -> S b c -> Q a c) ->
  Forall2 R l1 l2 -> Forall2 S l2 l3 -> Forall2 Q l1 l3.
Proof.
  intros H H1. revert l3. induction H1; intros l3 H2; inversion H2; subst;
    constructor; eauto.
Qed.

Lemma Forall2_In_l {A : Type} (R : A -> A -> Prop) l1 l2 x :
  Forall2 R l1 l2 -> In x l1 -> exists y, In y l2 /\ R x y.
Proof.
  induction 1 as [|a b l1 l2 Hab H12 IH]; intros Hin; [destruct Hin|].
  destruct Hin as [->|Hin]; simpl; eauto.
  destruct (IH Hin) as (z & Hz & HR). eauto.
Qed.

Lemma recorded_kept errs t t' je :
  Forall2 (advanced errs) t t' -> recorded t je -> recorded t' je.
Proof.
  intros Hall (r & Hin & Hid & Hst & He & Hf).
  destruct (Forall2_In_l _ _ _ _ Hall Hin) as (r' & Hin' & [->|(Hp & _)]).
  - exists r. auto.
  - unfold is_pending in Hp. rewrite Hst in Hp. discriminate.
Qed.

Lemma loop_drains (n : nat) : forall (s : processor) (t : tally),
  text_ids (jobs (db s)) ->
  length (List.filter is_pending (jobs (db s))) = n ->
  exists p f errs s',
    (forall fuel, (n < fuel)%nat ->
       loop fuel t s
       = Some (inr (Tally (processed t + p) (failed t + f) (errors t ++ errs)), s')) /\
    _running s' = _running s /\
    List.filter is_pending (jobs (db s')) = [] /\
    (p + f = n)%nat /\ f = length errs /\
    Forall2 (advanced errs) (jobs (db s)) (jobs (db s')) /\
    Forall (recorded (jobs (db s'))) errs.
Proof.
  induction n as [|n IH]; intros s t Hwf Hlen.
  - exists 0%nat, 0%nat, [], s.
    apply length_zero_iff_nil in Hlen.
    split; [|repeat split; auto].
    + intros [|fuel] Hf; [lia|]. simpl. unfold get_pending_jobs. rewrite Hlen. simpl.
      destruct t. simpl. rewrite !Nat.add_0_r, app_nil_r. reflexivity.
    + apply Forall2_same_length_lookup_2; auto.
      intros k x y Hx Hy. rewrite Hx in Hy. inversion Hy. apply advanced_refl.
  - destruct (get_pending_jobs (db s)) as [|job rest] eqn:Ep.
    { apply (f_equal (@length _)) in Ep. unfold get_pending_jobs in Ep.
      rewrite stable_sort_length, Hlen in Ep. discriminate. }
    assert (Hjob : In job (List.filter is_pending (jobs (db s)))).
    { apply (stable_sort_In (leb_of job_cmp)). fold (get_pending_jobs (db s)).
      rewrite Ep. left. reflexivity. }
    apply filter_In in Hjob as [Hin Hpend].
    assert (exists jid, col job "id" = VStr jid) as [jid Hid].
    { destruct Hwf as [Htxt _]. rewrite List.Forall_forall in Htxt. auto. }
    assert (Hid' : col (dict_row job_columns job) "id" = VStr jid)
      by (rewrite col_dict_row; exact Hid).
    destruct (next_job_step (dict_row job_columns job) jid (col job "type")
                (col job "paper_id") t s Hid')
      as (s1 & a & b & Hrun1 & Hstep).
    { apply lookup_dict_row. simpl. tauto. }
    { apply lookup_dict_row. simpl. tauto. }
    destruct Hstep as [[Hnext Hjobs]|(e & s0 & Hraise & Hnext & Hjobs)].
    + rewrite set_job_twice in Hjobs by (simpl; intuition discriminate).
      destruct (closed_row_completed job a b) as (Hcid & Hcp & Hco).
      destruct (close_one (fun r => assign (assign r (mark_running a)) (mark_completed b))
                  jid job (jobs (db s)) (advanced []))
        as (Hwf1 & Hlen1 & Hall1 & Hin1); auto.
      { intros r. apply closed_row_completed. }
      { intros r. apply closed_row_completed. }
      { apply advanced_refl. }
      { right. auto. }
      rewrite <- Hjobs in Hwf1, Hlen1, Hall1, Hin1.
      destruct (IH s1 (Tally (S (processed t)) (failed t) (errors t)) Hwf1)
        as (p & f & errs & s' & Hloop & Hrun & Hnone & Hsum & Hflen & Hall & Hrec).
      { lia. }
      exists (S p), f, errs, s'. simpl in Hloop. repeat split; auto.
      * intros [|fuel] Hf; [lia|]. cbn [batch_loop]. rewrite Ep, Hnext.
        rewrite Hloop by lia. repeat f_equal. lia.
      * congruence.
      * lia.
      * eapply Forall2_compose; [|exact Hall1|exact Hall].
        intros x y z H1 H2. apply (advanced_trans [] errs x y z H1 H2).
    + assert (Hclose : exists close : pydict -> pydict,
                jobs (db s1)
                = map (fun r => if sql_eqb (col r "id") (VStr jid) then close r else r)
                      (jobs (db s)) /\
                forall r,
                  col (close r) "id" = col r "id" /\ is_pending (close r) = false /\
                  outcome [(col r "id", exn_str e)] r (close r) /\
                  col (close r) "status" = VStr "failed" /\
                  col (close r) "error" = VStr (exn_str e) /\
                  col (close r) "finished_at" = VStr b).
      { destruct Hjobs as [Hjobs|[c Hjobs]].
        - rewrite set_job_twice in Hjobs by (simpl; intuition discriminate).
          eexists. split; [exact Hjobs|]. intros r. apply closed_row_failed.
        - rewrite set_job_thrice in Hjobs by (simpl; intuition discriminate).
          eexists. split; [exact Hjobs|]. intros r. apply closed_row_late. }
      destruct Hclose as (close & Hjobs' & Hclosed).
      destruct (Hclosed job) as (Hcid & Hcp & Hco & Hst & Herr & Hfin).
      rewrite Hid in Hco.
      destruct (close_one close jid job (jobs (db s)) (advanced [(VStr jid, exn_str e)]))
        as (Hwf1 & Hlen1 & Hall1 & Hin1); auto.
      { intros r. apply Hclosed. }
      { intros r. apply Hclosed. }
      { apply advanced_refl. }
      { right. auto. }
      rewrite <- Hjobs' in Hwf1, Hlen1, Hall1, Hin1.
      destruct (IH s1 (Tally (processed t) (S (failed t))
                         (errors t ++ [(VStr jid, exn_str e)])) Hwf1)
        as (p & f & errs & s' & Hloop & Hrun & Hnone & Hsum & Hflen & Hall & Hrec).
      { lia. }
      exists p, (S f), ((VStr jid, exn_str e) :: errs), s'. simpl in Hloop.
      repeat split; auto.
      * intros [|fuel] Hf; [lia|]. cbn [batch_loop]. rewrite Ep, Hnext.
        rewrite Hloop by lia. rewrite <- app_assoc. simpl. repeat f_equal. lia.
      * congruence.
      * lia.
      * simpl. congruence.
      * eapply Forall2_compose; [|exact Hall1|exact Hall].
        intros x y z H1 H2.
        apply (advanced_trans [(VStr jid, exn_str e)] errs x y z H1 H2).
      * constructor; [|exact Hrec].
        apply (recorded_kept errs (jobs (db s1))); [exact Hall|].
        exists (close job).
        split; [exact Hin1|]. split; [simpl fst; rewrite <- Hid; exact Hcid|].
        split; [exact Hst|]. split; [exact Herr|]. eauto.
Qed.

Lemma settled_of_advanced errs t t' :
  List.filter is_pending t' = [] ->
  Forall2 (advanced errs) t t' -> Forall2 (settled errs) t t'.
Proof.
  intros Hnone Hall.
  assert (Hnp : forall r', In r' t' -> is_pending r' = false).
  { intros r' Hin. destruct (is_pending r') eqn:E; [|reflexivity].
    assert (In r' (List.filter is_pending t')) as H by (apply filter_In; auto).
    rewrite Hnone in H. destruct H. }
  induction Hall as [|r r' l l' Hr Hl IH]; constructor.
  - unfold settled. destruct Hr as [->|(Hp & Hp' & Ho)].
    + rewrite (Hnp r) by (left; reflexivity). reflexivity.
    + rewrite Hp. exact Ho.
  - apply IH.
    + simpl in Hnone. destruct (is_pending r'); [discriminate|exact Hnone].
    + intros x Hx. apply Hnp. right. exact Hx.
Qed.

(** C4.  On a processor that is not running, over a job table whose ids are
    text and distinct, [run_batch] returns a summary with any fuel above the
    number of pending jobs, and then:
    - whenever [_process_job] raises [e] on a job, that turn of the loop
      ends normally, having counted one failure, appended
      [(job id, str(e))] to the errors, and written status ['failed'], the
      error text and [finished_at] to the job's row;
    - no job is left pending, and [processed + failed] is the number of jobs
      that were pending, so every pending job was run in this batch;
    - every row that was pending ends completed with [finished_at] set, or
      failed with a non-null error text and [finished_at] set and its
      [(id, error)] in the summary; every other row is untouched;
    - every entry of the summary has its failed row, and [failed] is the
      number of entries. *)
Theorem run_batch_isolates_failures (s : processor) :
  _running s = false -> text_ids (jobs (db s)) ->
  (forall job jid t s0 e s1,
     col job "id" = VStr jid ->
     process_job job (with_current_job s0 (Some job)) = (inl e, s1) ->
     exists s2,
       next_job job t s0
       = (inr (Tally (processed t) (S (failed t))
                 (errors t ++ [(VStr jid, exn_str e)])), s2) /\
       jobs (db s2) = set_job (VStr jid) (mark_failed (exn_str e) (utcnow (clock s1)))
                        (jobs (db s1))) /\
  exists p f errs s',
    (forall fuel, (length (get_pending_jobs (db s)) < fuel)%nat ->
       batch fuel s
       = Some (inr (Completed p f (match errs with [] => None | l => Some l end)), s')) /\
    _running s' = false /\
    get_pending_jobs (db s') = [] /\
    (p + f = length (get_pending_jobs (db s)))%nat /\
    f = length errs /\
    Forall2 (settled errs) (jobs (db s)) (jobs (db s')) /\
    Forall (recorded (jobs (db s'))) errs.
Proof.
  intros Hrun Hwf. split.
  - intros job jid t s0 e s1 Hid Hraise. unfold process_next. rewrite Hraise.
    unfold bind, lift, utcnow_isoformat, exec, ret.
    rewrite (lookup_key_col _ _ _ Hid) by discriminate. simpl db.
    rewrite (update_job_failed jid). eexists. split; reflexivity.
  - destruct (loop_drains (length (List.filter is_pending (jobs (db s))))
                (with_running s true) (Tally 0 0 []) Hwf eq_refl)
      as (p & f & errs & s' & Hloop & Hrun' & Hnone & Hsum & Hflen & Hall & Hrec).
    simpl in Hloop, Hall.
    assert (Hlen : length (get_pending_jobs (db s))
                   = length (List.filter is_pending (jobs (db s)))).
    { unfold get_pending_jobs. apply stable_sort_length. }
    exists p, f, errs, (with_running s' false). repeat split; auto.
    + intros fuel Hfuel. unfold run_batch. rewrite Hrun.
      rewrite Hloop by (rewrite <- Hlen; exact Hfuel). simpl.
      destruct errs; reflexivity.
    + simpl. unfold get_pending_jobs. rewrite Hnone. reflexivity.
    + lia.
    + simpl. apply settled_of_advanced; assumption.
Qed.
End BatchProperties.

Lemma text_ids_check_sound (t : list pydict) : text_ids_check t = true -> text_ids t.
Proof.
  unfold text_ids_check, text_ids. intros H. apply andb_prop in H as [Hall Hd].
  assert (Hmem : forall l i, In (VStr i) (map (fun r => col r "id") l) -> In i (omap id_text l)).
  { induction l as [|r l IH]; simpl; intros i Hi; [destruct Hi|].
    unfold id_text at 1. destruct Hi as [Hi|Hi].
    - rewrite Hi. left. reflexivity.
    - destruct (col r "id"); simpl; auto. }
  induction t as [|r t IH].
  - split; constructor.
  - change ((match id_text r with Some _ => true | None => false end)
            && forallb (fun r => match id_text r with Some _ => true | None => false end) t
            = true) in Hall.
    apply andb_prop in Hall as [Hr Hall].
    destruct (id_text r) as [i|] eqn:Eid; [|discriminate].
    assert (Ei : col r "id" = VStr i).
    { unfold id_text in Eid. destruct (col r "id"); congruence. }
    assert (Ho : omap id_text (r :: t) = i :: omap id_text t).
    { change (omap id_text (r :: t))
        with (match id_text r with
              | Some j => j :: omap id_text t
              | None => omap id_text t
              end).
      rewrite Eid. reflexivity. }
    rewrite Ho in Hd. clear Ho.
    change (negb (existsb (String.eqb i) (omap id_text t))
            && distinct (omap id_text t) = true) in Hd.
    apply andb_prop in Hd as [Hfresh Hd].
    destruct (IH Hall Hd) as [IH1 IH2]. split.
    + constructor; eauto.
    + constructor; [|exact IH2].
      intros Hin. rewrite Ei in Hin. apply list_elem_of_In, Hmem in Hin.
      apply negb_true_iff in Hfresh.
      assert (existsb (String.eqb i) (omap id_text t) = true) as Hex.
      { apply existsb_exists. exists i. split; [exact Hin|apply String.eqb_refl]. }
      rewrite Hex in Hfresh. discriminate.
Qed.


(** The sample batch: [j2] fails for want of chunks, and [j3] and [j1] are
    still run. *)
Example demo_batch :
  match Demo.run 4 (Demo.idle Demo.library) with
  | Some (inr result, s') =>
      result = Completed 2 1
                 (Some [(VStr "j2",
                         "No chunks found for paper p2. Run text extraction first.")]) /\
      map (fun r => (col r "id", col r "status")) (jobs (db s'))
        = [(VStr "j1", VStr "completed"); (VStr "j2", VStr "failed");
           (VStr "j3", VStr "completed")] /\
      map (fun r => (col r "id", col r "embeddings_ready")) (papers (db s'))
        = [(VStr "p1", VInt 1); (VStr "p2", VInt 0)]
  | _ => False
  end.
Proof. vm_compute. repeat split. Qed.

Lemma run_batch_isolates_failures_witness :
  exists p f errs s',
    (forall fuel, (length (get_pending_jobs (db (Demo.idle Demo.library))) < fuel)%nat ->
       Demo.run fuel (Demo.idle Demo.library)
       = Some (inr (Completed p f (match errs with [] => None | l => Some l end)), s')) /\
    _running s' = false /\
    get_pending_jobs (db s') = [] /\
    (p + f = length (get_pending_jobs (db (Demo.idle Demo.library))))%nat /\
    f = length errs /\
    Forall2 (settled errs) (jobs (db (Demo.idle Demo.library))) (jobs (db s')) /\
    Forall (recorded (jobs (db s'))) errs.
Proof.
  apply (run_batch_isolates_failures Demo.json_dumps Demo.json_loads Demo.utcnow
           Demo.pdf_exists Demo.path_str Demo.extract_text_from_pdf
           Demo.extract_doi_from_pdf Demo.embed_texts Demo.repr_other
           (Demo.idle Demo.library)).
  - reflexivity.
  - apply text_ids_check_sound. vm_compute. reflexivity.
Defined.

(** ** The embedding pass *)

Lemma col_emb_row cid v : col (emb_row cid v) "chunk_id" = cid.
Proof. unfold col, emb_row. simpl. by simplify_map_eq. Qed.

Lemma store_embedding_text (ce : pydict * list Z) (s : processor) :
  (exists i, col (fst ce) "id" = VStr i) ->
  store_embedding ce s
  = (inr tt, with_db s (with_embeddings (db s) (write_embedding (embeddings (db s)) ce))).
Proof.
  intros [i Hi]. unfold store_embedding, exec, add_embedding, write_embedding.
  rewrite Hi. reflexivity.
Qed.

Lemma store_embeddings_text (W : list (pydict * list Z)) : forall s,
  Forall (fun ce => exists i, col (fst ce) "id" = VStr i) W ->
  for_each store_embedding W s
  = (inr tt, with_db s (with_embeddings (db s) (fold_left write_embedding W (embeddings (db s))))).
Proof.
  induction W as [|ce W IH]; intros s HW.
  - simpl. unfold ret. destruct s as [[]]; reflexivity.
  - inversion HW; subst. simpl. unfold bind.
    rewrite store_embedding_text by assumption.
    rewrite IH by assumption. reflexivity.
Qed.

Lemma In_insert_or_replace (t : list pydict) k r x :
  In x (insert_or_replace t k r) <->
  x = r \/ (In x t /\ sql_eqb (col x k) (col r k) = false).
Proof.
  unfold insert_or_replace. rewrite in_app_iff, filter_In. simpl.
  rewrite negb_true_iff. intuition.
Qed.

Lemma write_kept (W : list (pydict * list Z)) : forall t x,
  In x t ->
  (forall ce, In ce W -> sql_eqb (col x "chunk_id") (col (fst ce) "id") = false) ->
  In x (fold_left write_embedding W t).
Proof.
  induction W as [|ce W IH]; intros t x Hx HW; simpl; [exact Hx|].
  apply IH.
  - unfold write_embedding. apply In_insert_or_replace. right. split; [exact Hx|].
    rewrite col_emb_row. apply HW. left. reflexivity.
  - intros ce' Hce'. apply HW. right. exact Hce'.
Qed.


Lemma written_all (W : list (pydict * list Z)) : forall t,
  text_ids (map fst W) ->
  Forall (fun ce => In (emb_row (col (fst ce) "id") (vector_to_bytes (snd ce)))
                       (fold_left write_embedding W t)) W.
Proof.
  induction W as [|ce W IH]; intros t [Htxt Hnd]; [constructor|].
  simpl in Htxt, Hnd. inversion Htxt as [|? ? [i Hi] Htxt']; subst.
  inversion Hnd as [|? ? Hnotin Hnd']; subst.
  constructor; [|apply IH; split; assumption].
  simpl. apply write_kept.
  - unfold write_embedding. apply In_insert_or_replace. left. reflexivity.
  - intros ce' Hce'. rewrite col_emb_row.
    rewrite List.Forall_forall in Htxt'.
    destruct (Htxt' (fst ce')) as [i' Hi']; [apply in_map; exact Hce'|].
    rewrite Hi, Hi'. destruct (sql_eqb (VStr i) (VStr i')) eqn:E; [|reflexivity].
    apply sql_eqb_text in E. subst i'. exfalso. apply Hnotin.
    rewrite map_map. apply list_elem_of_In, in_map_iff. exists ce'.
    split; [|exact Hce']. simpl. congruence.
Qed.

Lemma batch_count_zero (n : nat) :
  ((n + (batch_size - 1)) / batch_size)%nat = 0%nat -> n = 0%nat.
Proof. unfold batch_size. intros H. apply Nat.div_small_iff in H; lia. Qed.

Lemma batch_count_succ (n k : nat) :
  ((n + (batch_size - 1)) / batch_size)%nat = S k ->
  ((n - batch_size + (batch_size - 1)) / batch_size)%nat = k.
Proof.
  unfold batch_size. change (32 - 1)%nat with 31%nat. intros H.
  destruct (le_lt_dec n 32).
  - replace (n - 32 + 31)%nat with 31%nat by lia.
    assert (n <> 0)%nat by (intros ->; discriminate).
    assert ((n + 31) / 32 < 2)%nat by (apply Nat.Div0.div_lt_upper_bound; lia).
    rewrite Nat.div_small by lia. lia.
  - replace (n + 31)%nat with ((n - 32 + 31) + 1 * 32)%nat in H by lia.
    rewrite Nat.div_add in H by lia. lia.
Qed.

Lemma batches_cover {A : Type} (k : nat) : forall l : list A,
  ((length l + (batch_size - 1)) / batch_size)%nat = k ->
  concat (map (fun i => take batch_size (drop i l))
            (map (fun j => (j * batch_size)%nat) (seq 0 k))) = l.
Proof.
  induction k as [|k IH]; intros l Hk.
  - apply batch_count_zero, length_zero_iff_nil in Hk. subst. reflexivity.
  - rewrite <- cons_seq, <- seq_shift. rewrite !map_cons, !map_map.
    cbn [concat]. rewrite Nat.mul_0_l, drop_0.
    transitivity (take batch_size l ++ drop batch_size l)%list; [|apply take_drop].
    f_equal.
    rewrite <- (IH (drop batch_size l)) at 1.
    + rewrite map_map. f_equal. apply map_ext. intros j.
      rewrite drop_drop. repeat f_equal; lia.
    + rewrite length_drop. apply batch_count_succ, Hk.
Qed.

Lemma In_take_drop {A : Type} (n i : nat) (l : list A) x : In x (take n (drop i l)) -> In x l.
Proof.
  intros H. rewrite <- (firstn_skipn i l). apply in_or_app. right.
  rewrite <- (firstn_skipn n (drop i l)). apply in_or_app. left. exact H.
Qed.

Lemma map_fst_combine {A B : Type} (a : list A) : forall b : list B,
  length b = length a -> map fst (combine a b) = a.
Proof.
  induction a as [|x a IH]; intros [|y b] H; simpl in *; try discriminate; auto.
  f_equal. apply IH. lia.
Qed.

Lemma embed_loop embed_texts (cs : list pydict) (texts : list value) (total : nat) (starts : list nat) :
  Forall (fun c => exists i, col c "id" = VStr i) cs ->
  forall s r s',
    for_each (embed_batch embed_texts cs texts total) starts s = (r, s') ->
    papers (db s') = papers (db s) /\ chunks (db s') = chunks (db s) /\
    jobs (db s') = jobs (db s) /\
    _progress_callback s' = _progress_callback s /\
    match r with
    | inr _ => exists W, embedding_pass embed_texts cs texts starts = inr W /\
                         embeddings (db s')
                         = fold_left write_embedding W (embeddings (db s))
    | inl _ => True
    end.
Proof.
  intros Hcs. induction starts as [|i starts IH]; intros s r s' H.
  - simpl in H. inversion H; subst. repeat split; auto. exists []. auto.
  - simpl in H. unfold bind at 1 in H. unfold embed_batch at 1 in H.
    unfold bind at 1, lift at 1 in H. simpl embedding_pass.
    destruct (embed_texts (take batch_size (drop i texts))) as [e|embs] eqn:Ee.
    { inversion H; subst. auto. }
    unfold bind at 1 in H. rewrite store_embeddings_text in H.
    2:{ rewrite List.Forall_forall in Hcs |- *. intros [c e] Hin. simpl.
        apply Hcs. apply in_combine_l in Hin. eapply In_take_drop; eauto. }
    match type of H with context [_notify_progress ?a ?b ?c ?d ?s] =>
      destruct (notify_run a b c d s) as (r1 & s1 & Hn & Hdb1 & _ & _ & Hcb1 & _) end.
    rewrite Hn in H. simpl in Hdb1, Hcb1.
    destruct r1 as [e1|[]].
    { inversion H; subst. rewrite Hdb1. simpl. auto. }
    destruct (IH _ _ _ H) as (Hp & Hc & Hj & Hcb & Hr).
    rewrite Hdb1 in Hp, Hc, Hj, Hr. simpl in Hp, Hc, Hj, Hr.
    repeat split; auto; [congruence|].
    destruct r as [e|u]; [exact I|].
    destruct Hr as (W & HW & HE). rewrite HW.
    eexists. split; [reflexivity|]. rewrite fold_left_app. exact HE.
Qed.

Lemma embedding_pass_chunks embed_texts
    (equal_count : forall texts embs, embed_texts texts = inr embs -> length embs = length texts)
    (cs : list pydict) (texts : list value) (starts : list nat) W :
  length texts = length cs ->
  embedding_pass embed_texts cs texts starts = inr W ->
  map fst W = concat (map (fun i => take batch_size (drop i cs)) starts).
Proof.
  intros Hlen. revert W. induction starts as [|i starts IH]; simpl; intros W H.
  - inversion H. reflexivity.
  - destruct (embed_texts _) as [e|embs] eqn:Ee; [discriminate|].
    destruct (embedding_pass _ _ _ _) as [e|W']; [discriminate|].
    inversion H; subst. rewrite map_app. f_equal; [|apply IH; reflexivity].
    apply map_fst_combine. rewrite (equal_count _ _ Ee).
    rewrite !length_take, !length_drop. lia.
Qed.
Lemma decode_rows_ids json_loads rows cs :
  decode_rows json_loads rows = inr cs ->
  map (fun r => col r "id") cs = map (fun r => col r "id") rows.
Proof.
  revert cs. induction rows as [|r rows IH]; simpl; intros cs H.
  - inversion H. reflexivity.
  - unfold decode_bbox in H. destruct (col r "bbox"); try discriminate.
    destruct (json_loads s) as [e|v]; [discriminate|].
    destruct (decode_rows json_loads rows) as [e|cs']; [discriminate|].
    inversion H; subst. simpl. f_equal; [|apply IH; reflexivity].
    unfold col. rewrite lookup_insert_ne by discriminate. reflexivity.
Qed.

Lemma NoDup_map_filter {A B : Type} (f : A -> B) (P : A -> bool) (l : list A) :
  NoDup (map f l) -> NoDup (map f (List.filter P l)).
Proof.
  induction l as [|x l IH]; simpl; intros H; [constructor|].
  inversion H as [|? ? Hnotin Hnd]; subst.
  destruct (P x); simpl; auto. constructor; auto.
  intros Hin. apply Hnotin. apply list_elem_of_In in Hin. apply list_elem_of_In.
  apply in_map_iff in Hin as (y & Hy & Hin). apply filter_In in Hin as [Hin _].
  apply in_map_iff. eauto.
Qed.

Lemma text_ids_of_map (t t' : list pydict) :
  map (fun r => col r "id") t' = map (fun r => col r "id") t -> text_ids t -> text_ids t'.
Proof.
  intros Hm [Htxt Hnd]. split; [|rewrite Hm; exact Hnd].
  rewrite List.Forall_forall in Htxt |- *. intros r' Hr'.
  assert (In (col r' "id") (map (fun r => col r "id") t)) as Hin.
  { rewrite <- Hm. apply in_map_iff. eauto. }
  apply in_map_iff in Hin as (r & Hr & Hin). destruct (Htxt r Hin) as [i Hi].
  exists i. congruence.
Qed.

Lemma text_ids_chunk_rows paper_id d : text_ids (chunks d) -> text_ids (chunk_rows paper_id d).
Proof.
  intros [Htxt Hnd]. unfold chunk_rows. split.
  - rewrite List.Forall_forall in Htxt |- *. intros r Hr.
    apply stable_sort_In, filter_In in Hr as [Hr _]. auto.
  - rewrite (Permutation_map _ (stable_sort_perm _ _)). apply NoDup_map_filter, Hnd.
Qed.

Lemma get_chunks_text_ids json_loads paper_id d cs :
  text_ids (chunks d) -> get_chunks json_loads paper_id d = inr cs -> text_ids cs.
Proof.
  intros Hwf H. unfold get_chunks in H.
  eapply text_ids_of_map; [eapply decode_rows_ids; exact H|].
  apply text_ids_chunk_rows, Hwf.
Qed.

Lemma database_eta (d d' : database) :
  papers d' = papers d -> chunks d' = chunks d -> jobs d' = jobs d ->
  d' = with_embeddings d (embeddings d').
Proof. destruct d, d'. simpl. intros -> -> ->. reflexivity. Qed.

Lemma keeps_papers_bind {A B : Type} (m : M A) (k : A -> M B) :
  keeps_papers m -> (forall a, keeps_papers (k a)) -> keeps_papers (bind m k).
Proof.
  intros Hm Hk s. unfold bind. specialize (Hm s).
  destruct (m s) as [[e|a] s']; simpl in *; [exact Hm|].
  rewrite (Hk a s'). exact Hm.
Qed.

Lemma keeps_papers_for_each {A : Type} (f : A -> M unit) (l : list A) :
  (forall a, keeps_papers (f a)) -> keeps_papers (for_each f l).
Proof.
  intros Hf. induction l as [|x l IH]; simpl.
  - intros s. reflexivity.
  - apply keeps_papers_bind; auto.
Qed.

Lemma keeps_papers_embed_batch embed_texts cs texts total i :
  keeps_papers (embed_batch embed_texts cs texts total i).
Proof.
  unfold embed_batch. apply keeps_papers_bind; [intros s; reflexivity|intros embs].
  apply keeps_papers_bind.
  - apply keeps_papers_for_each. intros ce s. unfold store_embedding, exec, add_embedding.
    destruct (bind_param _); reflexivity.
  - intros _ s. unfold _notify_progress.
    destruct (_progress_callback s) as [call|]; [destruct (call _ _)|]; reflexivity.
Qed.

Section EmbedProperties.
Variable json_dumps : value -> string.
Variable json_loads : string -> exn + value.
Variable utcnow : nat -> string.
Variable pdf_exists : string -> bool.
Variable path_str : string -> string.
Variable extract_text_from_pdf : string -> exn + (list pydict * bool).
Variable extract_doi_from_pdf : string -> exn + option string.
Variable embed_texts : list value -> exn + list (list Z).
Variable repr_other : value -> string.

Local Notation process_job :=
  (_process_job json_dumps json_loads utcnow pdf_exists path_str
     extract_text_from_pdf extract_doi_from_pdf embed_texts repr_other).
Local Notation compute_embeddings :=
  (_compute_embeddings json_dumps json_loads embed_texts repr_other).

Lemma notify_raised j st p msg s e s' :
  _notify_progress j st p msg s = (inl e, s') ->
  exists call, _progress_callback s = Some call /\
               call (delivered s) (ProgressEvent j st p msg) = Some e.
Proof.
  unfold _notify_progress. destruct (_progress_callback s) as [call|]; [|discriminate].
  destruct (call _ _) as [e'|] eqn:E; intros H; inversion H; subst. eauto.
Qed.

Lemma lookup_key_inr (r : pydict) (k : string) (v : value) :
  lookup_key r k = inr v -> r !! k = Some v /\ col r k = v.
Proof.
  unfold lookup_key, col. destruct (r !! k); intros H; inversion H; subst. auto.
Qed.

Lemma lookup_key_none (r : pydict) (k : string) :
  r !! k = None -> lookup_key r k = inl (KeyError k).
Proof. unfold lookup_key. intros ->. reflexivity. Qed.

Lemma compute_embeddings_no_chunks (paper : pydict) (pid : value) (s : processor) :
  paper !! "id" = Some pid ->
  chunk_rows pid (db s) = [] ->
  compute_embeddings paper s
  = (inl (ValueError ("No chunks found for paper " ++ py_str repr_other pid
                      ++ ". Run text extraction first.")), s).
Proof.
  intros Hid H. unfold _compute_embeddings, bind, lift, get_chunks.
  rewrite (lookup_key_some _ _ _ Hid), H. reflexivity.
Qed.

(** How a call of [_compute_embeddings] goes: it raises with the [papers]
    table untouched, or it gets as far as the update of the paper, after
    which only the last notification can still raise. *)
Lemma compute_embeddings_run (paper : pydict) (s : processor) r s' :
  compute_embeddings paper s = (r, s') ->
  ((exists e, r = inl e) /\ papers (db s') = papers (db s)) \/
  (exists pid c cs s1 s2,
     paper !! "id" = Some pid /\
     get_chunks json_loads pid (db s) = inr (c :: cs) /\
     db s1 = db s /\ _progress_callback s1 = _progress_callback s /\
     for_each (embed_batch embed_texts (c :: cs) (map (fun c0 => col c0 "text") (c :: cs))
                 (length (c :: cs)))
       (batch_starts (length (map (fun c0 => col c0 "text") (c :: cs)))) s1
     = (inr tt, s2) /\
     update_paper json_dumps pid [("embeddings_ready", VInt 1)] (db s2) = inr (db s') /\
     (r = inr tt \/
      exists e call h,
        r = inl e /\ _progress_callback s = Some call /\
        call h (ProgressEvent (VStr "") "running" 1
                  ("Computed " ++ pretty (length (c :: cs)) ++ " embeddings")) = Some e)).
Proof.
  unfold _compute_embeddings. rewrite bind_run. unfold lift at 1.
  destruct (lookup_key paper "id") as [e0|pid] eqn:Ek.
  { intros H. inversion H. left. eauto. }
  apply lookup_key_inr in Ek as [Ek _].
  rewrite bind_run.
  destruct (get_chunks json_loads pid (db s)) as [e0|cs] eqn:Eg.
  { intros H. inversion H. left. eauto. }
  destruct cs as [|c cs]; [intros H; inversion H; left; eauto|].
  rewrite bind_run.
  match goal with |- context [_notify_progress ?a ?b ?c ?d ?s] =>
    destruct (notify_run a b c d s) as (r1 & s1 & -> & Hdb1 & _ & _ & Hcb1 & _) end.
  destruct r1 as [e1|[]].
  { intros H. inversion H; subst. left. rewrite Hdb1. eauto. }
  rewrite bind_run.
  match goal with |- context [for_each ?f ?l s1] =>
    destruct (for_each f l s1) as [r2 s2] eqn:El end.
  assert (Hp : papers (db s2) = papers (db s)).
  { pose proof (keeps_papers_for_each _
      (batch_starts (length (map (fun c0 => col c0 "text") (c :: cs))))
      (keeps_papers_embed_batch embed_texts (c :: cs)
         (map (fun c0 => col c0 "text") (c :: cs)) (length (c :: cs))) s1) as Hk.
    rewrite El in Hk. simpl in Hk. rewrite Hk, Hdb1. reflexivity. }
  destruct r2 as [e2|[]]; [intros H; inversion H; subst; left; eauto|].
  rewrite bind_run. unfold exec at 1.
  destruct (update_paper json_dumps pid _ (db s2)) as [e3|d] eqn:Eu;
    [intros H; inversion H; subst; left; eauto|].
  assert (Hcb2 : _progress_callback s2 = _progress_callback s1).
  { assert (Hkeep : forall (l : list nat) sa ra sb,
              for_each (embed_batch embed_texts (c :: cs)
                          (map (fun c0 => col c0 "text") (c :: cs)) (length (c :: cs)))
                l sa = (ra, sb) ->
              _progress_callback sb = _progress_callback sa).
    { induction l as [|i l IH]; intros sa ra sb Hl.
      - inversion Hl. reflexivity.
      - simpl in Hl. unfold bind at 1 in Hl.
        destruct (embed_batch _ _ _ _ i sa) as [rb sc] eqn:Eb.
        assert (Hsc : _progress_callback sc = _progress_callback sa).
        { unfold embed_batch in Eb. unfold bind at 1, lift at 1 in Eb.
          destruct (embed_texts _) as [ee|embs]; [inversion Eb; reflexivity|].
          unfold bind at 1 in Eb.
          match type of Eb with context [for_each store_embedding ?W sa] =>
            assert (Hst : forall W' sx rx sy,
                      for_each store_embedding W' sx = (rx, sy) ->
                      _progress_callback sy = _progress_callback sx) end.
          { induction W' as [|ce W' IHW]; intros sx rx sy HW'.
            - inversion HW'. reflexivity.
            - simpl in HW'. unfold bind at 1, store_embedding at 1, exec at 1 in HW'.
              destruct (add_embedding _ _ _) as [ea|da]; [inversion HW'; reflexivity|].
              apply IHW in HW'. exact HW'. }
          destruct (for_each store_embedding _ sa) as [rw sw] eqn:Ew.
          apply Hst in Ew. destruct rw as [ew|[]]; [inversion Eb; subst; exact Ew|].
          match type of Eb with context [_notify_progress ?a ?b ?c ?d ?s] =>
            destruct (notify_run a b c d s) as (rn & sn & Hn & _ & _ & _ & Hcbn & _) end.
          rewrite Hn in Eb. inversion Eb; subst. congruence. }
        destruct rb as [eb|[]]; [inversion Hl; subst; exact Hsc|].
        apply IH in Hl. congruence. }
    apply (Hkeep _ _ _ _ El). }
  match goal with |- context [_notify_progress ?a ?b ?c ?d ?s] =>
    destruct (_notify_progress a b c d s) as [r3 s3] eqn:En;
    destruct (notify_run a b c d s) as (r3' & s3' & En' & Hdb3 & _) end.
  rewrite En in En'. inversion En'; subst r3' s3'. clear En'. simpl in Hdb3.
  intros H. inversion H; subst r s3. clear H.
  right. exists pid, c, cs, s1, s2. rewrite Hdb3.
  repeat split; auto.
  destruct r3 as [e3|[]]; [right|left; reflexivity].
  apply notify_raised in En as (call & Hcall & Hraise). simpl in Hcall, Hraise.
  exists e3, call, (delivered s2). repeat split; auto. congruence.
Qed.

Lemma compute_embeddings_covers (s s' : processor) pid c cs s1 s2 :
  (forall texts embs, embed_texts texts = inr embs -> length embs = length texts) ->
  text_ids (chunks (db s)) ->
  get_chunks json_loads pid (db s) = inr (c :: cs) ->
  db s1 = db s ->
  for_each (embed_batch embed_texts (c :: cs) (map (fun c0 => col c0 "text") (c :: cs))
              (length (c :: cs)))
    (batch_starts (length (map (fun c0 => col c0 "text") (c :: cs)))) s1
  = (inr tt, s2) ->
  update_paper json_dumps pid [("embeddings_ready", VInt 1)] (db s2) = inr (db s') ->
  exists W,
    embedding_pass embed_texts (c :: cs) (map (fun c0 => col c0 "text") (c :: cs))
      (batch_starts (length (c :: cs))) = inr W /\
    map fst W = c :: cs /\
    Forall (fun ce => In (emb_row (col (fst ce) "id") (vector_to_bytes (snd ce)))
                         (embeddings (db s'))) W /\
    update_paper json_dumps pid [("embeddings_ready", VInt 1)]
      (with_embeddings (db s) (embeddings (db s'))) = inr (db s').
Proof.
  intros Hcount Hwf Eg Hdb1 El Eu.
  pose proof (get_chunks_text_ids _ _ _ _ Hwf Eg) as Hcs.
  remember (c :: cs) as chunks eqn:Echunks.
  destruct (embed_loop embed_texts _ _ _ _ (proj1 Hcs) _ _ _ El)
    as (Hp & Hc & Hj & _ & W & HW & HE).
  destruct (update_paper_frame _ _ _ _ _ Eu) as (_ & _ & Hemb & _).
  rewrite length_map in HW.
  assert (Hfst : map fst W = chunks).
  { rewrite (embedding_pass_chunks embed_texts Hcount _ _ _ _ (length_map _ _) HW).
    apply batches_cover. reflexivity. }
  exists W. repeat split; auto.
  - rewrite Hemb, HE. apply written_all. rewrite Hfst. exact Hcs.
  - rewrite Hemb. rewrite Hdb1 in Hp, Hc, Hj.
    rewrite <- (database_eta (db s) (db s2)) by assumption. exact Eu.
Qed.

Lemma compute_embeddings_returns (paper : pydict) (s s' : processor) :
  (forall texts embs, embed_texts texts = inr embs -> length embs = length texts) ->
  text_ids (chunks (db s)) ->
  compute_embeddings paper s = (inr tt, s') ->
  exists cs W,
    get_chunks json_loads (col paper "id") (db s) = inr cs /\ cs <> [] /\
    embedding_pass embed_texts cs (map (fun c => col c "text") cs)
      (batch_starts (length cs)) = inr W /\
    map fst W = cs /\
    Forall (fun ce => In (emb_row (col (fst ce) "id") (vector_to_bytes (snd ce)))
                         (embeddings (db s'))) W /\
    update_paper json_dumps (col paper "id") [("embeddings_ready", VInt 1)]
      (with_embeddings (db s) (embeddings (db s'))) = inr (db s').
Proof.
  intros Hcount Hwf H.
  destruct (compute_embeddings_run _ _ _ _ H)
    as [[[e He] _]|(pid & c & cs & s1 & s2 & Hid & Eg & Hdb1 & _ & El & Eu & _)];
    [discriminate|].
  destruct (compute_embeddings_covers s s' pid c cs s1 s2
              Hcount Hwf Eg Hdb1 El Eu) as (W & HW & Hfst & Hall & Hup).
  assert (Hcol : col paper "id" = pid) by (unfold col; rewrite Hid; reflexivity).
  rewrite Hcol. exists (c :: cs), W. repeat split; auto.
Qed.

Lemma eq_str_true v s : eq_str v s = true -> v = VStr s.
Proof.
  destruct v; simpl; try discriminate. intros H. apply String.eqb_eq in H. congruence.
Qed.

Lemma col_some (r : pydict) (k : string) (v : value) :
  col r k = v -> v <> VNone -> r !! k = Some v.
Proof.
  unfold col. destruct (r !! k); simpl; intros; subst; [reflexivity|congruence].
Qed.

Lemma get_paper_found (paper_id : value) (d : database) (p : pydict) :
  get_paper paper_id d = Some p ->
  paper_id <> VNone /\ p !! "id" = Some (col p "id") /\ In p (papers d).
Proof.
  unfold get_paper. intros H. apply find_some in H as [Hin H].
  unfold sql_eqb in H. split; [|split; [|exact Hin]].
  - intros ->. destruct (col p "id"); discriminate.
  - apply col_some; [reflexivity|]. destruct (col p "id"); congruence.
Qed.

(** An EMBED job up to the call of its handler. *)
Lemma embed_job_start (job : pydict) (s : processor) :
  eq_str (col job "type") "EMBED" = true ->
  (exists e s', process_job job s = (inl e, s') /\ papers (db s') = papers (db s) /\
                forall jid p path,
                  col job "id" = VStr jid ->
                  get_paper (col job "paper_id") (db s) = Some p ->
                  col p "local_pdf_path" = VStr path -> pdf_exists path = true ->
                  exists call,
                    _progress_callback s = Some call /\
                    call (delivered s)
                      (ProgressEvent (VStr jid) "running" 0 "Starting EMBED") = Some e) \/
  (exists p s1,
     get_paper (col job "paper_id") (db s) = Some p /\
     papers (db s1) = papers (db s) /\ chunks (db s1) = chunks (db s) /\
     process_job job s
     = bind (_compute_embeddings json_dumps json_loads embed_texts repr_other p)
         (fun _ =>
            let! now := utcnow_isoformat utcnow in
            let! _ := exec (update_job (col job "id") (mark_completed now)) in
            _notify_progress (col job "id") "completed" 1
              ("Completed " ++ py_str repr_other (col job "type"))) s1).
Proof.
  intros Hty. apply eq_str_true in Hty.
  assert (Hty' : job !! "type" = Some (VStr "EMBED"))
    by (apply col_some; [exact Hty|discriminate]).
  remember (process_job job s) as result eqn:Hres.
  unfold _process_job in Hres. rewrite bind_run in Hres. unfold lift at 1 in Hres.
  destruct (lookup_key job "id") as [e0|job_id] eqn:Ek.
  { left. eexists _, _. split; [exact Hres|]. split; [reflexivity|].
    intros jid p path Hid. unfold lookup_key in Ek.
    rewrite (col_some _ _ _ Hid) in Ek by discriminate. discriminate. }
  apply lookup_key_inr in Ek as [_ Ek].
  rewrite bind_run in Hres. unfold lift at 1 in Hres.
  rewrite (lookup_key_some _ _ _ Hty') in Hres.
  rewrite bind_run in Hres. unfold lift at 1 in Hres.
  destruct (lookup_key job "paper_id") as [e0|paper_id] eqn:Ep.
  { left. eexists _, _. split; [exact Hres|]. split; [reflexivity|].
    intros jid p path _ Hp. apply get_paper_found in Hp as [Hp _].
    unfold lookup_key in Ep. rewrite (col_some _ _ _ eq_refl Hp) in Ep. discriminate. }
  apply lookup_key_inr in Ep as [_ Ep].
  rewrite bind_run in Hres. unfold utcnow_isoformat at 1 in Hres.
  rewrite bind_run in Hres. unfold exec at 1 in Hres. simpl db in Hres.
  destruct (update_job job_id _ (db s)) as [e|d] eqn:Eu.
  { left. eexists _, _. split; [exact Hres|]. split; [reflexivity|].
    intros jid p path Hid. rewrite <- Ek, Hid, update_job_mark in Eu. discriminate. }
  destruct (update_job_frame _ _ _ _ Eu) as (_ & Hp & Hc & _).
  rewrite bind_run in Hres.
  match type of Hres with context [_notify_progress ?a ?b ?c ?d ?s] =>
    destruct (_notify_progress a b c d s) as [r1 s1] eqn:En;
    destruct (notify_run a b c d s) as (r1' & s1' & En' & Hdb1 & _) end.
  rewrite En in En'. inversion En'; subst r1' s1'. clear En'. simpl in Hdb1.
  destruct r1 as [e1|[]].
  { left. eexists _, _. split; [exact Hres|]. split; [rewrite Hdb1; exact Hp|].
    intros jid p path Hid _ _ _.
    apply notify_raised in En as (call & Hcall & Hraise). simpl in Hcall, Hraise.
    exists call. rewrite <- Ek, Hid in Hraise. auto. }
  rewrite bind_run in Hres. unfold query at 1 in Hres.
  assert (Hg : get_paper paper_id (db s1) = get_paper (col job "paper_id") (db s)).
  { unfold get_paper. rewrite Hdb1, Hp, Ep. reflexivity. }
  rewrite Hg in Hres.
  destruct (get_paper (col job "paper_id") (db s)) as [p|] eqn:Egp.
  2:{ left. eexists _, _. split; [exact Hres|]. split; [rewrite Hdb1; exact Hp|].
      intros jid p path _ Hp'. discriminate. }
  destruct (col p "local_pdf_path") as [|[]|z|q|path|bs|dd] eqn:Epath;
    try (left; eexists _, _; split; [exact Hres|]; split; [rewrite Hdb1; exact Hp|];
         intros jid p' path' _ Hp' Hpath'; inversion Hp'; subst p'; congruence).
  destruct (pdf_exists path) eqn:Epdf; cbn [negb] in Hres.
  2:{ left. eexists _, _. split; [exact Hres|]. split; [rewrite Hdb1; exact Hp|].
      intros jid p' path' _ Hp' Hpath' Hpdf'. inversion Hp'; subst p'.
      rewrite Epath in Hpath'. inversion Hpath'; subst path'. congruence. }
  right. exists p, s1. split; [reflexivity|]. rewrite Hdb1. split; [exact Hp|].
  split; [exact Hc|].
  change (eq_str (VStr "EMBED") "EXTRACT_TEXT") with false in Hres.
  change (eq_str (VStr "EMBED") "EXTRACT_DOI") with false in Hres.
  change (eq_str (VStr "EMBED") "EMBED") with true in Hres. cbv iota in Hres.
  rewrite Hres, Ek, Hty. reflexivity.
Qed.

Lemma embed_job_without_chunks (job : pydict) (s : processor) :
  eq_str (col job "type") "EMBED" = true ->
  (forall p, get_paper (col job "paper_id") (db s) = Some p ->
             chunk_rows (col p "id") (db s) = []) ->
  exists e s', process_job job s = (inl e, s') /\ papers (db s') = papers (db s).
Proof.
  intros Hty Hempty.
  destruct (embed_job_start job s Hty)
    as [(e & s' & H & Hp & _)|(p & s1 & Hg & Hp & Hc & ->)]; [eauto|].
  rewrite bind_run.
  destruct (get_paper_found _ _ _ Hg) as (_ & Hid & _).
  rewrite (compute_embeddings_no_chunks p (col p "id")); [eauto|exact Hid|].
  unfold chunk_rows. rewrite Hc. apply (Hempty p Hg).
Qed.

Lemma embed_job_no_chunks_error (job p : pydict) (jid path : string) (s : processor) :
  col job "id" = VStr jid ->
  eq_str (col job "type") "EMBED" = true ->
  get_paper (col job "paper_id") (db s) = Some p ->
  col p "local_pdf_path" = VStr path -> pdf_exists path = true ->
  chunk_rows (col p "id") (db s) = [] ->
  exists e s',
    process_job job s = (inl e, s') /\
    (e = ValueError ("No chunks found for paper " ++ py_str repr_other (col p "id")
                     ++ ". Run text extraction first.") \/
     exists call,
       _progress_callback s = Some call /\
       call (delivered s) (ProgressEvent (VStr jid) "running" 0 "Starting EMBED") = Some e).
Proof.
  intros Hid Hty Hp Hpath Hpdf Hempty.
  destruct (embed_job_start job s Hty)
    as [(e & s' & H & _ & Hcall)|(p' & s1 & Hg & _ & Hc & ->)].
  - exists e, s'. split; [exact H|]. right. apply (Hcall jid p path); assumption.
  - rewrite Hp in Hg. inversion Hg; subst p'. rewrite bind_run.
    destruct (get_paper_found _ _ _ Hp) as (_ & Hpid & _).
    rewrite (compute_embeddings_no_chunks p (col p "id")); [eauto|exact Hpid|].
    unfold chunk_rows. rewrite Hc. exact Hempty.
Qed.

(** C5.  For [_compute_embeddings] on a paper:
    - with a text id and no chunk row for the paper it raises
      [ValueError("No chunks found for paper ... Run text extraction
      first.")] and leaves the processor, database included, exactly as it
      was (a paper dictionary without ["id"] gets [KeyError('id')], likewise
      with nothing touched);
    - an EMBED job whose paper has no chunk rows never completes:
      [_process_job] raises, and the [papers] table, [embeddings_ready]
      included, is as before; when the paper row exists and its PDF is on
      disk, the error raised is that [ValueError], unless the progress
      callback raised on the job's first notification, and then it is what
      the callback raised;
    - however the call ends, when the embedding model returns one vector per
      text and chunk ids are text and distinct: either the [papers] table is
      as before, so [embeddings_ready] is not set, or there were chunks, the
      pass paired every chunk, in order, with a vector [embed_texts]
      returned for its batch, the row of each pair is in the [embeddings]
      table, and the database is the one
      [update_paper(paper_id, {"embeddings_ready": 1})] yields after those
      writes; a normal return is always the second case;
    - when it raises, the [papers] table is as before unless the exception
      is the one the progress callback raised on the last notification;
      with no callback registered a raise always leaves the table as it
      was. *)
Theorem embed_requires_chunks_and_covers_all (paper : pydict) (s : processor) :
  (forall pid : string,
     paper !! "id" = Some (VStr pid) -> chunk_rows (VStr pid) (db s) = [] ->
     compute_embeddings paper s
     = (inl (ValueError ("No chunks found for paper " ++ pid
                         ++ ". Run text extraction first.")), s)) /\
  (paper !! "id" = None -> compute_embeddings paper s = (inl (KeyError "id"), s)) /\
  (forall job s0,
     eq_str (col job "type") "EMBED" = true ->
     (forall p, get_paper (col job "paper_id") (db s0) = Some p ->
                chunk_rows (col p "id") (db s0) = []) ->
     exists e s1, process_job job s0 = (inl e, s1) /\ papers (db s1) = papers (db s0)) /\
  (forall job p jid path s0,
     col job "id" = VStr jid -> eq_str (col job "type") "EMBED" = true ->
     get_paper (col job "paper_id") (db s0) = Some p ->
     col p "local_pdf_path" = VStr path -> pdf_exists path = true ->
     chunk_rows (col p "id") (db s0) = [] ->
     exists e s1,
       process_job job s0 = (inl e, s1) /\
       (e = ValueError ("No chunks found for paper " ++ py_str repr_other (col p "id")
                        ++ ". Run text extraction first.") \/
        exists call,
          _progress_callback s0 = Some call /\
          call (delivered s0) (ProgressEvent (VStr jid) "running" 0 "Starting EMBED")
          = Some e)) /\
  ((forall texts embs, embed_texts texts = inr embs -> length embs = length texts) ->
   text_ids (chunks (db s)) ->
   forall r s', compute_embeddings paper s = (r, s') ->
   (r <> inr tt /\ papers (db s') = papers (db s)) \/
   exists pid cs W,
     paper !! "id" = Some pid /\
     get_chunks json_loads pid (db s) = inr cs /\ cs <> [] /\
     embedding_pass embed_texts cs (map (fun c => col c "text") cs)
       (batch_starts (length cs)) = inr W /\
     map fst W = cs /\
     Forall (fun ce => In (emb_row (col (fst ce) "id") (vector_to_bytes (snd ce)))
                          (embeddings (db s'))) W /\
     update_paper json_dumps pid [("embeddings_ready", VInt 1)]
       (with_embeddings (db s) (embeddings (db s'))) = inr (db s')) /\
  (forall e s', compute_embeddings paper s = (inl e, s') ->
     papers (db s') = papers (db s) \/
     exists call h msg,
       _progress_callback s = Some call /\
       call h (ProgressEvent (VStr "") "running" 1 msg) = Some e) /\
  (forall e s', compute_embeddings paper s = (inl e, s') ->
     _progress_callback s = None -> papers (db s') = papers (db s)).
Proof.
  split; [intros pid; apply (compute_embeddings_no_chunks paper (VStr pid))|].
  split.
  { intros Hid. unfold _compute_embeddings, bind, lift.
    rewrite (lookup_key_none _ _ Hid). reflexivity. }
  split; [intros job s0; apply embed_job_without_chunks|].
  split; [intros job p jid path s0; apply embed_job_no_chunks_error|].
  split; [|split].
  - intros Hcount Hwf r s' H.
    destruct (compute_embeddings_run _ _ _ _ H)
      as [[[e He] Hp]|(pid & c & cs & s1 & s2 & Hid & Eg & Hdb1 & _ & El & Eu & _)].
    + left. split; [congruence|exact Hp].
    + right.
      destruct (compute_embeddings_covers s s' pid c cs s1 s2
                  Hcount Hwf Eg Hdb1 El Eu) as (W & HW & Hfst & Hall & Hup).
      exists pid, (c :: cs), W. repeat split; auto.
  - intros e s' H.
    destruct (compute_embeddings_run _ _ _ _ H)
      as [[_ Hp]|(pid & c & cs & s1 & s2 & _ & _ & _ & _ & _ & _ & Hr)]; [left; exact Hp|].
    destruct Hr as [Hr|(e' & call & h & He & Hcall & Hraise)]; [discriminate|].
    right. inversion He; subst e'. eauto.
  - intros e s' H Hnone.
    destruct (compute_embeddings_run _ _ _ _ H)
      as [[_ Hp]|(pid & c & cs & s1 & s2 & _ & _ & _ & _ & _ & _ & Hr)]; [exact Hp|].
    destruct Hr as [Hr|(e' & call & h & He & Hcall & Hraise)]; [discriminate|].
    congruence.
Qed.
End EmbedProperties.

Lemma embed_requires_chunks_and_covers_all_witness :
  Demo.embed (Demo.paper "p2" "/pdfs/p2.pdf") (Demo.idle Demo.indexed)
  = (inl (ValueError "No chunks found for paper p2. Run text extraction first."),
     Demo.idle Demo.indexed) /\
  exists cs W,
    get_chunks Demo.json_loads (VStr "p1") Demo.indexed = inr cs /\ cs <> [] /\
    embedding_pass Demo.embed_texts cs (map (fun c => col c "text") cs)
      (batch_starts (length cs)) = inr W /\
    map fst W = cs /\
    Forall (fun ce => In (emb_row (col (fst ce) "id") (vector_to_bytes (snd ce)))
              (embeddings (db (snd (Demo.embed (Demo.paper "p1" "/pdfs/p1.pdf")
                                      (Demo.idle Demo.indexed)))))) W /\
    update_paper Demo.json_dumps (VStr "p1") [("embeddings_ready", VInt 1)]
      (with_embeddings Demo.indexed
         (embeddings (db (snd (Demo.embed (Demo.paper "p1" "/pdfs/p1.pdf")
                                 (Demo.idle Demo.indexed))))))
    = inr (db (snd (Demo.embed (Demo.paper "p1" "/pdfs/p1.pdf") (Demo.idle Demo.indexed)))).
Proof.
  split.
  - apply (proj1 (embed_requires_chunks_and_covers_all Demo.json_dumps Demo.json_loads
             Demo.utcnow Demo.pdf_exists Demo.path_str Demo.extract_text_from_pdf
             Demo.extract_doi_from_pdf Demo.embed_texts Demo.repr_other
             (Demo.paper "p2" "/pdfs/p2.pdf") (Demo.idle Demo.indexed)) "p2").
    + vm_compute. reflexivity.
    + vm_compute. reflexivity.
  - assert (Hcount : forall texts embs,
              Demo.embed_texts texts = inr embs -> length embs = length texts)
      by (intros texts embs H; inversion H; apply length_map).
    assert (Hwf : text_ids (chunks (db (Demo.idle Demo.indexed))))
      by (apply text_ids_check_sound; vm_compute; reflexivity).
    destruct (proj1 (proj2 (proj2 (proj2 (proj2
               (embed_requires_chunks_and_covers_all Demo.json_dumps
                  Demo.json_loads Demo.utcnow Demo.pdf_exists Demo.path_str
                  Demo.extract_text_from_pdf Demo.extract_doi_from_pdf Demo.embed_texts
                  Demo.repr_other (Demo.paper "p1" "/pdfs/p1.pdf")
                  (Demo.idle Demo.indexed))))))
               Hcount Hwf (inr tt)
               (snd (Demo.embed (Demo.paper "p1" "/pdfs/p1.pdf") (Demo.idle Demo.indexed))))
      as [[Hne _]|(pid & cs & W & Hid & H)].
    + vm_compute. reflexivity.
    + elim Hne. reflexivity.
    + assert (E : Demo.paper "p1" "/pdfs/p1.pdf" !! "id" = Some (VStr "p1"))
        by (vm_compute; reflexivity).
      rewrite E in Hid. inversion Hid; subst pid. exists cs, W. exact H.
Defined.

(** ** The embedding service *)

Lemma Z_of_byte_of_Z (z : Z) : Z_of_byte (byte_of_Z z) = Z.land z 255.
Proof.
  unfold Z_of_byte, byte_of_Z.
  assert (Hr : 0 <= Z.land z 255 <= 255).
  { change 255 with (Z.ones 8). rewrite Z.land_ones by lia.
    pose proof (Z.mod_pos_bound z (2 ^ 8) ltac:(lia)). change (Z.ones 8) with 255. lia. }
  destruct (Byte.of_N (Z.to_N (Z.land z 255))) as [b|] eqn:E.
  - simpl. apply Byte.to_of_N in E. rewrite E. lia.
  - apply Byte.of_N_None_iff in E. lia.
Qed.

Lemma f32_of_bytes_of (w : Z) :
  0 <= w < 2 ^ 32 ->
  f32_of_bytes (byte_of_Z w) (byte_of_Z (Z.shiftr w 8))
               (byte_of_Z (Z.shiftr w 16)) (byte_of_Z (Z.shiftr w 24)) = w.
Proof.
  intros Hw. unfold f32_of_bytes. rewrite !Z_of_byte_of_Z.
  apply Z.bits_inj'. intros n Hn.
  change 255 with (Z.ones 8).
  rewrite !Z.lor_spec, !Z.shiftl_spec, !Z.land_spec by lia.
  destruct (Z.ltb_spec n 8).
  { rewrite (Z.testbit_neg_r _ (n - 8)), (Z.testbit_neg_r _ (n - 16)),
      (Z.testbit_neg_r _ (n - 24)) by lia.
    rewrite Z.ones_spec_low by lia. rewrite !andb_true_r, !orb_false_r. reflexivity. }
  rewrite (Z.ones_spec_high 8 n) by lia. rewrite andb_false_r, orb_false_l.
  destruct (Z.ltb_spec n 16).
  { rewrite (Z.testbit_neg_r _ (n - 16)), (Z.testbit_neg_r _ (n - 24)) by lia.
    rewrite Z.ones_spec_low by lia. rewrite Z.shiftr_spec by lia.
    rewrite !andb_true_r, !orb_false_r. f_equal. lia. }
  rewrite (Z.ones_spec_high 8 (n - 8)) by lia. rewrite andb_false_r, orb_false_l.
  destruct (Z.ltb_spec n 24).
  { rewrite (Z.testbit_neg_r _ (n - 24)) by lia.
    rewrite Z.ones_spec_low by lia. rewrite Z.shiftr_spec by lia.
    rewrite !andb_true_r, !orb_false_r. f_equal. lia. }
  rewrite (Z.ones_spec_high 8 (n - 16)) by lia. rewrite andb_false_r, orb_false_l.
  destruct (Z.ltb_spec n 32).
  { rewrite Z.ones_spec_low by lia. rewrite Z.shiftr_spec by lia.
    rewrite !andb_true_r. f_equal. lia. }
  rewrite (Z.ones_spec_high 8 (n - 24)) by lia. rewrite andb_false_r.
  symmetry. apply (Z.bits_above_log2 w n); [lia|].
  destruct (Z.eq_dec w 0) as [->|]; [simpl; lia|].
  apply Z.log2_lt_pow2; [lia|]. 
  apply Z.lt_le_trans with (2 ^ 32); [lia|]. apply Z.pow_le_mono_r; lia.
Qed.

Lemma f32_words_bytes (v : list Z) :
  Forall (fun w => 0 <= w < 2 ^ 32) v -> f32_words (vector_to_bytes v) = v.
Proof.
  induction 1 as [|w v Hw Hv IH]; [reflexivity|].
  unfold vector_to_bytes in *. simpl. rewrite IH, f32_of_bytes_of by exact Hw. reflexivity.
Qed.

Lemma vector_to_bytes_length (v : list Z) :
  length (vector_to_bytes v) = (4 * length v)%nat.
Proof.
  unfold vector_to_bytes. induction v as [|w v IH]; [reflexivity|].
  simpl. rewrite IH. lia.
Qed.

(** C8.  For a vector of float32 components, decoding the bytes
    [vector_to_bytes] gives returns the very same components, so every
    finite component is reproduced within 1e-6 (in fact exactly). *)
Theorem vector_round_trip (v : list Z) :
  Forall (fun w => 0 <= w < 2 ^ 32) v ->
  bytes_to_vector (vector_to_bytes v) = inr v /\
  forall restored, bytes_to_vector (vector_to_bytes v) = inr restored ->
    Forall2 (fun w w' => forall x x', f32_value w = Some x -> f32_value w' = Some x' ->
                                      (Qabs (x' - x) <= 1 # 1000000)%Q) v restored.
Proof.
  intros Hv.
  assert (H : bytes_to_vector (vector_to_bytes v) = inr v).
  { unfold bytes_to_vector. rewrite vector_to_bytes_length.
    rewrite Nat.mul_comm, Nat.Div0.mod_mul. simpl. rewrite f32_words_bytes by exact Hv.
    reflexivity. }
  split; [exact H|]. intros restored Hr. rewrite H in Hr. inversion Hr; subst.
  clear. induction restored as [|w v IH]; constructor; auto.
  intros x x' Hx Hx'. rewrite Hx in Hx'. inversion Hx'; subst.
  unfold Qminus. rewrite Qplus_opp_r. simpl. discriminate.
Qed.

Section SearchProperties.
Variable embed_text : string -> exn + list Z.
Variable dot_value : list Z -> list Z -> Q.

Lemma score_chunks_inl qv cs c e :
  In c cs -> score_chunk dot_value qv c = inl e ->
  exists e', score_chunks dot_value qv cs = inl e'.
Proof.
  induction cs as [|c0 cs IH]; intros Hin He; [destruct Hin|]. simpl.
  destruct (score_chunk dot_value qv c0) as [e0|r0] eqn:E0; [eauto|].
  destruct Hin as [->|Hin]; [congruence|].
  destruct (IH Hin He) as [e' ->]. eauto.
Qed.

(** C9.  [cosine_similarity] on vectors of different lengths raises
    [ValueError] (numpy's shape check in [np.dot]); and when some candidate's
    stored vector decodes to a dimension other than the query's, scoring that
    candidate raises that [ValueError] and [search] raises instead of
    returning results. *)
Theorem dimension_mismatch_raises :
  (forall q d : list Z, length q <> length d ->
     cosine_similarity dot_value q d = inl (ValueError "shapes not aligned")) /\
  (forall (query : string) (cs : list pydict) (top_k : Z) (qv dv : list Z)
          (c : pydict) (data : list Byte.byte),
     embed_text query = inr qv ->
     In c cs -> c !! "vector" = Some (VBytes data) ->
     bytes_to_vector data = inr dv -> length qv <> length dv ->
     score_chunk dot_value qv c = inl (ValueError "shapes not aligned") /\
     exists e, search embed_text dot_value query cs top_k = inl e).
Proof.
  assert (H : forall q d : list Z, length q <> length d ->
     cosine_similarity dot_value q d = inl (ValueError "shapes not aligned")).
  { intros q d Hne. unfold cosine_similarity.
    destruct (Nat.eqb_spec (length q) (length d)); [contradiction|reflexivity]. }
  split; [exact H|].
  intros query cs top_k qv dv c data Hq Hin Hvec Hdec Hne.
  assert (Hc : score_chunk dot_value qv c = inl (ValueError "shapes not aligned")).
  { unfold score_chunk. rewrite Hvec, Hdec, (H _ _ Hne). reflexivity. }
  split; [exact Hc|]. unfold search. rewrite Hq.
  destruct (score_chunks_inl qv cs c _ Hin Hc) as [e' ->]. eauto.
Qed.

Lemma by_score_desc_ok : cmp_ok (cmp_rev (cmp_on score_of Qcompare)).
Proof. apply cmp_rev_ok, cmp_on_ok, Q_compare_ok. Qed.

Lemma by_score_desc_le a b : by_score_desc a b = true <-> (score_of b <= score_of a)%Q.
Proof.
  unfold by_score_desc, leb_of, cmp_rev, cmp_on. rewrite Qle_alt.
  destruct (score_of b ?= score_of a)%Q; split; congruence.
Qed.

Lemma score_chunk_result qv c r :
  score_chunk dot_value qv c = inr r ->
  exists data dv, c !! "vector" = Some (VBytes data) /\ bytes_to_vector data = inr dv /\
                  length qv = length dv /\
                  r = delete "vector" (<["score" := VFloat (dot_value qv dv)]> c).
Proof.
  unfold score_chunk, cosine_similarity.
  destruct (c !! "vector") as [[| | | | |data|]|]; try discriminate.
  destruct (bytes_to_vector data) as [e|dv] eqn:Ed; [discriminate|].
  destruct (Nat.eqb_spec (length qv) (length dv)); [|discriminate].
  intros H. inversion H. exists data, dv. repeat split; auto.
Qed.

Lemma score_chunks_result qv cs rs :
  score_chunks dot_value qv cs = inr rs ->
  Forall2 (fun c r => score_chunk dot_value qv c = inr r) cs rs.
Proof.
  revert rs. induction cs as [|c cs IH]; simpl; intros rs H.
  - inversion H. constructor.
  - destruct (score_chunk dot_value qv c) as [e|r] eqn:E; [discriminate|].
    destruct (score_chunks dot_value qv cs) as [e|rs']; [discriminate|].
    inversion H; subst. constructor; auto.
Qed.

Lemma Forall2_In_r {A B : Type} (R : A -> B -> Prop) l1 l2 y :
  Forall2 R l1 l2 -> In y l2 -> exists x, In x l1 /\ R x y.
Proof.
  induction 1 as [|a b l1 l2 Hab H12 IH]; intros Hin; [destruct Hin|].
  destruct Hin as [->|Hin]; simpl; eauto.
  destruct (IH Hin) as (z & Hz & HR). eauto.
Qed.

Lemma slice_to_take {A : Type} (k : Z) (l : list A) : exists n, slice_to k l = take n l.
Proof. unfold slice_to. destruct (0 <=? k); eauto. Qed.

Lemma In_take {A : Type} (n : nat) (l : list A) x : In x (take n l) -> In x l.
Proof.
  intros H. rewrite <- (firstn_skipn n l). apply in_or_app. left. exact H.
Qed.

End SearchProperties.

Section NormalizeProperties.
Local Open Scope Q_scope.

Lemma read_scores_numbers (results : list pydict) :
  Forall has_score results ->
  exists vs, read_scores results = inr vs /\ numbers vs = Some (map score_of results).
Proof.
  induction 1 as [|r l (v & q & Hv & Hq) Hl (vs & Hvs & Hn)]; simpl.
  - exists []. auto.
  - rewrite Hv, Hvs. exists (v :: vs). split; [reflexivity|]. simpl.
    rewrite Hq, Hn. unfold score_of. rewrite Hv. simpl. rewrite Hq. reflexivity.
Qed.

End NormalizeProperties.

(** ** The embedding service on the sample data *)

Lemma vector_round_trip_witness :
  bytes_to_vector (vector_to_bytes [1065353216; 0; 3204448256])
  = inr [1065353216; 0; 3204448256].
Proof.
  apply (proj1 (vector_round_trip [1065353216; 0; 3204448256]
                  ltac:(repeat constructor; cbv; congruence))).
Defined.

Lemma dimension_mismatch_raises_witness :
  score_chunk Demo.dot_value [1065353216; 0] Demo.short_candidate
  = inl (ValueError "shapes not aligned") /\
  exists e, Demo.find "cat" (Demo.candidates ++ [Demo.short_candidate])%list 5 = inl e.
Proof.
  apply (proj2 (dimension_mismatch_raises Demo.embed_text Demo.dot_value)
           "cat" (Demo.candidates ++ [Demo.short_candidate])%list 5
           [1065353216; 0] [1065353216] Demo.short_candidate
           (vector_to_bytes [1065353216])).
  - reflexivity.
  - apply in_or_app. right. left. reflexivity.
  - vm_compute. reflexivity.
  - vm_compute. reflexivity.
  - simpl. lia.
Defined.

(** The ranking of the sample candidates: [c1] and [c3] tie at 1.0 and stay
    in the order of the candidate list; [c2] follows with 0.5. *)
Example demo_ranking :
  map (fun r => (col r "id", Qred (score_of r), r !! "vector")) (Demo.ranking 3)
  = [(VStr "c1", 1%Q, None); (VStr "c3", 1%Q, None); (VStr "c2", (1 # 2)%Q, None)] /\
  map (fun r => col r "id") (Demo.ranking 2) = [VStr "c1"; VStr "c3"].
Proof. vm_compute. split; reflexivity. Qed.

(** C6.  [search] with [top_k = -1] on the three sample candidates returns
    two results, [c1] and [c3]: the slice [results[:top_k]] drops the last
    entry of the ranking.  Two is more than [top_k], which the docstring
    has as the maximum number of results to return; so the bound does not
    hold for every [top_k]. *)
Lemma claim_at_most_top_k_fails :
  map (fun r => col r "id") (Demo.ranking (-1)) = [VStr "c1"; VStr "c3"] /\
  ~ claim_at_most_top_k Demo.embed_text Demo.dot_value.
Proof.
  split; [vm_compute; reflexivity|].
  intros H. specialize (H "cat" Demo.candidates (-1) (Demo.ranking (-1))).
  assert (Hlen : length (Demo.ranking (-1)) = 2%nat) by (vm_compute; reflexivity).
  rewrite Hlen in H. assert (2 <= -1) by (apply H; vm_compute; reflexivity). lia.
Qed.

(** [test_normalize_scores]: 0.9, 0.5 and 0.1 become 1, 1/2 and 0. *)
Example demo_normalize :
  match normalize_scores Demo.results with
  | inr out =>
      map (fun o => Qred (default 0%Q (o !! "normalized_score" ≫= as_number))) out
      = [1%Q; (1 # 2)%Q; 0%Q]
  | inl _ => False
  end.
Proof. vm_compute. reflexivity. Qed.

(** ** Enqueuing keeps the table in order of creation *)

Lemma StronglySorted_snoc {A : Type} (R : A -> A -> Prop) (l : list A) (x : A) :
  StronglySorted R l -> Forall (fun y => R y x) l -> StronglySorted R (l ++ [x]).
Proof.
  induction 1 as [|y l Hs IH Hall]; intros Hx; simpl.
  - repeat constructor.
  - inversion Hx as [|? ? Hyx Hlx]; subst. constructor; [apply IH, Hlx|].
    rewrite List.Forall_forall in Hall |- *. intros z Hz.
    apply in_app_or in Hz as [Hz|[<-|[]]]; auto.
Qed.

(** X1.  [add_job] stamps the new row with the clock reading [now]; when no row
    of the table was created later than [now], the table stays in order of
    creation, which is what the third part of
    [get_pending_jobs_ordered] asks for. *)
Lemma add_job_keeps_creation_order json_dumps (now : string) (job : pydict)
    (d d' : database) :
  StronglySorted created_no_later (jobs d) ->
  Forall (fun r => sql_leb (col r "created_at") (VStr now) = true) (jobs d) ->
  add_job json_dumps now job d = inr d' ->
  StronglySorted created_no_later (jobs d').
Proof.
  intros Hs Hnow H. unfold add_job in H.
  repeat case_match; simplify_eq; simpl;
    (apply StronglySorted_snoc; [exact Hs|]);
    (eapply Forall_impl; [exact Hnow|]); intros r Hr; exact Hr.
Qed.

(** ** Counting jobs by status *)

Lemma sql_compare_text (k : value) (s : string) : sql_compare k (VStr s) = Eq <-> k = VStr s.
Proof.
  split.
  - unfold sql_compare, cmp_lex, cmp_on.
    destruct k as [|[]|z|q|s0|bs|dd]; simpl; try discriminate.
    destruct (String.compare s0 s) eqn:E; try discriminate.
    intros _. apply String.compare_eq_iff in E. congruence.
  - intros ->. apply (cmp_refl _ sql_compare_ok).
Qed.

Lemma sql_eqb_eq_str (v : value) (s : string) : sql_eqb v (VStr s) = eq_str v s.
Proof.
  destruct v as [|[]|z|q|s0|bs|dd]; try reflexivity.
  simpl eq_str. destruct (String.eqb_spec s0 s) as [->|Hne].
  - apply sql_eqb_text. reflexivity.
  - destruct (sql_eqb (VStr s0) (VStr s)) eqn:E; [|reflexivity].
    apply sql_eqb_text in E. contradiction.
Qed.

Lemma status_count_cons k n groups name :
  status_count ((k, n) :: groups) name
  = if eq_str k name then n else status_count groups name.
Proof. unfold status_count. simpl. destruct (eq_str k name); reflexivity. Qed.

Lemma status_count_count_into groups v name :
  status_count (count_into groups v) name
  = (status_count groups name + if eq_str v name then 1 else 0)%nat.
Proof.
  induction groups as [|[k n] groups IH]; simpl.
  - rewrite status_count_cons. unfold status_count. simpl.
    destruct (eq_str v name); reflexivity.
  - destruct (sql_compare k v) eqn:E.
    + rewrite !status_count_cons.
      destruct (eq_str k name) eqn:Ek.
      * apply eq_str_true in Ek. subst k.
        rewrite (cmp_antisym _ sql_compare_ok) in E.
        destruct (sql_compare v (VStr name)) eqn:E'; try discriminate.
        apply sql_compare_text in E'. subst v. simpl. rewrite String.eqb_refl. lia.
      * destruct (eq_str v name) eqn:Ev; [|lia].
        apply eq_str_true in Ev. subst v. apply sql_compare_text in E. subst k.
        simpl in Ek. rewrite String.eqb_refl in Ek. discriminate.
    + rewrite !status_count_cons. destruct (eq_str k name) eqn:Ek; [|exact IH].
      destruct (eq_str v name) eqn:Ev; [|lia].
      apply eq_str_true in Ek, Ev. subst.
      rewrite (cmp_refl _ sql_compare_ok) in E. discriminate.
    + rewrite !status_count_cons. destruct (eq_str k name) eqn:Ek; [|exact IH].
      destruct (eq_str v name) eqn:Ev; [|lia].
      apply eq_str_true in Ek, Ev. subst.
      rewrite (cmp_refl _ sql_compare_ok) in E. discriminate.
Qed.

Lemma count_status_cons name r t :
  count_status name (r :: t)
  = ((if eq_str (col r "status") name then 1 else 0) + count_status name t)%nat.
Proof. unfold count_status. simpl. destruct (eq_str _ _); reflexivity. Qed.

Lemma status_count_fold name (t : list pydict) : forall groups,
  status_count (fold_left (fun groups r => count_into groups (col r "status")) t groups) name
  = (status_count groups name + count_status name t)%nat.
Proof.
  induction t as [|r t IH]; intros groups; simpl.
  - unfold count_status. simpl. lia.
  - rewrite IH, status_count_count_into, count_status_cons. lia.
Qed.

Lemma status_count_group_counts name t :
  status_count (group_counts t) name = count_status name t.
Proof. unfold group_counts. rewrite status_count_fold. reflexivity. Qed.

Lemma count_status_pending t : count_status "pending" t = length (List.filter is_pending t).
Proof.
  unfold count_status. f_equal. apply filter_ext. intros r.
  unfold is_pending. symmetry. apply sql_eqb_eq_str.
Qed.

Lemma find_none_count {A : Type} (f : A -> bool) (l : list A) :
  List.find f l = None <-> length (List.filter f l) = 0%nat.
Proof.
  induction l as [|x l IH]; simpl; [tauto|].
  destruct (f x); simpl; [split; discriminate|exact IH].
Qed.

Lemma count_status_disjoint (t : list pydict) :
  (count_status "pending" t + count_status "running" t
   + count_status "completed" t + count_status "failed" t <= length t)%nat.
Proof.
  induction t as [|r t IH]; [unfold count_status; simpl; lia|].
  rewrite !count_status_cons. simpl length.
  destruct (col r "status"); simpl; try lia.
  destruct (String.eqb_spec s "pending"), (String.eqb_spec s "running"),
    (String.eqb_spec s "completed"), (String.eqb_spec s "failed"); subst;
    try discriminate; lia.
Qed.

Lemma batch_status_count (d : database) :
  st_pending (get_batch_status d) = count_status "pending" (jobs d) /\
  st_running (get_batch_status d) = count_status "running" (jobs d) /\
  st_completed (get_batch_status d) = count_status "completed" (jobs d) /\
  st_failed (get_batch_status d) = count_status "failed" (jobs d).
Proof.
  unfold get_batch_status. simpl. rewrite !status_count_group_counts. auto.
Qed.

(** X2.  [get_batch_status] reports, for each of the four statuses, the
    number of job rows with that status; the pending count is the length of
    what [get_pending_jobs] lists; the four counts together do not exceed
    the number of rows (a row with another status, or none, is counted
    nowhere); and [current_job] is [None] exactly when the running count is
    zero, and otherwise a row of the table whose status is ['running']. *)
Theorem get_batch_status_counts (d : database) :
  st_pending (get_batch_status d) = count_status "pending" (jobs d) /\
  st_running (get_batch_status d) = count_status "running" (jobs d) /\
  st_completed (get_batch_status d) = count_status "completed" (jobs d) /\
  st_failed (get_batch_status d) = count_status "failed" (jobs d) /\
  st_pending (get_batch_status d) = length (get_pending_jobs d) /\
  (st_pending (get_batch_status d) + st_running (get_batch_status d)
   + st_completed (get_batch_status d) + st_failed (get_batch_status d)
   <= length (jobs d))%nat /\
  (st_current_job (get_batch_status d) = None <-> st_running (get_batch_status d) = 0%nat) /\
  (forall j, st_current_job (get_batch_status d) = Some j ->
             In j (jobs d) /\ col j "status" = VStr "running").
Proof.
  destruct (batch_status_count d) as (A1 & A2 & A3 & A4).
  rewrite A1, A2, A3, A4. unfold get_batch_status. simpl.
  repeat split; try reflexivity.
  - rewrite count_status_pending. unfold get_pending_jobs.
    symmetry. apply stable_sort_length.
  - apply count_status_disjoint.
  - intros H. apply find_none_count in H. unfold count_status.
    rewrite <- H. f_equal. apply filter_ext. intros r. symmetry. apply sql_eqb_eq_str.
  - intros H. apply find_none_count. unfold count_status in H.
    rewrite <- H. f_equal. apply filter_ext. intros r. apply sql_eqb_eq_str.
  - apply find_some in H. tauto.
  - apply find_some in H as [_ H]. rewrite sql_eqb_eq_str in H.
    apply eq_str_true in H. exact H.
Qed.

(** ** Adding jobs and papers *)

Lemma sql_eqb_refl (v : value) : v <> VNone -> sql_eqb v v = true.
Proof.
  intros H. unfold sql_eqb. rewrite (cmp_refl _ sql_compare_ok).
  destruct v; congruence.
Qed.

Lemma bind_param_none v v' : bind_param v = inr v' -> (v' = VNone <-> v = VNone).
Proof.
  destruct v; simpl; try destruct (_ && _); intros H; inversion H; subst; split; congruence.
Qed.

Lemma bind_param_text v (s : string) : bind_param (VStr s) = inr v -> v = VStr s.
Proof. simpl. congruence. Qed.

Lemma find_app {A : Type} (f : A -> bool) (l l' : list A) :
  List.find f (l ++ l') = match List.find f l with Some x => Some x | None => List.find f l' end.
Proof. induction l as [|x l IH]; simpl; [reflexivity|]. destruct (f x); auto. Qed.

Lemma find_none_has_id (t : list pydict) k v :
  has_id t k v = false -> List.find (fun r => sql_eqb (col r k) v) t = None.
Proof.
  unfold has_id. induction t as [|r t IH]; simpl; [reflexivity|].
  destruct (sql_eqb (col r k) v); simpl; [discriminate|exact IH].
Qed.

Lemma find_filter {A : Type} (f g : A -> bool) (l : list A) :
  (forall x, f x = true -> g x = true) -> List.find f (List.filter g l) = List.find f l.
Proof.
  intros H. induction l as [|x l IH]; simpl; [reflexivity|].
  destruct (g x) eqn:Eg; simpl.
  - destruct (f x); auto.
  - destruct (f x) eqn:Ef; [|exact IH]. rewrite (H x Ef) in Eg. discriminate.
Qed.

Section StoreProperties.
Variable json_dumps : value -> string.

Lemma add_job_row now job d d' :
  add_job json_dumps now job d = inr d' ->
  exists jid jid' row,
    job !! "id" = Some jid /\ bind_param jid = inr jid' /\
    d' = with_jobs d (jobs d ++ [row]) /\
    has_id (jobs d) "id" jid' = false /\
    col row "id" = jid' /\
    col row "status" = VStr "pending" /\
    col row "created_at" = VStr now /\
    bind_param (default (VInt 0) (job !! "priority")) = inr (col row "priority") /\
    col row "error" = VNone /\ col row "started_at" = VNone /\
    col row "finished_at" = VNone.
Proof.
  unfold add_job, lookup_key. intros H.
  destruct (job !! "id") as [jid|] eqn:E1; [|discriminate].
  destruct (job !! "paper_id") as [pid|] eqn:E2; [|discriminate].
  destruct (job !! "type") as [ty|] eqn:E3; [|discriminate].
  cbv zeta in H.
  destruct (bind_param jid) as [|jid'] eqn:B1; [discriminate|].
  destruct (bind_param pid) as [|pid'] eqn:B2; [discriminate|].
  destruct (bind_param ty) as [|ty'] eqn:B3; [discriminate|].
  destruct (bind_param (default (VInt 0) (job !! "priority"))) as [|prio'] eqn:B4;
    [discriminate|].
  assert (Hrow : forall row : pydict,
    row = list_to_map [("id", jid'); ("paper_id", pid'); ("type", ty');
                       ("status", VStr "pending"); ("priority", prio');
                       ("error", VNone); ("created_at", VStr now);
                       ("started_at", VNone); ("finished_at", VNone);
                       ("metadata", VStr (json_dumps (default (VDict []) (job !! "metadata"))))] ->
    col row "id" = jid' /\ col row "status" = VStr "pending" /\
    col row "created_at" = VStr now /\ inr prio' = inr (B := value) (A := exn) (col row "priority") /\
    col row "error" = VNone /\ col row "started_at" = VNone /\ col row "finished_at" = VNone).
  { intros row ->. unfold col. simpl. repeat split; by simplify_map_eq. }
  destruct (has_id (jobs d) "id" jid') eqn:Eh.
  { destruct pid', ty'; discriminate. }
  exists jid, jid',
    (list_to_map [("id", jid'); ("paper_id", pid'); ("type", ty');
                  ("status", VStr "pending"); ("priority", prio');
                  ("error", VNone); ("created_at", VStr now);
                  ("started_at", VNone); ("finished_at", VNone);
                  ("metadata", VStr (json_dumps (default (VDict []) (job !! "metadata"))))]).
  split; [reflexivity|]. split; [exact B1|].
  split.
  { destruct pid', ty'; try discriminate; inversion H; reflexivity. }
  split; [exact Eh|].
  destruct (Hrow _ eq_refl) as (A1 & A2 & A3 & A4 & A5 & A6 & A7).
  repeat split; auto.
Qed.

(** X3.  When [add_job] succeeds, exactly one row has been appended to
    [jobs] and no other table has changed; the row is pending, carries the
    clock reading as [created_at], priority 0 when the job gave none, and no
    error, start or finish time; [get_pending_jobs] lists it together with
    what it listed before, so the queue is one longer; and when the ids of
    the table were text and distinct and the new id is text, they still
    are. *)
Theorem add_job_enqueues now job d d' :
  add_job json_dumps now job d = inr d' ->
  exists row,
    jobs d' = (jobs d ++ [row])%list /\
    papers d' = papers d /\ chunks d' = chunks d /\ embeddings d' = embeddings d /\
    is_pending row = true /\ col row "created_at" = VStr now /\
    (job !! "priority" = None -> col row "priority" = VInt 0) /\
    col row "error" = VNone /\ col row "started_at" = VNone /\
    col row "finished_at" = VNone /\
    Permutation (get_pending_jobs d') (row :: get_pending_jobs d) /\
    length (get_pending_jobs d') = S (length (get_pending_jobs d)) /\
    (text_ids (jobs d) -> (exists i, col row "id" = VStr i) -> text_ids (jobs d')).
Proof.
  intros H. destruct (add_job_row _ _ _ _ H)
    as (jid & jid' & row & Hid & Hb & -> & Hfresh & Hrid & Hst & Hcr & Hpr & He & Hs & Hf).
  assert (Hp : is_pending row = true).
  { unfold is_pending. rewrite Hst. reflexivity. }
  assert (Hperm : Permutation (get_pending_jobs (with_jobs d (jobs d ++ [row])))
                              (row :: get_pending_jobs d)).
  { unfold get_pending_jobs. simpl. rewrite !stable_sort_perm.
    rewrite List.filter_app. simpl. rewrite Hp.
    rewrite Permutation_app_comm. reflexivity. }
  exists row. simpl. repeat split; auto.
  - intros Hnone. rewrite Hnone in Hpr. simpl in Hpr. congruence.
  - apply Permutation_length in Hperm. exact Hperm.
  - destruct H0 as [Htxt _]. apply Forall_app. split; [exact Htxt|].
    constructor; [|constructor]. destruct H1 as [i Hi]. eauto.
  - destruct H0 as [Htxt Hnd]. destruct H1 as [i Hi].
    rewrite map_app. apply NoDup_app. split; [exact Hnd|]. split.
    + intros x Hx Hx'. simpl in Hx'. apply list_elem_of_In in Hx'.
      destruct Hx' as [<-|[]]. apply list_elem_of_In, in_map_iff in Hx as (r & Hr & Hin).
      rewrite Hrid in Hr. unfold has_id in Hfresh.
      assert (existsb (fun r => sql_eqb (col r "id") jid') (jobs d) = true) as Hex.
      { apply existsb_exists. exists r. split; [exact Hin|]. rewrite Hr.
        apply sql_eqb_refl. rewrite <- Hrid, Hi. discriminate. }
      congruence.
    + simpl. apply NoDup_singleton.
Qed.

(** X4.  [add_job] raises [KeyError] for the first of ["id"], ["paper_id"]
    and ["type"] the job lacks; and once a job with a non-null id has been
    added, adding a job with the same keys again fails on the primary key,
    whatever the clock reads. *)
Theorem add_job_rejects now job d :
  (job !! "id" = None -> add_job json_dumps now job d = inl (KeyError "id")) /\
  (job !! "id" <> None -> job !! "paper_id" = None ->
   add_job json_dumps now job d = inl (KeyError "paper_id")) /\
  (job !! "id" <> None -> job !! "paper_id" <> None -> job !! "type" = None ->
   add_job json_dumps now job d = inl (KeyError "type")) /\
  (forall d' now', add_job json_dumps now job d = inr d' -> job !! "id" <> Some VNone ->
   add_job json_dumps now' job d' = inl (DatabaseError "UNIQUE constraint failed: jobs.id")).
Proof.
  split; [|split; [|split]].
  - intros H. unfold add_job, lookup_key. rewrite H. reflexivity.
  - intros H1 H2. unfold add_job, lookup_key. rewrite H2.
    destruct (job !! "id"); [reflexivity|contradiction].
  - intros H1 H2 H3. unfold add_job, lookup_key. rewrite H3.
    destruct (job !! "id"); [|contradiction].
    destruct (job !! "paper_id"); [reflexivity|contradiction].
  - intros d' now' H Hnn.
    destruct (add_job_row _ _ _ _ H)
      as (jid & jid' & row & Hid & Hb & Hd' & Hfresh & Hrid & _).
    assert (Hdup : has_id (jobs d') "id" jid' = true).
    { subst d'. simpl. unfold has_id. rewrite existsb_app. simpl.
      rewrite Hrid, sql_eqb_refl; [apply orb_true_iff; right; reflexivity|].
      intros Hn. apply (bind_param_none _ _ Hb) in Hn. congruence. }
    revert H. unfold add_job, lookup_key. rewrite Hid.
    destruct (job !! "paper_id") as [pid|]; [|discriminate].
    destruct (job !! "type") as [ty|]; [|discriminate].
    cbv zeta. rewrite Hb.
    destruct (bind_param pid) as [|pid']; [discriminate|].
    destruct (bind_param ty) as [|ty']; [discriminate|].
    destruct (bind_param (default (VInt 0) (job !! "priority"))); [discriminate|].
    rewrite Hdup. destruct pid', ty'; try discriminate; reflexivity.
Qed.
End StoreProperties.

Lemma bind_params_cons f v rest sets' :
  bind_params ((f, v) :: rest) = inr sets' ->
  exists v' rest', sets' = (f, v') :: rest' /\ bind_param v = inr v' /\
                   bind_params rest = inr rest'.
Proof.
  simpl. destruct (bind_param v) as [|v']; [discriminate|].
  destruct (bind_params rest) as [|rest']; [discriminate|].
  intros H. inversion H. eauto.
Qed.

Lemma not_null_checked (not_null : list string) (sets : list (string * value)) f v :
  violates_not_null not_null sets = false -> In (f, v) sets -> f ∈ not_null -> v <> VNone.
Proof.
  unfold violates_not_null. intros H Hin Hf ->.
  assert (existsb (fun fv => bool_decide (fst fv ∈ not_null) &&
                     match snd fv with VNone => true | _ => false end) sets = true) as Hex.
  { apply existsb_exists. exists (f, VNone). split; [exact Hin|]. simpl.
    rewrite bool_decide_eq_true_2 by exact Hf. reflexivity. }
  congruence.
Qed.

Lemma violates_not_null_ext (not_null : list string) (l l' : list (string * value)) :
  Forall2 (fun a b => fst a = fst b /\ (snd a = VNone <-> snd b = VNone)) l l' ->
  violates_not_null not_null l = violates_not_null not_null l'.
Proof.
  unfold violates_not_null. induction 1 as [|[f v] [f' v'] l l' [Hf Hv] Hl IH]; [reflexivity|].
  simpl in *. subst f'. rewrite IH. f_equal. f_equal.
  destruct v, v'; try reflexivity; exfalso;
    first [ assert (H0 : VNone = VNone :> value) by reflexivity; apply Hv in H0; discriminate
          | assert (H0 : VNone = VNone :> value) by reflexivity; apply Hv in H0; discriminate ].
Qed.

Lemma bind_param_str (s : string) : bind_param (VStr s) = inr (VStr s).
Proof. reflexivity. Qed.

Lemma newest_first_ok : cmp_ok newest_first.
Proof. apply cmp_rev_ok, cmp_on_ok, sql_compare_ok. Qed.

Section PaperProperties.
Variable json_dumps : value -> string.

Lemma add_paper_row now paper d d' :
  add_paper json_dumps now paper d = inr d' ->
  exists pid pid' row,
    paper !! "id" = Some pid /\ bind_param pid = inr pid' /\
    d' = with_papers d (papers d ++ [row]) /\
    has_id (papers d) "id" pid' = false /\
    col row "id" = pid' /\
    col row "status" = VStr "pending" /\
    col row "added_at" = VStr now /\
    col row "embeddings_ready" = VInt 0 /\
    col row "indexed_at" = VNone /\
    bind_param (default (VStr "Untitled") (paper !! "title")) = inr (col row "title") /\
    bind_param (default (VStr "default") (paper !! "collection")) = inr (col row "collection") /\
    bind_param (default VNone (paper !! "local_pdf_path")) = inr (col row "local_pdf_path") /\
    col row "local_pdf_path" <> VNone /\ col row "title" <> VNone.
Proof.
  unfold add_paper, lookup_key. intros H.
  destruct (paper !! "id") as [pid|] eqn:E1; [|discriminate].
  destruct (paper !! "local_pdf_path") as [path|] eqn:E2; [|discriminate].
  destruct (bind_params _) as [|values] eqn:Eb; [discriminate|].
  apply bind_params_cons in Eb as (pid' & r1 & -> & B1 & Eb).
  apply bind_params_cons in Eb as (title' & r2 & -> & B2 & Eb).
  apply bind_params_cons in Eb as (authors' & r3 & -> & B3 & Eb).
  apply bind_params_cons in Eb as (year' & r4 & -> & B4 & Eb).
  apply bind_params_cons in Eb as (doi' & r5 & -> & B5 & Eb).
  apply bind_params_cons in Eb as (url' & r6 & -> & B6 & Eb).
  apply bind_params_cons in Eb as (path' & r7 & -> & B7 & Eb).
  apply bind_params_cons in Eb as (now' & r8 & -> & B8 & Eb).
  apply bind_params_cons in Eb as (st' & r9 & -> & B9 & Eb).
  apply bind_params_cons in Eb as (coll' & r10 & -> & B10 & Eb).
  apply bind_params_cons in Eb as (meta' & r11 & -> & B11 & Eb).
  simpl in Eb. inversion Eb; subst r11. clear Eb.
  simpl in B8, B9, B11. inversion B8; subst now'. inversion B9; subst st'.
  inversion B11; subst meta'. clear B8 B9 B11.
  destruct (violates_not_null _ _) eqn:Ev; [discriminate|].
  assert (Hid : col (list_to_map
                  [("id", pid'); ("title", title'); ("authors", authors'); ("year", year');
                   ("doi", doi'); ("source_url", url'); ("local_pdf_path", path');
                   ("added_at", VStr now); ("status", VStr "pending");
                   ("collection", coll');
                   ("metadata",
                    VStr (json_dumps (default (VDict []) (paper !! "metadata"))))]) "id" = pid').
  { unfold col. simpl. by simplify_map_eq. }
  rewrite Hid in H.
  destruct (has_id (papers d) "id" pid') eqn:Eh; [discriminate|].
  inversion H; subst d'. clear H.
  eexists pid, pid', _. split; [reflexivity|]. split; [exact B1|].
  split; [reflexivity|]. split; [exact Eh|].
  assert (Hpath : path' <> VNone).
  { apply (not_null_checked _ _ "local_pdf_path" _ Ev); [simpl; tauto|set_solver]. }
  assert (Htitle : title' <> VNone).
  { apply (not_null_checked _ _ "title" _ Ev); [simpl; tauto|set_solver]. }
  unfold col. simpl.
  repeat split; try (by simplify_map_eq).
Qed.

(** X5.  When [add_paper] succeeds for a paper whose id is text, no paper
    had that id before, [get_paper] now returns the new row, and every other
    id is answered as before.  The row is pending with [embeddings_ready] 0,
    no [indexed_at], the clock reading as [added_at], the title
    ["Untitled"] and the collection ["default"] when the paper gave none;
    the other tables are untouched. *)
Theorem add_paper_then_get_paper now paper d d' (pid : string) :
  add_paper json_dumps now paper d = inr d' ->
  paper !! "id" = Some (VStr pid) ->
  get_paper (VStr pid) d = None /\
  (exists row,
     get_paper (VStr pid) d' = Some row /\
     papers d' = (papers d ++ [row])%list /\
     col row "id" = VStr pid /\ col row "status" = VStr "pending" /\
     col row "embeddings_ready" = VInt 0 /\ col row "indexed_at" = VNone /\
     col row "added_at" = VStr now /\
     (paper !! "title" = None -> col row "title" = VStr "Untitled") /\
     (paper !! "collection" = None -> col row "collection" = VStr "default")) /\
  (forall q, q <> pid -> get_paper (VStr q) d' = get_paper (VStr q) d) /\
  chunks d' = chunks d /\ embeddings d' = embeddings d /\ jobs d' = jobs d.
Proof.
  intros H Hid.
  destruct (add_paper_row _ _ _ _ H)
    as (p & p' & row & Hp & Hb & -> & Hfresh & Hrid & Hst & Hat & Her & Hix & Ht & Hc & _).
  assert (Ep : p = VStr pid) by congruence. rewrite Ep in Hb.
  assert (Ep' : p' = VStr pid) by (simpl in Hb; congruence).
  rewrite Ep' in Hfresh, Hrid. clear Hp Hb Ep Ep'.
  assert (Hnone : get_paper (VStr pid) d = None).
  { unfold get_paper. apply find_none_has_id. exact Hfresh. }
  split; [exact Hnone|]. split; [|split].
  - exists row. unfold get_paper in *. simpl. rewrite find_app, Hnone. simpl.
    rewrite Hrid, sql_eqb_refl by discriminate.
    repeat split; auto.
    + intros Hn. rewrite Hn in Ht. simpl in Ht. congruence.
    + intros Hn. rewrite Hn in Hc. simpl in Hc. congruence.
  - intros q Hq. unfold get_paper. simpl. rewrite find_app.
    destruct (List.find _ (papers d)); [reflexivity|]. simpl.
    rewrite Hrid. destruct (sql_eqb (VStr pid) (VStr q)) eqn:E; [|reflexivity].
    apply sql_eqb_text in E. congruence.
  - simpl. auto.
Qed.

(** X6.  [add_paper] raises [KeyError] when the paper has no ["id"], or has
    one and no ["local_pdf_path"]; and adding a paper whose non-null id is
    already in the table fails on the primary key.  In each case nothing is
    returned to write. *)
Theorem add_paper_rejects now paper d :
  (paper !! "id" = None -> add_paper json_dumps now paper d = inl (KeyError "id")) /\
  (paper !! "id" <> None -> paper !! "local_pdf_path" = None ->
   add_paper json_dumps now paper d = inl (KeyError "local_pdf_path")) /\
  (forall d' now', add_paper json_dumps now paper d = inr d' ->
   paper !! "id" <> Some VNone ->
   add_paper json_dumps now' paper d'
   = inl (DatabaseError "UNIQUE constraint failed: papers.id")).
Proof.
  split; [|split].
  - intros H. unfold add_paper, lookup_key. rewrite H. reflexivity.
  - intros H1 H2. unfold add_paper, lookup_key. rewrite H2.
    destruct (paper !! "id"); [reflexivity|contradiction].
  - intros d' now' H Hnn.
    destruct (add_paper_row _ _ _ _ H)
      as (p & p' & row & Hp & Hb & Hd' & Hfresh & Hrid & _).
    assert (Hdup : has_id (papers d') "id" p' = true).
    { subst d'. simpl. unfold has_id. rewrite existsb_app. simpl.
      rewrite Hrid, sql_eqb_refl; [apply orb_true_iff; right; reflexivity|].
      intros Hn. apply (bind_param_none _ _ Hb) in Hn. congruence. }
    revert H. unfold add_paper, lookup_key. rewrite Hp.
    destruct (paper !! "local_pdf_path") as [path|]; [|discriminate].
    simpl bind_params. rewrite Hb.
    repeat match goal with
    | |- context [bind_param ?v] =>
        destruct (bind_param v) eqn:?; try (intros; discriminate)
    end.
    intros H0.
    match type of H0 with
    | context [violates_not_null ?a ?b] =>
        destruct (violates_not_null a b) eqn:Ev; [discriminate|]
    end.
    match goal with
    | |- context [violates_not_null ?a ?b] =>
        replace (violates_not_null a b) with false
          by (symmetry; etransitivity; [|exact Ev]; apply violates_not_null_ext;
              repeat (apply List.Forall2_cons;
                      [split; [reflexivity|split; first [tauto | intros; discriminate]]|]);
              apply List.Forall2_nil)
    end.
    match goal with
    | |- context [col (list_to_map ?l) "id"] =>
        replace (col (list_to_map l) "id") with p'
          by (unfold col; simpl; by simplify_map_eq)
    end.
    rewrite Hdup. reflexivity.
Qed.

(** X7.  [list_papers] with no collection, or with the empty string, lists
    every paper; with a collection [c] it lists exactly the papers of [papers]
    whose collection is [c], each as often as the table has it.  Either way
    the list is in descending order of [added_at]. *)
Theorem list_papers_lists (d : database) (c : string) :
  list_papers None d = list_papers (Some "") d /\
  Permutation (list_papers None d) (papers d) /\
  (c <> "" ->
   Permutation (list_papers (Some c) d)
     (List.filter (fun r => eq_str (col r "collection") c) (papers d)) /\
   forall r, In r (list_papers (Some c) d) <-> In r (papers d) /\ col r "collection" = VStr c) /\
  (forall collection,
     StronglySorted (fun a b => sql_compare (col b "added_at") (col a "added_at") <> Gt)
       (list_papers collection d)).
Proof.
  split; [reflexivity|]. split; [apply stable_sort_perm|]. split.
  - intros Hc. destruct c as [|a c]; [contradiction|].
    assert (Hf : List.filter (fun r => sql_eqb (col r "collection") (VStr (String a c))) (papers d)
                 = List.filter (fun r => eq_str (col r "collection") (String a c)) (papers d)).
    { apply filter_ext. intros r. apply sql_eqb_eq_str. }
    split.
    + unfold list_papers. rewrite stable_sort_perm, Hf. reflexivity.
    + intros r. unfold list_papers. rewrite stable_sort_In, Hf, filter_In.
      split; intros [H1 H2]; split; auto.
      * apply eq_str_true. exact H2.
      * rewrite H2. unfold eq_str. apply String.eqb_refl.
  - intros collection. unfold list_papers.
    eapply StronglySorted_weaken; [|apply stable_sort_sorted].
    + intros a b. unfold leb_of, newest_first, cmp_rev, cmp_on.
      destruct (sql_compare (col b "added_at") (col a "added_at")); congruence.
    + apply leb_of_total, newest_first_ok.
    + apply leb_of_trans, newest_first_ok.
Qed.

(** X8.  [delete_paper] with a text id removes every paper row with that
    id, so [get_paper] finds none; every other id is answered as before;
    and the [chunks], [embeddings] and [jobs] tables are left as they were:
    the rows of the deleted paper stay (the connection never enables
    foreign keys, so nothing cascades). *)
Theorem delete_paper_removes (pid : string) (d : database) :
  exists d',
    delete_paper (VStr pid) d = inr d' /\
    get_paper (VStr pid) d' = None /\
    (forall q, q <> pid -> get_paper (VStr q) d' = get_paper (VStr q) d) /\
    (forall r, In r (papers d') <-> In r (papers d) /\ col r "id" <> VStr pid) /\
    chunks d' = chunks d /\ embeddings d' = embeddings d /\ jobs d' = jobs d /\
    (forall json_loads, get_chunks json_loads (VStr pid) d' = get_chunks json_loads (VStr pid) d).
Proof.
  eexists. split; [reflexivity|]. simpl. repeat split; auto.
  - unfold get_paper. simpl.
    destruct (List.find _ _) as [r|] eqn:E; [|reflexivity].
    apply find_some in E as [Hin Hr]. apply filter_In in Hin as [_ Hn].
    rewrite Hr in Hn. discriminate.
  - intros q Hq. unfold get_paper. simpl. apply find_filter.
    intros r Hr. rewrite sql_eqb_eq_str in Hr. apply eq_str_true in Hr.
    rewrite Hr. apply negb_true_iff.
    destruct (sql_eqb (VStr q) (VStr pid)) eqn:E; [|reflexivity].
    apply sql_eqb_text in E. contradiction.
  - apply filter_In in H. tauto.
  - apply filter_In in H as [_ H]. intros Hr. rewrite Hr in H.
    rewrite sql_eqb_refl in H by discriminate. discriminate.
  - intros [Hin Hne]. apply filter_In. split; [exact Hin|].
    apply negb_true_iff. rewrite sql_eqb_eq_str.
    destruct (eq_str (col r "id") pid) eqn:E; [|reflexivity].
    apply eq_str_true in E. contradiction.
Qed.
End PaperProperties.

(** ** The token check *)

Lemma substring_all (s : string) : substring 0 (String.length s) s = s.
Proof. induction s as [|c s IH]; simpl; [reflexivity|]. rewrite IH. reflexivity. Qed.

Lemma append_cons (c : ascii) (s t : string) : String c s ++ t = String c (s ++ t).
Proof. reflexivity. Qed.

Lemma append_nil (t : string) : "" ++ t = t.
Proof. reflexivity. Qed.

Lemma prefix_split (p : string) : forall s : string,
  String.prefix p s = true ->
  s = p ++ substring (String.length p) (String.length s - String.length p) s.
Proof.
  induction p as [|a p IH]; intros s H.
  - simpl. rewrite append_nil, Nat.sub_0_r, substring_all. reflexivity.
  - destruct s as [|b s]; [discriminate|]. simpl in H.
    destruct (ascii_dec a b) as [->|]; [|discriminate].
    simpl. rewrite append_cons. f_equal. apply IH. exact H.
Qed.

Lemma prefix_append (p t : string) : String.prefix p (p ++ t) = true.
Proof.
  induction p as [|a p IH]; [rewrite append_nil; destruct t; reflexivity|].
  rewrite append_cons. simpl. destruct (ascii_dec a a); [exact IH|contradiction].
Qed.

Lemma append_inj (p a b : string) : p ++ a = p ++ b -> a = b.
Proof.
  induction p as [|c p IH]; [rewrite !append_nil; auto|].
  rewrite !append_cons. intros H. inversion H. auto.
Qed.

(** X9.  [verify_token] lets a request through exactly when the header is
    ["Bearer "] followed by the configured token, or is the configured token
    itself and that token does not start with ["Bearer "]; the empty header
    is never let through.  It then returns the configured token.  Every
    refusal is a 401: "Missing authorization header" exactly when there is no
    header or an empty one, "Invalid token" otherwise. *)
Theorem verify_token_accepts (auth_token : string) (authorization : option string) :
  (forall token,
     verify_token auth_token authorization = inr token <->
     token = auth_token /\
     exists a, authorization = Some a /\ a <> "" /\
               (a = "Bearer " ++ auth_token \/
                (a = auth_token /\ String.prefix "Bearer " auth_token = false))) /\
  (forall e,
     verify_token auth_token authorization = inl e ->
     (e = HTTPException 401 "Missing authorization header" /\
      (authorization = None \/ authorization = Some "")) \/
     (e = HTTPException 401 "Invalid token" /\
      exists a, authorization = Some a /\ a <> "")).
Proof.
  destruct authorization as [[|c a]|].
  - split.
    + intros token. split; [discriminate|]. intros (_ & a & Ha & Hne & _). congruence.
    + intros e H. inversion H. left. auto.
  - unfold verify_token. cbv beta iota.
    assert (Hs : String c a <> "") by discriminate.
    set (s := String c a) in *. clearbody s.
    destruct (String.prefix "Bearer " s) eqn:Ep; cbv zeta.
    + pose proof (prefix_split _ _ Ep) as Hsplit.
      change (String.length "Bearer ") with 7%nat in Hsplit.
      set (rest := substring 7 (String.length s - 7) s) in *. clearbody rest.
      destruct (String.eqb_spec rest auth_token) as [He|Hne].
      * split.
        -- intros token. split.
           ++ intros H. assert (Et : token = rest) by congruence. subst token.
              split; [exact He|]. exists s.
              split; [reflexivity|]. split; [exact Hs|]. left. congruence.
           ++ intros [-> _]. rewrite He. reflexivity.
        -- intros e H. discriminate.
      * split.
        -- intros token. split; [discriminate|].
           intros (_ & x & Hx & _ & Hor); assert (Exs : s = x) by congruence;
           rewrite <- Exs in Hor; clear Exs Hx; destruct Hor as [Hb|[Hb Hp]]; exfalso.
           ++ apply Hne. rewrite Hsplit in Hb. apply append_inj in Hb. exact Hb.
           ++ rewrite <- Hb, Ep in Hp. discriminate.
        -- intros e H. inversion H. right. split; [reflexivity|]. eauto.
    + destruct (String.eqb_spec s auth_token) as [He|Hne].
      * split.
        -- intros token. split.
           ++ intros H. assert (Et : token = s) by congruence. subst token.
              split; [exact He|]. exists s.
              split; [reflexivity|]. split; [exact Hs|]. right.
              split; [exact He|]. rewrite <- He. exact Ep.
           ++ intros [-> _]. rewrite He. reflexivity.
        -- intros e H. discriminate.
      * split.
        -- intros token. split; [discriminate|].
           intros (_ & x & Hx & _ & Hor); assert (Exs : s = x) by congruence;
           rewrite <- Exs in Hor; clear Exs Hx; destruct Hor as [Hb|[Hb _]]; exfalso.
           ++ rewrite Hb, prefix_append in Ep. discriminate.
           ++ contradiction.
        -- intros e H. inversion H. right. split; [reflexivity|]. eauto.
  - split.
    + intros token. split; [discriminate|]. intros (_ & a & Ha & _). discriminate.
    + intros e H. inversion H. left. auto.
Qed.

(** ** Decoding stored vectors *)

Lemma Z_of_byte_range (b : Byte.byte) : 0 <= Z_of_byte b < 256.
Proof. unfold Z_of_byte. pose proof (Byte.to_N_bounded b). lia. Qed.

Lemma Z_of_byte_high (b : Byte.byte) (n : Z) : 8 <= n -> Z.testbit (Z_of_byte b) n = false.
Proof.
  intros Hn. pose proof (Z_of_byte_range b).
  destruct (Z.eq_dec (Z_of_byte b) 0) as [->|Hz]; [apply Z.testbit_0_l|].
  apply Z.bits_above_log2; [lia|].
  apply Z.lt_le_trans with 8; [|lia]. apply Z.log2_lt_pow2; lia.
Qed.

Lemma byte_of_Z_of_byte (b : Byte.byte) : byte_of_Z (Z_of_byte b) = b.
Proof.
  unfold byte_of_Z.
  replace (Z.land (Z_of_byte b) 255) with (Z_of_byte b).
  - unfold Z_of_byte. rewrite N2Z.id, Byte.of_to_N. reflexivity.
  - symmetry. change 255 with (Z.ones 8). rewrite Z.land_ones by lia.
    apply Z.mod_small. apply Z_of_byte_range.
Qed.

Lemma byte_of_Z_low (z : Z) (b : Byte.byte) : Z.land z 255 = Z_of_byte b -> byte_of_Z z = b.
Proof.
  intros H. unfold byte_of_Z. rewrite H. unfold Z_of_byte.
  rewrite N2Z.id, Byte.of_to_N. reflexivity.
Qed.

Ltac byte_bits :=
  repeat match goal with
  | |- context [Z.testbit (Z_of_byte ?b) ?i] =>
      first [ rewrite (Z.testbit_neg_r (Z_of_byte b) i) by lia
            | rewrite (Z_of_byte_high b i) by lia ]
  end.

Lemma f32_bytes_of_bytes (b0 b1 b2 b3 : Byte.byte) :
  f32_bytes (f32_of_bytes b0 b1 b2 b3) = [b0; b1; b2; b3].
Proof.
  unfold f32_bytes, f32_of_bytes.
  f_equal; [|f_equal; [|f_equal; [|f_equal]]]; apply byte_of_Z_low;
    apply Z.bits_inj'; intros n Hn; change 255 with (Z.ones 8); rewrite Z.land_spec;
    (destruct (Z.ltb_spec n 8);
     [ rewrite Z.ones_spec_low by lia
     | rewrite Z.ones_spec_high by lia; rewrite andb_false_r; symmetry;
       apply Z_of_byte_high; lia ]);
    rewrite andb_true_r; rewrite ?Z.shiftr_spec by lia;
    rewrite !Z.lor_spec, !Z.shiftl_spec by lia; byte_bits;
    rewrite ?orb_false_r, ?orb_false_l; f_equal; lia.
Qed.

Lemma f32_of_bytes_range (b0 b1 b2 b3 : Byte.byte) : 0 <= f32_of_bytes b0 b1 b2 b3 < 2 ^ 32.
Proof.
  set (w := f32_of_bytes b0 b1 b2 b3).
  assert (H : Z.land w (Z.ones 32) = w).
  { apply Z.bits_inj'. intros n Hn. rewrite Z.land_spec.
    destruct (Z.ltb_spec n 32).
    - rewrite Z.ones_spec_low by lia. apply andb_true_r.
    - rewrite Z.ones_spec_high by lia. rewrite andb_false_r. symmetry.
      unfold w, f32_of_bytes. rewrite !Z.lor_spec, !Z.shiftl_spec by lia. byte_bits.
      reflexivity. }
  rewrite Z.land_ones in H by lia. rewrite <- H. apply Z.mod_pos_bound. lia.
Qed.

Lemma f32_words_inverse (n : nat) : forall data : list Byte.byte,
  length data = (4 * n)%nat ->
  vector_to_bytes (f32_words data) = data /\ length (f32_words data) = n /\
  Forall (fun w => 0 <= w < 2 ^ 32) (f32_words data).
Proof.
  induction n as [|n IH]; intros data H.
  - destruct data; [|discriminate]. simpl. repeat split; constructor.
  - destruct data as [|b0 [|b1 [|b2 [|b3 rest]]]]; simpl in H; try lia.
    destruct (IH rest) as (A & B & C); [lia|].
    change (f32_words (b0 :: b1 :: b2 :: b3 :: rest))
      with (f32_of_bytes b0 b1 b2 b3 :: f32_words rest).
    split; [|split].
    + unfold vector_to_bytes in *.
      change (f32_bytes (f32_of_bytes b0 b1 b2 b3) ++ flat_map f32_bytes (f32_words rest)
              = b0 :: b1 :: b2 :: b3 :: rest)%list.
      rewrite A, f32_bytes_of_bytes. reflexivity.
    + simpl. rewrite B. reflexivity.
    + constructor; [apply f32_of_bytes_range|exact C].
Qed.

(** X10.  [bytes_to_vector] returns exactly when the number of bytes is a
    multiple of four, and otherwise raises [ValueError].  What it returns has
    one component per four bytes, each a 32-bit pattern, and encoding it
    again with [vector_to_bytes] gives back the very bytes it was decoded
    from. *)
Theorem bytes_to_vector_decodes (data : list Byte.byte) :
  ((exists v, bytes_to_vector data = inr v) <-> (length data mod 4 = 0)%nat) /\
  ((length data mod 4 <> 0)%nat ->
   bytes_to_vector data = inl (ValueError "buffer size must be a multiple of element size")) /\
  (forall v, bytes_to_vector data = inr v ->
     length data = (4 * length v)%nat /\
     Forall (fun w => 0 <= w < 2 ^ 32) v /\
     vector_to_bytes v = data).
Proof.
  unfold bytes_to_vector. destruct (Nat.eqb_spec (length data mod 4) 0) as [H|H].
  - split; [split; eauto|]. split; [contradiction|].
    intros v Hv. inversion Hv; subst v.
    apply Nat.Div0.div_exact in H.
    destruct (f32_words_inverse (length data / 4) data H) as (A & B & C).
    repeat split; auto. rewrite B. exact H.
  - split; [split; [intros [v Hv]; discriminate|contradiction]|].
    split; [reflexivity|]. intros v Hv. discriminate.
Qed.

(** ** Searching and then normalizing *)

Lemma score_of_normalized (r : pydict) (v : value) :
  score_of (<["normalized_score" := v]> r) = score_of r.
Proof. unfold score_of. rewrite lookup_insert_ne by discriminate. reflexivity. Qed.

Lemma read_scores_normalized (f : pydict -> value) (results : list pydict) :
  read_scores (map (fun r => <["normalized_score" := f r]> r) results) = read_scores results.
Proof.
  induction results as [|r l IH]; simpl; [reflexivity|].
  rewrite lookup_insert_ne by discriminate. rewrite IH. reflexivity.
Qed.

Lemma normalized_twice (r : pydict) (v : value) :
  <["normalized_score" := v]> (<["normalized_score" := v]> r) = <["normalized_score" := v]> r.
Proof. apply insert_insert_eq. Qed.

(** X11.  [normalize_scores] applied to its own result changes nothing: the
    normalized score depends on the scores alone, which it leaves as they
    are. *)
Theorem normalize_scores_idempotent (results out : list pydict) :
  normalize_scores results = inr out -> normalize_scores out = inr out.
Proof.
  unfold normalize_scores at 1.
  destruct (read_scores results) as [e|vs] eqn:Er; [discriminate|].
  destruct (numbers vs) as [[|q qs]|] eqn:En; [| |discriminate].
  - intros H. inversion H; subst out. unfold normalize_scores. rewrite Er, En. reflexivity.
  - cbv zeta. set (lo := Qmin_list q qs). set (hi := Qmax_list q qs).
    destruct (Qeq_bool (hi - lo) 0) eqn:Eq; intros H; inversion H; subst out; clear H.
    + unfold normalize_scores.
      rewrite (read_scores_normalized (fun _ => VFloat (1 # 2))), Er, En.
      cbv zeta. fold lo hi. rewrite Eq. f_equal. rewrite map_map. apply map_ext.
      intros r. apply normalized_twice.
    + unfold normalize_scores.
      rewrite (read_scores_normalized (fun r => VFloat ((score_of r - lo) / (hi - lo)))), Er, En.
      cbv zeta. fold lo hi. rewrite Eq. f_equal. rewrite map_map. apply map_ext.
      intros r. rewrite score_of_normalized. apply normalized_twice.
Qed.

Lemma read_scores_missing (results : list pydict) :
  (exists r, In r results /\ r !! "score" = None) <-> read_scores results = inl (KeyError "score").
Proof.
  induction results as [|r l IH]; simpl.
  - split; [intros (r & [] & _)|discriminate].
  - destruct (r !! "score") as [v|] eqn:E.
    + destruct (read_scores l) as [e|vs].
      * split.
        -- intros (x & [<-|Hx] & Hn); [congruence|].
           f_equal. assert (inl e = inl (KeyError "score") :> exn + list value) as H.
           { apply IH. eauto. }
           congruence.
        -- intros H. assert (inl e = inl (KeyError "score") :> exn + list value) as H' by congruence.
           apply IH in H' as (x & Hx & Hn). eauto.
      * split; [|discriminate].
        intros (x & [<-|Hx] & Hn); [congruence|].
        assert (inr vs = inl (KeyError "score") :> exn + list value) as H by (apply IH; eauto).
        discriminate.
    + split; [reflexivity|]. intros _. exists r. auto.
Qed.

(** X12.  [normalize_scores] raises [KeyError('score')] exactly when some
    result has no ["score"]. *)
Theorem normalize_scores_raises (results : list pydict) :
  (exists r, In r results /\ r !! "score" = None) <->
  normalize_scores results = inl (KeyError "score").
Proof.
  rewrite read_scores_missing. unfold normalize_scores.
  destruct (read_scores results) as [e|vs]; [split; congruence|].
  split; [discriminate|].
  destruct (numbers vs) as [[|q qs]|]; try discriminate.
  destruct (Qeq_bool _ _); discriminate.
Qed.

Lemma normalize_scores_total (results : list pydict) :
  Forall has_score results ->
  exists out,
    normalize_scores results = inr out /\
    Forall2 (fun r o => exists v, o = <["normalized_score" := v]> r) results out.
Proof.
  intros Hall.
  destruct (read_scores_numbers results Hall) as (vs & Hvs & Hn).
  unfold normalize_scores. rewrite Hvs, Hn.
  destruct results as [|r0 rest]; [exists []; split; [reflexivity|constructor]|].
  remember (r0 :: rest) as results eqn:Er.
  assert (Hm : map score_of results = score_of r0 :: map score_of rest) by (subst; reflexivity).
  rewrite Hm. cbv zeta.
  destruct (Qeq_bool _ _); (eexists; split; [reflexivity|]);
    apply Forall2_map_same; eauto.
Qed.

Section SearchMore.
Variable embed_text : string -> exn + list Z.
Variable dot_value : list Z -> list Z -> Q.

Lemma search_results (query : string) (cs : list pydict) (top_k : Z) (rs : list pydict) :
  search embed_text dot_value query cs top_k = inr rs ->
  exists ranked,
    rs = slice_to top_k ranked /\ length ranked = length cs /\
    StronglySorted (fun a b => (score_of b <= score_of a)%Q) ranked /\
    Forall (fun r => r !! "vector" = None /\ exists q, r !! "score" = Some (VFloat q)) ranked.
Proof.
  unfold search. destruct (embed_text query) as [e|qv]; [discriminate|].
  destruct (score_chunks dot_value qv cs) as [e|scored] eqn:Es; [discriminate|].
  intros H. inversion H; subst rs. clear H.
  pose proof (score_chunks_result _ _ _ _ Es) as Hall.
  exists (stable_sort by_score_desc scored). split; [reflexivity|]. split; [|split].
  - rewrite stable_sort_length. symmetry. eapply Forall2_length, Hall.
  - eapply StronglySorted_weaken; [intros a b; apply by_score_desc_le|].
    apply stable_sort_sorted.
    + apply leb_of_total, by_score_desc_ok.
    + apply leb_of_trans, by_score_desc_ok.
  - rewrite List.Forall_forall. intros r Hr. apply stable_sort_In in Hr.
    destruct (Forall2_In_r _ _ _ _ Hall Hr) as (c & _ & Hc).
    apply score_chunk_result in Hc as (data & dv & _ & _ & _ & ->).
    split; [apply lookup_delete_eq|].
    rewrite lookup_delete_ne by discriminate. rewrite lookup_insert_eq. eauto.
Qed.

(** X13.  For [top_k >= 0], [search] returns exactly [min(top_k, n)] results
    for [n] candidates: all of them when [top_k] is at least [n], none when
    [top_k] is 0. *)
Theorem search_count (query : string) (cs : list pydict) (top_k : Z) (rs : list pydict) :
  search embed_text dot_value query cs top_k = inr rs -> 0 <= top_k ->
  length rs = Nat.min (Z.to_nat top_k) (length cs) /\
  (Z.of_nat (length cs) <= top_k -> length rs = length cs) /\
  (top_k = 0 -> rs = []).
Proof.
  intros H Hk. destruct (search_results _ _ _ _ H) as (ranked & -> & Hlen & _).
  unfold slice_to. destruct (Z.leb_spec 0 top_k); [|lia].
  rewrite length_take, Hlen. split; [reflexivity|]. split.
  - intros Hn. lia.
  - intros ->. reflexivity.
Qed.

Lemma normalize_after_search (query : string) (cs : list pydict) (top_k : Z)
    (rs : list pydict) :
  search embed_text dot_value query cs top_k = inr rs ->
  exists out,
    normalize_scores rs = inr out /\
    Forall2 (fun r o => exists v, o = <["normalized_score" := v]> r) rs out.
Proof.
  intros H. apply normalize_scores_total.
  destruct (search_results _ _ _ _ H) as (ranked & -> & _ & _ & Hf).
  destruct (slice_to_take top_k ranked) as [n ->].
  rewrite List.Forall_forall in Hf |- *. intros r Hr.
  destruct (Hf r (In_take _ _ _ Hr)) as (_ & q & Hq).
  exists (VFloat q), q. auto.
Qed.

(** X14.  Whatever [search] returns, [normalize_scores] accepts: it does not
    raise, and it returns as many results, the same ones in the same order,
    each with a ["normalized_score"] added and nothing else changed: the
    ["score"] is the one [search] gave and there is still no ["vector"]. *)
Theorem search_then_normalize (query : string) (cs : list pydict) (top_k : Z)
    (rs : list pydict) :
  search embed_text dot_value query cs top_k = inr rs ->
  exists out,
    normalize_scores rs = inr out /\
    length out = length rs /\
    Forall2 (fun r o => (exists v, o = <["normalized_score" := v]> r) /\
                        o !! "score" = r !! "score" /\ o !! "vector" = None) rs out.
Proof.
  intros H. destruct (normalize_after_search _ _ _ _ H) as (out & Hn & Hall).
  exists out. split; [exact Hn|].
  split; [symmetry; apply (Forall2_length _ _ _ Hall)|].
  destruct (search_results _ _ _ _ H) as (ranked & Hrs & _ & _ & Hf).
  assert (Hv : Forall (fun r => r !! "vector" = None) rs).
  { rewrite Hrs. destruct (slice_to_take top_k ranked) as [n ->].
    rewrite List.Forall_forall in Hf |- *. intros r Hr.
    apply (Hf r (In_take _ _ _ Hr)). }
  clear Hrs Hn H Hf. induction Hall as [|r o rs out (v & ->) Hall IH].
  - constructor.
  - inversion Hv as [|? ? Hr Hv']; subst. constructor; [|apply IH, Hv'].
    split; [eauto|]. rewrite !lookup_insert_ne by discriminate. auto.
Qed.
End SearchMore.

(** ** The semantic search route *)

Section RouteProperties.
Variable json_loads : string -> exn + value.
Variable embed_text : string -> exn + list Z.
Variable dot_value : list Z -> list Z -> Q.

Local Notation route := (semantic_search json_loads embed_text dot_value).

(** X15.  The route [semantic_search] answers 404 when the paper is unknown,
    before anything else; 400 when the paper's [embeddings_ready] is false
    (absent, NULL or 0), whatever the [embeddings] table holds.  When it
    answers with results, the paper is known and ready, the results are what
    [search] returned for the rows of [get_embeddings], in the same order,
    each with a ["normalized_score"] added; no result carries a ["vector"];
    and for [top_k >= 0] there are at most [top_k] of them.
    An exception can only come from [get_embeddings] or from [search]:
    normalizing never fails here. *)
Theorem semantic_search_outcomes (paper_id query : string) (top_k : Z) (d : database) :
  (get_paper (VStr paper_id) d = None ->
   route paper_id query top_k d = Refused (HTTPException 404 "Paper not found")) /\
  (forall paper,
     get_paper (VStr paper_id) d = Some paper ->
     truthy (default VNone (paper !! "embeddings_ready")) = false ->
     route paper_id query top_k d
     = Refused (HTTPException 400
         "Paper not ready for semantic search. Run batch processing first.")) /\
  (forall out,
     route paper_id query top_k d = Answered out ->
     (exists paper, get_paper (VStr paper_id) d = Some paper /\
                    truthy (default VNone (paper !! "embeddings_ready")) = true) /\
     (exists cwe rs,
        get_embeddings json_loads (VStr paper_id) d = inr cwe /\ cwe <> [] /\
        search embed_text dot_value query cwe top_k = inr rs /\
        Forall2 (fun r o => exists v, o = <["normalized_score" := v]> r) rs out) /\
     (0 <= top_k -> Z.of_nat (length out) <= top_k) /\
     Forall (fun o => o !! "vector" = None /\
                      (exists q, o !! "score" = Some (VFloat q)) /\
                      exists v, o !! "normalized_score" = Some v) out) /\
  (forall e,
     route paper_id query top_k d = Failed e ->
     get_embeddings json_loads (VStr paper_id) d = inl e \/
     exists cwe, get_embeddings json_loads (VStr paper_id) d = inr cwe /\
                 search embed_text dot_value query cwe top_k = inl e).
Proof.
  unfold semantic_search.
  destruct (get_paper (VStr paper_id) d) as [paper|] eqn:Ep; cycle 1.
  { split; [reflexivity|]. split; [discriminate|]. split; discriminate. }
  split; [discriminate|].
  destruct (truthy (default VNone (paper !! "embeddings_ready"))) eqn:Et;
    simpl negb; cbv iota; cycle 1.
  { split; [intros p Hp _; reflexivity|]. split; discriminate. }
  split; [intros p Hp Hf; inversion Hp; subst p; congruence|].
  destruct (get_embeddings json_loads (VStr paper_id) d) as [e|cwe] eqn:Eg.
  { split; [discriminate|]. intros e' H. left. congruence. }
  destruct cwe as [|c cwe]; [split; discriminate|].
  destruct (search embed_text dot_value query (c :: cwe) top_k) as [e|rs] eqn:Es.
  { split; [discriminate|]. intros e' H. right. exists (c :: cwe).
    split; [reflexivity|]. congruence. }
  destruct (normalize_after_search _ _ _ _ _ _ Es) as (out' & Hn & Hall).
  rewrite Hn. split; [|discriminate].
  intros out H. inversion H; subst out'. clear H.
  destruct (search_results _ _ _ _ _ _ Es) as (ranked & Hrs & Hlen & _ & Hf).
  split; [eauto|]. split; [exists (c :: cwe), rs; repeat split; auto; discriminate|].
  split.
  - intros Hk. rewrite <- (Forall2_length _ _ _ Hall), Hrs.
    unfold slice_to. destruct (Z.leb_spec 0 top_k); [|lia].
    rewrite length_take. lia.
  - rewrite List.Forall_forall. intros o Ho.
    destruct (Forall2_In_r _ _ _ _ Hall Ho) as (r & Hr & n & ->).
    assert (Hr' : In r ranked).
    { rewrite Hrs in Hr. destruct (slice_to_take top_k ranked) as [k Hk].
      rewrite Hk in Hr. eapply In_take, Hr. }
    rewrite List.Forall_forall in Hf. destruct (Hf r Hr') as (Hv & q & Hq).
    rewrite !lookup_insert_ne by discriminate. rewrite lookup_insert_eq.
    split; [exact Hv|]. split; [eauto|]. eauto.
Qed.
End RouteProperties.

(** ** Annotations *)

Lemma find_map_same {A : Type} (f : A -> bool) (F : A -> A) (l : list A) :
  (forall x, f (F x) = f x) -> List.find f (map F l) = option_map F (List.find f l).
Proof.
  intros H. induction l as [|x l IH]; simpl; [reflexivity|].
  rewrite H. destruct (f x); auto.
Qed.

Lemma col_insert_ne (r : pydict) (k k' : string) (v : value) :
  k <> k' -> col (<[k := v]> r) k' = col r k'.
Proof. intros H. unfold col. rewrite lookup_insert_ne by exact H. reflexivity. Qed.

Section AnnotationProperties.
Variable json_dumps : value -> string.
Variable json_loads : string -> exn + value.
Variable json_loads_bytes : list Byte.byte -> exn + value.

Local Notation get := (get_annotation json_loads json_loads_bytes).
Local Notation save := (save_annotation json_dumps json_loads json_loads_bytes).

Lemma get_annotation_none (aid : string) (t : list pydict) :
  get (VStr aid) t = inr None <->
  List.find (fun r => sql_eqb (col r "id") (VStr aid)) t = None.
Proof.
  unfold get_annotation. simpl bind_param. cbv iota.
  destruct (List.find _ t) as [r|]; [|tauto].
  split; [|discriminate].
  destruct (col r "geometry"); try discriminate;
    match goal with |- context [match ?x with inl _ => _ | inr _ => _ end] =>
      destruct x end; discriminate.
Qed.

Lemma get_annotation_some (aid : string) (t : list pydict) x :
  get (VStr aid) t = inr (Some x) ->
  exists r, List.find (fun r => sql_eqb (col r "id") (VStr aid)) t = Some r.
Proof.
  unfold get_annotation. simpl bind_param. cbv iota.
  destruct (List.find _ t) as [r|]; [eauto|discriminate].
Qed.

(** The columns an update of an existing annotation writes. *)
Lemma save_update_sets (annotation : pydict) now page ty geometry sets' :
  bind_params
    [("page", page); ("type", ty); ("geometry", VStr (json_dumps geometry));
     ("color", default VNone (annotation !! "color"));
     ("opacity", default (VFloat 1) (annotation !! "opacity"));
     ("text_content", default VNone (annotation !! "text_content"));
     ("updated_at", VStr now)] = inr sets' ->
  forall r : pydict,
    same_on ["id"; "paper_id"; "created_at"] r (assign r sets') /\
    col (assign r sets') "updated_at" = VStr now /\
    col (assign r sets') "geometry" = VStr (json_dumps geometry) /\
    bind_param page = inr (col (assign r sets') "page") /\
    bind_param ty = inr (col (assign r sets') "type").
Proof.
  intros Eb r.
  apply bind_params_cons in Eb as (page' & r1 & -> & B1 & Eb).
  apply bind_params_cons in Eb as (ty' & r2 & -> & B2 & Eb).
  apply bind_params_cons in Eb as (geo' & r3 & -> & B3 & Eb).
  apply bind_params_cons in Eb as (color' & r4 & -> & B4 & Eb).
  apply bind_params_cons in Eb as (op' & r5 & -> & B5 & Eb).
  apply bind_params_cons in Eb as (tc' & r6 & -> & B6 & Eb).
  apply bind_params_cons in Eb as (now' & r7 & -> & B7 & Eb).
  simpl in Eb. inversion Eb; subst r7. clear Eb.
  simpl in B3, B7. inversion B3; subst geo'. inversion B7; subst now'.
  split; [|split; [|split; [|split]]].
  - intros c Hc. apply assign_lookup_other. simpl.
    set_unfold. intuition (subst; discriminate).
  - unfold col, assign. simpl. by simplify_map_eq.
  - unfold col, assign. simpl. by simplify_map_eq.
  - rewrite B1. f_equal. unfold col, assign. simpl. by simplify_map_eq.
  - rewrite B2. f_equal. unfold col, assign. simpl. by simplify_map_eq.
Qed.

(** X16.  [save_annotation] with a text id either inserts or updates.  When
    no row has the id, one row is appended, with the clock reading as both
    [created_at] and [updated_at].  When a row has the id, no row is added or
    removed; every row with that id keeps its [id], [paper_id] and
    [created_at] (the [paper_id] of the call is ignored) and gets the clock
    reading as [updated_at]; every other row is left as it was. *)
Theorem save_annotation_upserts now (annotation : pydict) (t t' : list pydict)
    (aid : string) :
  save now annotation t = inr t' ->
  annotation !! "id" = Some (VStr aid) ->
  (get (VStr aid) t = inr None /\
   exists row, t' = (t ++ [row])%list /\ col row "id" = VStr aid /\
               col row "created_at" = VStr now /\ col row "updated_at" = VStr now /\
               bind_param (default VNone (annotation !! "paper_id"))
               = inr (col row "paper_id")) \/
  ((exists x, get (VStr aid) t = inr (Some x)) /\
   Forall2 (fun r r' =>
              if sql_eqb (col r "id") (VStr aid)
              then same_on ["id"; "paper_id"; "created_at"] r r' /\
                   col r' "updated_at" = VStr now
              else r' = r) t t').
Proof.
  intros H Hid. unfold save_annotation, lookup_key in H. rewrite Hid in H.
  destruct (get (VStr aid) t) as [e|[x|]] eqn:Eg; [discriminate| |].
  - right. split; [eauto|].
    destruct (annotation !! "page") as [page|]; [|discriminate].
    destruct (annotation !! "type") as [ty|]; [|discriminate].
    destruct (annotation !! "geometry") as [geometry|]; [|discriminate].
    unfold sql_update in H.
    destruct (bind_params _) as [|sets'] eqn:Eb; [discriminate|].
    simpl bind_param in H. cbv iota in H.
    destruct (_ && _); [discriminate|]. inversion H; subst t'. clear H.
    apply Forall2_map_same. intros r.
    destruct (sql_eqb (col r "id") (VStr aid)); [|reflexivity].
    destruct (save_update_sets _ _ _ _ _ _ Eb r) as (A & B & _). auto.
  - left. split; [reflexivity|].
    destruct (annotation !! "paper_id") as [pid|]; [|discriminate].
    destruct (annotation !! "page") as [page|]; [|discriminate].
    destruct (annotation !! "type") as [ty|]; [|discriminate].
    destruct (annotation !! "geometry") as [geometry|]; [|discriminate].
    destruct (bind_params _) as [|values] eqn:Eb; [discriminate|].
    apply bind_params_cons in Eb as (aid' & r1 & -> & B1 & Eb).
    apply bind_params_cons in Eb as (pid' & r2 & -> & B2 & Eb).
    apply bind_params_cons in Eb as (page' & r3 & -> & B3 & Eb).
    apply bind_params_cons in Eb as (ty' & r4 & -> & B4 & Eb).
    apply bind_params_cons in Eb as (geo' & r5 & -> & B5 & Eb).
    apply bind_params_cons in Eb as (color' & r6 & -> & B6 & Eb).
    apply bind_params_cons in Eb as (op' & r7 & -> & B7 & Eb).
    apply bind_params_cons in Eb as (tc' & r8 & -> & B8 & Eb).
    apply bind_params_cons in Eb as (cr' & r9 & -> & B9 & Eb).
    apply bind_params_cons in Eb as (up' & r10 & -> & B10 & Eb).
    simpl in Eb. inversion Eb; subst r10. clear Eb.
    simpl in B1, B5, B9, B10.
    inversion B1; subst aid'. inversion B5; subst geo'.
    inversion B9; subst cr'. inversion B10; subst up'.
    destruct (violates_not_null _ _); [discriminate|].
    destruct (has_id t "id" _); [discriminate|].
    inversion H; subst t'. clear H.
    eexists. split; [reflexivity|].
    unfold col. simpl. repeat split; try (by simplify_map_eq).
Qed.

(** X17.  After a successful [save_annotation] with a text id, whether it
    inserted or updated, [get_annotation] finds a row with that id whose
    [updated_at] is the clock reading and whose ["geometry"] is the saved
    geometry itself, provided [json.loads] inverts [json.dumps] on it. *)
Theorem save_then_get_annotation now (annotation : pydict) (t t' : list pydict)
    (aid : string) (geometry : value) :
  json_loads (json_dumps geometry) = inr geometry ->
  annotation !! "id" = Some (VStr aid) ->
  annotation !! "geometry" = Some geometry ->
  save now annotation t = inr t' ->
  exists row,
    get (VStr aid) t' = inr (Some row) /\
    row !! "geometry" = Some geometry /\
    col row "id" = VStr aid /\ col row "updated_at" = VStr now /\
    bind_param (default VNone (annotation !! "page")) = inr (col row "page") /\
    bind_param (default VNone (annotation !! "type")) = inr (col row "type").
Proof.
  intros Hjson Hid Hgeo H. unfold save_annotation, lookup_key in H.
  rewrite Hid, Hgeo in H.
  destruct (get (VStr aid) t) as [e|[x|]] eqn:Eg; [discriminate| |].
  - destruct (get_annotation_some _ _ _ Eg) as [r0 Hfind].
    destruct (annotation !! "page") as [page|]; [|discriminate].
    destruct (annotation !! "type") as [ty|]; [|discriminate].
    unfold sql_update in H.
    destruct (bind_params _) as [|sets'] eqn:Eb; [discriminate|].
    simpl bind_param in H. cbv iota in H.
    destruct (_ && _); [discriminate|]. inversion H; subst t'. clear H.
    pose proof (save_update_sets _ _ _ _ _ _ Eb) as Hsets.
    assert (Hidk : forall r : pydict, col (assign r sets') "id" = col r "id").
    { intros r. unfold col. rewrite (proj1 (Hsets r)) by (apply list_elem_of_In; left; reflexivity). reflexivity. }
    unfold get_annotation. simpl bind_param. cbv iota.
    rewrite find_map_same.
    2:{ intros r. destruct (sql_eqb (col r "id") (VStr aid)) eqn:E.
        - rewrite Hidk. exact E.
        - exact E. }
    rewrite Hfind. simpl option_map.
    apply find_some in Hfind as [_ Hr0].
    assert (Hid0 : col (assign r0 sets') "id" = VStr aid).
    { rewrite Hidk. rewrite sql_eqb_eq_str in Hr0. apply eq_str_true in Hr0. exact Hr0. }
    rewrite Hr0.
    destruct (Hsets r0) as (_ & Hup & Hg & Hpage & Hty).
    rewrite Hg, Hjson.
    eexists. split; [reflexivity|].
    rewrite lookup_insert_eq. split; [reflexivity|].
    rewrite !col_insert_ne by discriminate.
    repeat split; auto.
  - apply get_annotation_none in Eg.
    destruct (annotation !! "paper_id") as [pid|]; [|discriminate].
    destruct (annotation !! "page") as [page|]; [|discriminate].
    destruct (annotation !! "type") as [ty|]; [|discriminate].
    destruct (bind_params _) as [|values] eqn:Eb; [discriminate|].
    apply bind_params_cons in Eb as (aid' & r1 & -> & B1 & Eb).
    apply bind_params_cons in Eb as (pid' & r2 & -> & B2 & Eb).
    apply bind_params_cons in Eb as (page' & r3 & -> & B3 & Eb).
    apply bind_params_cons in Eb as (ty' & r4 & -> & B4 & Eb).
    apply bind_params_cons in Eb as (geo' & r5 & -> & B5 & Eb).
    apply bind_params_cons in Eb as (color' & r6 & -> & B6 & Eb).
    apply bind_params_cons in Eb as (op' & r7 & -> & B7 & Eb).
    apply bind_params_cons in Eb as (tc' & r8 & -> & B8 & Eb).
    apply bind_params_cons in Eb as (cr' & r9 & -> & B9 & Eb).
    apply bind_params_cons in Eb as (up' & r10 & -> & B10 & Eb).
    simpl in Eb. inversion Eb; subst r10. clear Eb.
    simpl in B1, B5, B9, B10.
    inversion B1; subst aid'. inversion B5; subst geo'.
    inversion B9; subst cr'. inversion B10; subst up'.
    destruct (violates_not_null _ _); [discriminate|].
    destruct (has_id t "id" _); [discriminate|].
    inversion H; subst t'. clear H.
    unfold get_annotation. simpl bind_param. cbv iota.
    rewrite find_app, Eg.
    match goal with |- context [List.find ?f [?row]] =>
      assert (Hrow : col row "id" = VStr aid /\ col row "geometry" = VStr (json_dumps geometry)
                     /\ col row "updated_at" = VStr now /\ col row "page" = page'
                     /\ col row "type" = ty')
        by (unfold col; simpl; repeat split; by simplify_map_eq);
      set (new := row) in *
    end.
    destruct Hrow as (R1 & R2 & R3 & R4 & R5).
    simpl List.find. rewrite R1, sql_eqb_refl by discriminate.
    rewrite R2, Hjson. eexists. split; [reflexivity|].
    rewrite lookup_insert_eq. split; [reflexivity|].
    rewrite !col_insert_ne by discriminate.
    repeat split; auto; simpl; congruence.
Qed.
End AnnotationProperties.

(** ** What a batch never does *)

Lemma same_rows_refl (cols : list string) (l : list pydict) :
  Forall2 (same_outside cols) l l.
Proof. induction l; constructor; auto. intros c _. reflexivity. Qed.

Lemma same_papers_refl (d : database) : same_papers d d.
Proof. apply same_rows_refl. Qed.

Lemma same_papers_eq (d d' : database) : papers d' = papers d -> same_papers d d'.
Proof. unfold same_papers. intros ->. apply same_rows_refl. Qed.

Lemma same_papers_trans (d1 d2 d3 : database) :
  same_papers d1 d2 -> same_papers d2 d3 -> same_papers d1 d3.
Proof.
  unfold same_papers. apply Forall2_compose.
  intros a b c H1 H2 k Hk. rewrite H2, H1 by exact Hk. reflexivity.
Qed.

Lemma add_chunk_papers json_dumps c d d' :
  add_chunk json_dumps c d = inr d' -> papers d' = papers d.
Proof. unfold add_chunk. intros H. repeat case_match; simplify_eq; reflexivity. Qed.

Lemma add_chunks_papers json_dumps cs d : papers (snd (add_chunks json_dumps cs d)) = papers d.
Proof.
  revert d. induction cs as [|c cs IH]; intros d; simpl; [reflexivity|].
  destruct (add_chunk json_dumps c d) as [e|d'] eqn:E; simpl; [reflexivity|].
  rewrite IH. apply (add_chunk_papers _ _ _ _ E).
Qed.

Lemma add_embedding_papers cid v d d' : add_embedding cid v d = inr d' -> papers d' = papers d.
Proof.
  unfold add_embedding. destruct (bind_param cid); intros H; inversion H; reflexivity.
Qed.

Lemma embed_progress_range (a b : nat) :
  let p := ((1 # 10) + (8 # 10) * inject_Z (Z.of_nat a) / inject_Z (Z.of_nat b))%Q in
  let v := if Qlt_le_dec p (9 # 10) then p else (9 # 10)%Q in
  (0 <= v)%Q /\ (v <= 1)%Q.
Proof.
  intros p v. unfold v. destruct (Qlt_le_dec p (9 # 10)) as [Hlt|Hle].
  - split.
    + apply Qle_trans with (1 # 10)%Q; [discriminate|].
      unfold p. rewrite <- (Qplus_0_r (1 # 10)) at 1.
      apply Qplus_le_r. unfold Qdiv.
      apply Qmult_le_0_compat; [apply Qmult_le_0_compat; [discriminate|]|apply Qinv_le_0_compat].
      * unfold Qle. simpl. lia.
      * unfold Qle. simpl. lia.
    + apply Qlt_le_weak. apply Qlt_le_trans with (9 # 10)%Q; [exact Hlt|discriminate].
  - split; discriminate.
Qed.

Section Invariant.
Variable json_dumps : value -> string.
Variable json_loads : string -> exn + value.
Variable utcnow : nat -> string.
Variable pdf_exists : string -> bool.
Variable path_str : string -> string.
Variable extract_text_from_pdf : string -> exn + (list pydict * bool).
Variable extract_doi_from_pdf : string -> exn + option string.
Variable embed_texts : list value -> exn + list (list Z).
Variable repr_other : value -> string.

(** A relation between the processor before and after that every step of
    a batch respects. *)
Variable R : processor -> processor -> Prop.
Hypothesis R_refl : forall s, R s s.
Hypothesis R_trans : forall a b c, R a b -> R b c -> R a c.
Hypothesis R_clock : forall s, R s (with_clock s (S (clock s))).
Hypothesis R_notify : forall j st p msg s,
  (0 <= p)%Q -> (p <= 1)%Q -> R s (snd (_notify_progress j st p msg s)).
Hypothesis R_db : forall s d', same_papers (db s) d' -> R s (with_db s d').
Hypothesis R_current_job : forall s j, R s (with_current_job s j).
Hypothesis R_running : forall s b, R s (with_running s b).

Lemma preserves_ret {A : Type} (a : A) : preserves R (ret a).
Proof. intros s. apply R_refl. Qed.

Lemma preserves_raise {A : Type} (e : exn) : preserves R (@raise A e).
Proof. intros s. apply R_refl. Qed.

Lemma preserves_lift {A : Type} (r : exn + A) : preserves R (lift r).
Proof. intros s. apply R_refl. Qed.

Lemma preserves_query {A : Type} (f : database -> A) : preserves R (query f).
Proof. intros s. apply R_refl. Qed.

Lemma preserves_bind {A B : Type} (m : M A) (k : A -> M B) :
  preserves R m -> (forall a, preserves R (k a)) -> preserves R (bind m k).
Proof.
  intros Hm Hk s. unfold bind. specialize (Hm s).
  destruct (m s) as [[e|a] s1]; simpl in *; [exact Hm|].
  eapply R_trans; [exact Hm|apply Hk].
Qed.

Lemma preserves_for_each {A : Type} (f : A -> M unit) (l : list A) :
  (forall a, preserves R (f a)) -> preserves R (for_each f l).
Proof.
  intros Hf. induction l as [|x l IH]; simpl.
  - apply preserves_ret.
  - apply preserves_bind; auto.
Qed.

Lemma preserves_utcnow : preserves R (utcnow_isoformat utcnow).
Proof. intros s. apply R_clock. Qed.

Lemma preserves_notify j st p msg :
  (0 <= p)%Q -> (p <= 1)%Q -> preserves R (_notify_progress j st p msg).
Proof. intros H0 H1 s. apply R_notify; assumption. Qed.

Lemma preserves_exec (f : database -> exn + database) :
  (forall d d', f d = inr d' -> same_papers d d') -> preserves R (exec f).
Proof.
  intros Hf s. unfold exec. destruct (f (db s)) as [e|d'] eqn:E; simpl.
  - apply R_refl.
  - apply R_db, (Hf _ _ E).
Qed.

Lemma preserves_update_paper key updates :
  preserves R (exec (update_paper json_dumps key updates)).
Proof. apply preserves_exec. intros d d' H. apply (update_paper_frame _ _ _ _ _ H). Qed.

Lemma preserves_update_job key updates : preserves R (exec (update_job key updates)).
Proof.
  apply preserves_exec. intros d d' H. apply same_papers_eq.
  apply (update_job_frame _ _ _ _ H).
Qed.

Ltac fraction := first [discriminate | apply Qle_refl].

Lemma preserves_extract_text paper path :
  preserves R (_extract_text json_dumps utcnow extract_text_from_pdf paper path).
Proof.
  unfold _extract_text.
  apply preserves_bind; [apply preserves_lift|intros paper_id].
  apply preserves_bind; [apply preserves_notify; fraction|intros _].
  apply preserves_bind; [apply preserves_lift|intros extracted].
  destruct (negb (snd extracted)); [apply preserves_update_paper|].
  apply preserves_bind; [apply preserves_notify; fraction|intros _].
  apply preserves_bind.
  { apply preserves_exec. intros d d' H. inversion H. apply same_papers_eq. reflexivity. }
  intros _. apply preserves_bind.
  { intros s.
    pose proof (add_chunks_papers json_dumps
      (map (fun chunk => <["paper_id" := paper_id]> chunk) (fst extracted)) (db s)) as H.
    destruct (add_chunks json_dumps _ (db s)) as [[e|] d]; simpl in *;
      apply R_db, same_papers_eq, H. }
  intros _. apply preserves_bind; [apply preserves_utcnow|intros now].
  apply preserves_bind; [apply preserves_update_paper|intros _].
  apply preserves_notify; fraction.
Qed.

Lemma preserves_extract_doi paper path :
  preserves R (_extract_doi json_dumps extract_doi_from_pdf paper path).
Proof.
  unfold _extract_doi.
  apply preserves_bind; [apply preserves_lift|intros paper_id].
  apply preserves_bind; [apply preserves_notify; fraction|intros _].
  apply preserves_bind; [apply preserves_lift|intros doi].
  destruct doi as [[|c rest]|]; try (apply preserves_notify; fraction).
  apply preserves_bind; [apply preserves_update_paper|intros _].
  apply preserves_notify; fraction.
Qed.

Lemma preserves_embed_batch cs texts total i :
  preserves R (embed_batch embed_texts cs texts total i).
Proof.
  unfold embed_batch.
  apply preserves_bind; [apply preserves_lift|intros embs].
  apply preserves_bind.
  - apply preserves_for_each. intros ce. unfold store_embedding.
    apply preserves_exec. intros d d' H. apply same_papers_eq.
    apply (add_embedding_papers _ _ _ _ H).
  - intros _. apply preserves_notify; apply embed_progress_range.
Qed.

Lemma preserves_compute_embeddings paper :
  preserves R (_compute_embeddings json_dumps json_loads embed_texts repr_other paper).
Proof.
  unfold _compute_embeddings.
  apply preserves_bind; [apply preserves_lift|intros paper_id].
  apply preserves_bind; [intros s; apply R_refl|intros chunks].
  destruct chunks as [|c cs]; [apply preserves_raise|].
  apply preserves_bind; [apply preserves_notify; fraction|intros _].
  apply preserves_bind; [apply preserves_for_each; intros i; apply preserves_embed_batch|].
  intros _. apply preserves_bind; [apply preserves_update_paper|intros _].
  apply preserves_notify; fraction.
Qed.

Lemma preserves_process_job job :
  preserves R (_process_job json_dumps json_loads utcnow pdf_exists path_str
                 extract_text_from_pdf extract_doi_from_pdf embed_texts repr_other job).
Proof.
  unfold _process_job.
  apply preserves_bind; [apply preserves_lift|intros job_id].
  apply preserves_bind; [apply preserves_lift|intros job_type].
  apply preserves_bind; [apply preserves_lift|intros paper_id].
  apply preserves_bind; [apply preserves_utcnow|intros now].
  apply preserves_bind; [apply preserves_update_job|intros _].
  apply preserves_bind; [apply preserves_notify; fraction|intros _].
  apply preserves_bind; [apply preserves_query|intros paper].
  destruct paper as [paper|]; [|apply preserves_raise].
  destruct (col paper "local_pdf_path"); try apply preserves_raise.
  destruct (negb (pdf_exists s)); [apply preserves_raise|].
  apply preserves_bind.
  - repeat case_match; auto using preserves_raise, preserves_extract_text,
      preserves_extract_doi, preserves_compute_embeddings.
  - intros _. apply preserves_bind; [apply preserves_utcnow|intros now'].
    apply preserves_bind; [apply preserves_update_job|intros _].
    apply preserves_notify; fraction.
Qed.

Lemma preserves_process_next job t :
  preserves R (process_next json_dumps json_loads utcnow pdf_exists path_str
                 extract_text_from_pdf extract_doi_from_pdf embed_texts repr_other job t).
Proof.
  intros s. unfold process_next.
  pose proof (preserves_process_job job (with_current_job s (Some job))) as H1.
  destruct (_process_job _ _ _ _ _ _ _ _ _ job (with_current_job s (Some job)))
    as [[e|u] s1]; simpl in H1.
  - assert (Hm : preserves R
        (let! job_id := lift (lookup_key job "id") in
         let! now := utcnow_isoformat utcnow in
         let! _ := exec (update_job job_id (mark_failed (exn_str e) now)) in
         ret job_id)).
    { apply preserves_bind; [apply preserves_lift|intros job_id].
      apply preserves_bind; [apply preserves_utcnow|intros now].
      apply preserves_bind; [apply preserves_update_job|intros _].
      apply preserves_ret. }
    specialize (Hm s1).
    destruct ((let! job_id := lift (lookup_key job "id") in
               let! now := utcnow_isoformat utcnow in
               let! _ := exec (update_job job_id (mark_failed (exn_str e) now)) in
               ret job_id) s1)
      as [[e'|u] s2]; simpl in *.
    + eapply R_trans; [apply R_current_job|]. eapply R_trans; eauto.
    + eapply R_trans; [apply R_current_job|]. eapply R_trans; [exact H1|].
      eapply R_trans; [exact Hm|]. apply R_current_job.
  - simpl. eapply R_trans; [apply R_current_job|]. eapply R_trans; [exact H1|].
    apply R_current_job.
Qed.

Lemma loop_preserves (fuel : nat) : forall t s r s',
  batch_loop json_dumps json_loads utcnow pdf_exists path_str
    extract_text_from_pdf extract_doi_from_pdf embed_texts repr_other fuel t s = Some (r, s') ->
  R s s'.
Proof.
  induction fuel as [|fuel IH]; intros t s r s' H; [discriminate|].
  cbn [batch_loop] in H. destruct (get_pending_jobs (db s)) as [|job rest].
  - inversion H; subst. apply R_refl.
  - pose proof (preserves_process_next (dict_row job_columns job) t s) as Hn.
    destruct (process_next _ _ _ _ _ _ _ _ _ (dict_row job_columns job) t s)
      as [[e|t'] s1]; simpl in Hn.
    + inversion H; subst. exact Hn.
    + eapply R_trans; [exact Hn|]. eapply IH. exact H.
Qed.

Lemma batch_preserves (fuel : nat) (s : processor) r s' :
  run_batch json_dumps json_loads utcnow pdf_exists path_str
    extract_text_from_pdf extract_doi_from_pdf embed_texts repr_other fuel s = Some (r, s') ->
  R s s'.
Proof.
  unfold run_batch. destruct (_running s).
  - intros H. inversion H; subst. apply R_refl.
  - destruct (batch_loop _ _ _ _ _ _ _ _ _ fuel _ _) as [[[e|t] s1]|] eqn:El;
      [| |discriminate]; intros H; inversion H; subst;
      (eapply R_trans; [apply R_running|]);
      (eapply R_trans; [eapply loop_preserves; exact El|]); apply R_running.
Qed.
End Invariant.

Lemma reported_refl (s : processor) : reported s s.
Proof.
  exists []. rewrite app_nil_r. repeat split; auto.
Qed.

Lemma reported_trans (a b c : processor) : reported a b -> reported b c -> reported a c.
Proof.
  intros (e1 & H1 & F1 & N1 & C1 & K1) (e2 & H2 & F2 & N2 & C2 & K2).
  exists (e1 ++ e2)%list. rewrite H2, H1, app_assoc.
  split; [reflexivity|]. split; [apply Forall_app; auto|].
  split; [|split; [congruence|lia]].
  intros Hc. rewrite N1 by exact Hc. rewrite N2 by congruence. reflexivity.
Qed.

Lemma reported_same (s s' : processor) :
  delivered s' = delivered s -> _progress_callback s' = _progress_callback s ->
  (clock s <= clock s')%nat -> reported s s'.
Proof.
  intros H1 H2 H3. exists []. rewrite app_nil_r. repeat split; auto.
Qed.

Section BatchInvariants.
Variable json_dumps : value -> string.
Variable json_loads : string -> exn + value.
Variable utcnow : nat -> string.
Variable pdf_exists : string -> bool.
Variable path_str : string -> string.
Variable extract_text_from_pdf : string -> exn + (list pydict * bool).
Variable extract_doi_from_pdf : string -> exn + option string.
Variable embed_texts : list value -> exn + list (list Z).
Variable repr_other : value -> string.

Local Notation batch :=
  (run_batch json_dumps json_loads utcnow pdf_exists path_str
     extract_text_from_pdf extract_doi_from_pdf embed_texts repr_other).

(** X18.  Whatever [run_batch] does, busy or not, failing jobs or not: the
    events the observer has received are still there, in order, with the new
    ones after them; every new event carries a progress between 0 and 1;
    with no observer registered nothing is delivered; the registration is
    as it was; and the clock has not run backwards. *)
Theorem run_batch_reports (fuel : nat) (s : processor) r s' :
  batch fuel s = Some (r, s') -> reported s s'.
Proof.
  apply batch_preserves.
  - apply reported_refl.
  - apply reported_trans.
  - intros s0. apply reported_same; simpl; auto.
  - intros j st p msg s0 H0 H1. unfold _notify_progress.
    destruct (_progress_callback s0) as [call|] eqn:E; [|apply reported_refl].
    assert (Hev : reported s0
              (with_delivered s0 (delivered s0 ++ [ProgressEvent j st p msg]))).
    { exists [ProgressEvent j st p msg]. repeat split; auto; try congruence.
      constructor; [|constructor]. split; assumption. }
    destruct (call _ _); exact Hev.
  - intros s0 d' _. apply reported_same; simpl; auto.
  - intros s0 j. apply reported_same; simpl; auto.
  - intros s0 b. apply reported_same; simpl; auto.
Qed.

(** X19.  A batch never adds, removes or reorders rows of [papers], and never
    changes a column outside the allowed list of [update_paper]: after
    [run_batch], whatever the jobs were and however they ended, the table has
    the same rows in the same places with the same [id], [local_pdf_path],
    [added_at] and [source_url]. *)
Theorem run_batch_keeps_papers (fuel : nat) (s : processor) r s' :
  batch fuel s = Some (r, s') ->
  same_papers (db s) (db s') /\
  length (papers (db s')) = length (papers (db s)) /\
  Forall2 (same_on ["id"; "local_pdf_path"; "added_at"; "source_url"])
    (papers (db s)) (papers (db s')).
Proof.
  intros H.
  assert (Hs : same_papers (db s) (db s')).
  { revert H. apply (batch_preserves json_dumps json_loads utcnow pdf_exists path_str
      extract_text_from_pdf extract_doi_from_pdf embed_texts repr_other
      (fun a b => same_papers (db a) (db b))).
    - intros s0. apply same_papers_refl.
    - intros a b c. apply same_papers_trans.
    - intros s0. apply same_papers_refl.
    - intros j st p msg s0 _ _. unfold _notify_progress.
      destruct (_progress_callback s0) as [call|]; [destruct (call _ _)|];
        apply same_papers_refl.
    - intros s0 d' Hd. exact Hd.
    - intros s0 j. apply same_papers_refl.
    - intros s0 b. apply same_papers_refl. }
  split; [exact Hs|]. split.
  - symmetry. eapply Forall2_length, Hs.
  - eapply Forall2_weaken; [|exact Hs].
    intros a b. apply same_outside_same_on.
    intros c Hc. unfold paper_allowed_fields. set_unfold. intuition (subst; discriminate).
Qed.
End BatchInvariants.

(** ** Enqueuing the standard jobs of a paper *)

Section EnqueueProperties.
Variable json_dumps : value -> string.

Lemma add_standard_job (jid pid ty now : string) (prio : Z) (d : database) :
  (- 2 ^ 63 <=? prio) && (prio <? 2 ^ 63) = true ->
  has_id (jobs d) "id" (VStr jid) = false ->
  add_job json_dumps now
    (list_to_map [("id", VStr jid); ("paper_id", VStr pid); ("type", VStr ty);
                  ("priority", VInt prio)]) d
  = inr (with_jobs d (jobs d ++ [
      list_to_map [("id", VStr jid); ("paper_id", VStr pid); ("type", VStr ty);
                   ("status", VStr "pending"); ("priority", VInt prio);
                   ("error", VNone); ("created_at", VStr now);
                   ("started_at", VNone); ("finished_at", VNone);
                   ("metadata", VStr (json_dumps (VDict [])))]])).
Proof.
  intros Hprio Hfresh. unfold add_job, lookup_key.
  replace (list_to_map [("id", VStr jid); ("paper_id", VStr pid); ("type", VStr ty);
                        ("priority", VInt prio)] !! "id") with (Some (VStr jid))
    by (simpl; by simplify_map_eq).
  replace (list_to_map [("id", VStr jid); ("paper_id", VStr pid); ("type", VStr ty);
                        ("priority", VInt prio)] !! "paper_id") with (Some (VStr pid))
    by (simpl; by simplify_map_eq).
  replace (list_to_map [("id", VStr jid); ("paper_id", VStr pid); ("type", VStr ty);
                        ("priority", VInt prio)] !! "type") with (Some (VStr ty))
    by (simpl; by simplify_map_eq).
  replace (list_to_map [("id", VStr jid); ("paper_id", VStr pid); ("type", VStr ty);
                        ("priority", VInt prio)] !! "priority") with (Some (VInt prio))
    by (simpl; by simplify_map_eq).
  replace (list_to_map [("id", VStr jid); ("paper_id", VStr pid); ("type", VStr ty);
                        ("priority", VInt prio)] !! "metadata") with (@None value)
    by (simpl; by simplify_map_eq).
  cbn [default]. unfold id. cbn [bind_param]. rewrite Hprio, Hfresh. reflexivity.
Qed.

Lemma has_id_snoc (t : list pydict) (r : pydict) (i j : string) :
  has_id t "id" (VStr j) = false -> col r "id" = VStr i -> i <> j ->
  has_id (t ++ [r]) "id" (VStr j) = false.
Proof.
  intros Ht Hr Hne. unfold has_id in *. rewrite existsb_app, Ht. simpl.
  rewrite Hr. destruct (sql_eqb (VStr i) (VStr j)) eqn:E; [|reflexivity].
  apply sql_eqb_text in E. contradiction.
Qed.

(** X20.  [enqueue_paper_jobs] with three distinct fresh ids adds three
    pending rows to [jobs], one each for EXTRACT_TEXT (priority 10),
    EXTRACT_DOI (5) and EMBED (1), touches nothing else, and returns the three
    jobs.  Whatever the clock read at each insertion, [get_pending_jobs]
    then lists the three in that order relative to one another: extraction
    before the DOI lookup before the embedding. *)
Theorem enqueue_paper_jobs_order (id1 id2 id3 now1 now2 now3 pid : string) (d : database) :
  id1 <> id2 -> id1 <> id3 -> id2 <> id3 ->
  has_id (jobs d) "id" (VStr id1) = false ->
  has_id (jobs d) "id" (VStr id2) = false ->
  has_id (jobs d) "id" (VStr id3) = false ->
  exists r1 r2 r3 d',
    enqueue_paper_jobs json_dumps id1 id2 id3 now1 now2 now3 (VStr pid) d
    = (inr (standard_jobs id1 id2 id3 (VStr pid)), d') /\
    jobs d' = (jobs d ++ [r1; r2; r3])%list /\
    papers d' = papers d /\ chunks d' = chunks d /\ embeddings d' = embeddings d /\
    map (fun r => (col r "id", col r "type", col r "priority", col r "status",
                   col r "paper_id", col r "created_at")) [r1; r2; r3]
    = [(VStr id1, VStr "EXTRACT_TEXT", VInt 10, VStr "pending", VStr pid, VStr now1);
       (VStr id2, VStr "EXTRACT_DOI", VInt 5, VStr "pending", VStr pid, VStr now2);
       (VStr id3, VStr "EMBED", VInt 1, VStr "pending", VStr pid, VStr now3)] /\
    List.filter (fun r => existsb (eq_str (col r "id")) [id1; id2; id3]) (get_pending_jobs d')
    = [r1; r2; r3].
Proof.
  intros N12 N13 N23 F1 F2 F3.
  set (r1 := list_to_map [("id", VStr id1); ("paper_id", VStr pid); ("type", VStr "EXTRACT_TEXT");
                   ("status", VStr "pending"); ("priority", VInt 10);
                   ("error", VNone); ("created_at", VStr now1);
                   ("started_at", VNone); ("finished_at", VNone);
                   ("metadata", VStr (json_dumps (VDict [])))] : pydict).
  set (r2 := list_to_map [("id", VStr id2); ("paper_id", VStr pid); ("type", VStr "EXTRACT_DOI");
                   ("status", VStr "pending"); ("priority", VInt 5);
                   ("error", VNone); ("created_at", VStr now2);
                   ("started_at", VNone); ("finished_at", VNone);
                   ("metadata", VStr (json_dumps (VDict [])))] : pydict).
  set (r3 := list_to_map [("id", VStr id3); ("paper_id", VStr pid); ("type", VStr "EMBED");
                   ("status", VStr "pending"); ("priority", VInt 1);
                   ("error", VNone); ("created_at", VStr now3);
                   ("started_at", VNone); ("finished_at", VNone);
                   ("metadata", VStr (json_dumps (VDict [])))] : pydict).
  assert (C1 : col r1 "id" = VStr id1 /\ col r1 "priority" = VInt 10 /\
               col r1 "status" = VStr "pending" /\ col r1 "type" = VStr "EXTRACT_TEXT" /\
               col r1 "paper_id" = VStr pid /\ col r1 "created_at" = VStr now1)
    by (unfold col, r1; simpl; repeat split; by simplify_map_eq).
  assert (C2 : col r2 "id" = VStr id2 /\ col r2 "priority" = VInt 5 /\
               col r2 "status" = VStr "pending" /\ col r2 "type" = VStr "EXTRACT_DOI" /\
               col r2 "paper_id" = VStr pid /\ col r2 "created_at" = VStr now2)
    by (unfold col, r2; simpl; repeat split; by simplify_map_eq).
  assert (C3 : col r3 "id" = VStr id3 /\ col r3 "priority" = VInt 1 /\
               col r3 "status" = VStr "pending" /\ col r3 "type" = VStr "EMBED" /\
               col r3 "paper_id" = VStr pid /\ col r3 "created_at" = VStr now3)
    by (unfold col, r3; simpl; repeat split; by simplify_map_eq).
  destruct C1 as (I1 & P1 & S1 & T1 & Q1 & A1).
  destruct C2 as (I2 & P2 & S2 & T2 & Q2 & A2).
  destruct C3 as (I3 & P3 & S3 & T3 & Q3 & A3).
  exists r1, r2, r3, (with_jobs d (jobs d ++ [r1; r2; r3])).
  split.
  { unfold enqueue_paper_jobs, standard_jobs. cbv zeta. cbn [combine add_jobs].
    rewrite (add_standard_job id1 pid "EXTRACT_TEXT" now1 10 d eq_refl F1). fold r1.
    cbn [combine add_jobs].
    rewrite (add_standard_job id2 pid "EXTRACT_DOI" now2 5 _ eq_refl).
    2:{ simpl. apply (has_id_snoc _ r1 id1); auto. }
    fold r2. cbn [combine add_jobs jobs with_jobs].
    rewrite (add_standard_job id3 pid "EMBED" now3 1 _ eq_refl).
    2:{ simpl. apply (has_id_snoc _ r2 id2); auto.
        apply (has_id_snoc _ r1 id1); auto. }
    fold r3. cbn [combine add_jobs jobs with_jobs].
    unfold with_jobs. simpl. rewrite <- !app_assoc. reflexivity. }
  split; [reflexivity|]. split; [reflexivity|]. split; [reflexivity|]. split; [reflexivity|].
  split.
  { simpl. rewrite I1, I2, I3, P1, P2, P3, S1, S2, S3, T1, T2, T3, Q1, Q2, Q3, A1, A2, A3.
    reflexivity. }
  set (P := fun r : pydict => existsb (eq_str (col r "id")) [id1; id2; id3]).
  assert (Hold : List.filter P (List.filter is_pending (jobs d)) = []).
  { assert (Hnil : forall l : list pydict,
              (forall r, In r l -> P r = false) -> List.filter P l = []).
    { induction l as [|x l IHl]; simpl; intros Hl; [reflexivity|].
      rewrite Hl by (left; reflexivity). apply IHl. intros r Hr. apply Hl. right. exact Hr. }
    apply Hnil. intros r Hr.
    apply filter_In in Hr as [Hr _]. unfold P. simpl.
    assert (Hno : forall j, has_id (jobs d) "id" (VStr j) = false -> eq_str (col r "id") j = false).
    { intros j Hj. rewrite <- sql_eqb_eq_str.
      destruct (sql_eqb (col r "id") (VStr j)) eqn:E; [|reflexivity].
      unfold has_id in Hj.
      assert (existsb (fun r => sql_eqb (col r "id") (VStr j)) (jobs d) = true) as Hex
        by (apply existsb_exists; eauto).
      congruence. }
    rewrite !Hno by assumption. reflexivity. }
  unfold get_pending_jobs. simpl jobs.
  rewrite (stable_sort_stable (leb_of job_cmp) P).
  - rewrite !List.filter_app, Hold. simpl.
    unfold is_pending. rewrite S1, S2, S3. simpl.
    unfold P. simpl. rewrite I1, I2, I3. simpl.
    rewrite !String.eqb_refl. simpl. rewrite !orb_true_r. reflexivity.
  - rewrite !List.filter_app, Hold. simpl.
    unfold is_pending. rewrite S1, S2, S3. simpl.
    unfold P. simpl. rewrite I1, I2, I3. simpl.
    rewrite !String.eqb_refl. simpl. rewrite !orb_true_r.
    assert (L12 : leb_of job_cmp r1 r2 = true).
    { unfold leb_of, job_cmp, cmp_lex, cmp_rev, cmp_on. rewrite P1, P2. reflexivity. }
    assert (L13 : leb_of job_cmp r1 r3 = true).
    { unfold leb_of, job_cmp, cmp_lex, cmp_rev, cmp_on. rewrite P1, P3. reflexivity. }
    assert (L23 : leb_of job_cmp r2 r3 = true).
    { unfold leb_of, job_cmp, cmp_lex, cmp_rev, cmp_on. rewrite P2, P3. reflexivity. }
    repeat constructor; assumption.
Qed.
End EnqueueProperties.

(** ** Running one job, and running a batch again *)

Section JobProperties.
Variable json_dumps : value -> string.
Variable json_loads : string -> exn + value.
Variable utcnow : nat -> string.
Variable pdf_exists : string -> bool.
Variable path_str : string -> string.
Variable extract_text_from_pdf : string -> exn + (list pydict * bool).
Variable extract_doi_from_pdf : string -> exn + option string.
Variable embed_texts : list value -> exn + list (list Z).
Variable repr_other : value -> string.

Local Notation process_job :=
  (_process_job json_dumps json_loads utcnow pdf_exists path_str
     extract_text_from_pdf extract_doi_from_pdf embed_texts repr_other).
Local Notation loop :=
  (batch_loop json_dumps json_loads utcnow pdf_exists path_str
     extract_text_from_pdf extract_doi_from_pdf embed_texts repr_other).
Local Notation batch :=
  (run_batch json_dumps json_loads utcnow pdf_exists path_str
     extract_text_from_pdf extract_doi_from_pdf embed_texts repr_other).

(** The database once [_process_job] has marked the job as running. *)
Local Notation started jid s :=
  (with_jobs (db s) (set_job (VStr jid) (mark_running (utcnow (clock s))) (jobs (db s)))).

Lemma notify_outcome j st p msg s :
  exists s',
    _notify_progress j st p msg s
    = (match raised s (ProgressEvent j st p msg) with Some e => inl e | None => inr tt end, s') /\
    db s' = db s /\ clock s' = clock s /\ _running s' = _running s /\
    _progress_callback s' = _progress_callback s.
Proof.
  unfold _notify_progress, raised.
  destruct (_progress_callback s) as [call|] eqn:E; [destruct (call _ _)|];
    eexists; (split; [reflexivity|]); simpl; auto.
Qed.

Lemma process_job_start (job : pydict) (jid : string) (ty pid : value) (s : processor) :
  job !! "id" = Some (VStr jid) -> job !! "type" = Some ty -> job !! "paper_id" = Some pid ->
  exists s1,
    db s1 = started jid s /\
    process_job job s
    = match raised s (ProgressEvent (VStr jid) "running" 0
                        ("Starting " ++ py_str repr_other ty)) with
      | Some e => (inl e, s1)
      | None =>
      match get_paper pid (db s) with
      | None => (inl (ValueError ("Paper " ++ py_str repr_other pid ++ " not found")), s1)
      | Some paper =>
          match col paper "local_pdf_path" with
          | VStr pdf_path =>
              if negb (pdf_exists pdf_path)
              then (inl (FileNotFoundError ("PDF not found: " ++ path_str pdf_path)), s1)
              else
                bind
                  (if eq_str ty "EXTRACT_TEXT"
                   then _extract_text json_dumps utcnow extract_text_from_pdf paper pdf_path
                   else if eq_str ty "EXTRACT_DOI"
                   then _extract_doi json_dumps extract_doi_from_pdf paper pdf_path
                   else if eq_str ty "EMBED"
                   then _compute_embeddings json_dumps json_loads embed_texts repr_other paper
                   else raise (ValueError ("Unknown job type: " ++ py_str repr_other ty)))
                  (fun _ =>
                     let! now := utcnow_isoformat utcnow in
                     let! _ := exec (update_job (VStr jid) (mark_completed now)) in
                     _notify_progress (VStr jid) "completed" 1
                       ("Completed " ++ py_str repr_other ty)) s1
          | _ => (inl (TypeError "expected str, bytes or os.PathLike object"), s1)
          end
      end
      end.
Proof.
  intros Hid Hty Hpid. unfold _process_job.
  rewrite bind_run. unfold lift at 1. rewrite (lookup_key_some _ _ _ Hid).
  rewrite bind_run. unfold lift at 1. rewrite (lookup_key_some _ _ _ Hty).
  rewrite bind_run. unfold lift at 1. rewrite (lookup_key_some _ _ _ Hpid).
  rewrite bind_run. unfold utcnow_isoformat at 1.
  rewrite bind_run. unfold exec at 1. simpl db.
  rewrite (update_job_mark jid).
  rewrite bind_run.
  match goal with |- context [_notify_progress ?a ?b ?c ?d ?s] =>
    destruct (notify_outcome a b c d s) as (s1 & -> & Hdb1 & _) end.
  simpl in Hdb1.
  exists s1. split; [exact Hdb1|].
  match goal with |- context [raised ?x ?ev] => change (raised x ev) with (raised s ev) end.
  destruct (raised s _) as [e|]; [reflexivity|].
  rewrite bind_run. unfold query at 1.
  assert (Hg : get_paper pid (db s1) = get_paper pid (db s)).
  { unfold get_paper. rewrite Hdb1. reflexivity. }
  rewrite Hg.
  destruct (get_paper pid (db s)) as [paper|]; [|reflexivity].
  destruct (col paper "local_pdf_path"); try reflexivity.
  destruct (negb (pdf_exists s0)); reflexivity.
Qed.

(** X21.  [_process_job] reads the job's [id], [type] and [paper_id] before
    anything else: a job dictionary without one of them raises the
    [KeyError] of the first one missing, and nothing is written.  On a job
    with the three keys, where [id] and [paper_id] are text, it marks the
    job as running and delivers the "Starting ..." event; an exception of
    the observer there is what [_process_job] raises.  When the observer
    raises nothing: with
    no paper row for the job's [paper_id] it raises
    [ValueError("Paper ... not found")]; with a paper whose PDF is not on
    disk it raises [FileNotFoundError("PDF not found: ...")], without
    looking at the job's type; with the PDF on disk and a type other than
    EXTRACT_TEXT, EXTRACT_DOI and EMBED it raises
    [ValueError("Unknown job type: ...")].  In each of these four cases the
    database is as it was but for the job being marked as running. *)
Theorem process_job_refuses (job : pydict) (s : processor) :
  (job !! "id" = None -> process_job job s = (inl (KeyError "id"), s)) /\
  (forall i, job !! "id" = Some i -> job !! "type" = None ->
             process_job job s = (inl (KeyError "type"), s)) /\
  (forall i ty, job !! "id" = Some i -> job !! "type" = Some ty ->
                job !! "paper_id" = None ->
                process_job job s = (inl (KeyError "paper_id"), s)) /\
  forall (jid : string) (ty : value) (pid : string),
    job !! "id" = Some (VStr jid) -> job !! "type" = Some ty ->
    job !! "paper_id" = Some (VStr pid) ->
    let starting :=
      ProgressEvent (VStr jid) "running" 0 ("Starting " ++ py_str repr_other ty) in
    (forall e, raised s starting = Some e ->
       exists s', process_job job s = (inl e, s') /\ db s' = started jid s) /\
    (raised s starting = None ->
     (get_paper (VStr pid) (db s) = None ->
      exists s',
        process_job job s = (inl (ValueError ("Paper " ++ pid ++ " not found")), s') /\
        db s' = started jid s) /\
     (forall paper path,
        get_paper (VStr pid) (db s) = Some paper ->
        col paper "local_pdf_path" = VStr path -> pdf_exists path = false ->
        exists s',
          process_job job s
          = (inl (FileNotFoundError ("PDF not found: " ++ path_str path)), s') /\
          db s' = started jid s) /\
     (forall paper path,
        get_paper (VStr pid) (db s) = Some paper ->
        col paper "local_pdf_path" = VStr path -> pdf_exists path = true ->
        eq_str ty "EXTRACT_TEXT" = false ->
        eq_str ty "EXTRACT_DOI" = false ->
        eq_str ty "EMBED" = false ->
        exists s',
          process_job job s
          = (inl (ValueError ("Unknown job type: " ++ py_str repr_other ty)), s') /\
          db s' = started jid s)).
Proof.
  split; [|split; [|split]].
  - intros H. unfold _process_job. rewrite bind_run. unfold lift at 1.
    rewrite (lookup_key_none _ _ H). reflexivity.
  - intros i Hi H. unfold _process_job. rewrite bind_run. unfold lift at 1.
    rewrite (lookup_key_some _ _ _ Hi). rewrite bind_run. unfold lift at 1.
    rewrite (lookup_key_none _ _ H). reflexivity.
  - intros i ty Hi Hty H. unfold _process_job. rewrite bind_run. unfold lift at 1.
    rewrite (lookup_key_some _ _ _ Hi). rewrite bind_run. unfold lift at 1.
    rewrite (lookup_key_some _ _ _ Hty). rewrite bind_run. unfold lift at 1.
    rewrite (lookup_key_none _ _ H). reflexivity.
  - intros jid ty pid Hid Hty Hpid starting.
    destruct (process_job_start job jid ty (VStr pid) s Hid Hty Hpid) as (s1 & Hdb & Hrun).
    fold starting in Hrun. rewrite Hrun. split.
    + intros e ->. eauto.
    + intros ->. split; [|split].
      * intros ->. eauto.
      * intros paper path -> -> ->. simpl. eauto.
      * intros paper path -> -> -> -> -> ->. simpl. eauto.
Qed.

(** X22.  With nothing pending, [run_batch] on an idle processor returns the
    summary of an empty run (0 processed, 0 failed, no errors) and leaves the
    processor and its database exactly as they were; so a batch run again
    right after a batch does nothing: the first leaves nothing pending. *)
Theorem run_batch_again (s : processor) :
  _running s = false -> text_ids (jobs (db s)) ->
  (get_pending_jobs (db s) = [] ->
   forall fuel, batch (S fuel) s = Some (inr (Completed 0 0 None), s)) /\
  exists result s',
    (forall fuel, (length (get_pending_jobs (db s)) < fuel)%nat ->
                  batch fuel s = Some (inr result, s')) /\
    forall fuel, batch (S fuel) s' = Some (inr (Completed 0 0 None), s').
Proof.
  intros Hrun Hwf.
  assert (Hempty : forall s0, _running s0 = false -> get_pending_jobs (db s0) = [] ->
            forall fuel, batch (S fuel) s0 = Some (inr (Completed 0 0 None), s0)).
  { intros s0 Hr He fuel. unfold run_batch. rewrite Hr. simpl. rewrite He.
    destruct s0. simpl in *. subst. reflexivity. }
  split; [apply Hempty; exact Hrun|].
  destruct (loop_drains json_dumps json_loads utcnow pdf_exists path_str
              extract_text_from_pdf extract_doi_from_pdf embed_texts repr_other
              (length (List.filter is_pending (jobs (db s))))
              (with_running s true) (Tally 0 0 []) Hwf eq_refl)
    as (p & f & errs & s' & Hloop & Hrun' & Hnone & _).
  simpl in Hloop.
  exists (Completed p f (match errs with [] => None | l => Some l end)), (with_running s' false).
  split.
  - intros fuel Hfuel. unfold run_batch. rewrite Hrun.
    rewrite Hloop.
    + simpl. destruct errs; reflexivity.
    + unfold get_pending_jobs in Hfuel. rewrite stable_sort_length in Hfuel. exact Hfuel.
  - apply Hempty; [reflexivity|]. simpl. unfold get_pending_jobs. rewrite Hnone. reflexivity.
Qed.

Lemma count_status_settled (errs : list (value * string)) (t t' : list pydict) :
  Forall2 (settled errs) t t' ->
  count_status "pending" t' = 0%nat /\
  count_status "running" t' = count_status "running" t /\
  (count_status "completed" t' + count_status "failed" t'
   = count_status "completed" t + count_status "failed" t + count_status "pending" t)%nat /\
  List.find (fun r => sql_eqb (col r "status") (VStr "running")) t'
  = List.find (fun r => sql_eqb (col r "status") (VStr "running")) t.
Proof.
  induction 1 as [|r r' t t' Hr Ht (IH1 & IH2 & IH3 & IH4)].
  - unfold count_status. simpl. auto.
  - rewrite !count_status_cons. simpl List.find. rewrite IH1, IH2, IH4.
    unfold settled in Hr. unfold is_pending in Hr. rewrite sql_eqb_eq_str in Hr.
    rewrite !sql_eqb_eq_str.
    destruct (eq_str (col r "status") "pending") eqn:Ep.
    + apply eq_str_true in Ep. rewrite Ep. simpl.
      destruct Hr as (_ & [[Hs _]|[Hs _]]); rewrite Hs; simpl; repeat split; lia.
    + subst r'. rewrite Ep. repeat split; lia.
Qed.

(** X23.  What [get_batch_status] reports after a batch, against what it
    reported before: nothing is pending; the running count and the current
    job are as they were (a batch leaves rows that were already running
    alone); and completed plus failed has grown by the number that was
    pending, which is also the sum of the two counts in the summary. *)
Theorem batch_status_after_run_batch (s : processor) :
  _running s = false -> text_ids (jobs (db s)) ->
  exists p f errs s',
    (forall fuel, (st_pending (get_batch_status (db s)) < fuel)%nat ->
       batch fuel s
       = Some (inr (Completed p f (match errs with [] => None | l => Some l end)), s')) /\
    (p + f = st_pending (get_batch_status (db s)))%nat /\
    st_pending (get_batch_status (db s')) = 0%nat /\
    st_running (get_batch_status (db s')) = st_running (get_batch_status (db s)) /\
    st_current_job (get_batch_status (db s')) = st_current_job (get_batch_status (db s)) /\
    (st_completed (get_batch_status (db s')) + st_failed (get_batch_status (db s'))
     = st_completed (get_batch_status (db s)) + st_failed (get_batch_status (db s)) + p + f)%nat.
Proof.
  intros Hrun Hwf.
  destruct (loop_drains json_dumps json_loads utcnow pdf_exists path_str
              extract_text_from_pdf extract_doi_from_pdf embed_texts repr_other
              (length (List.filter is_pending (jobs (db s))))
              (with_running s true) (Tally 0 0 []) Hwf eq_refl)
    as (p & f & errs & s' & Hloop & Hrun' & Hnone & Hsum & Hflen & Hall & Hrec).
  simpl in Hloop, Hall.
  pose proof (settled_of_advanced _ _ _ Hnone Hall) as Hset.
  destruct (count_status_settled _ _ _ Hset) as (C1 & C2 & C3 & C4).
  destruct (batch_status_count (db s)) as (A1 & A2 & A3 & A4).
  destruct (batch_status_count (db (with_running s' false))) as (B1 & B2 & B3 & B4).
  simpl db in *.
  exists p, f, errs, (with_running s' false). simpl db.
  rewrite A1, A2, A3, A4, B1, B2, B3, B4. rewrite count_status_pending.
  split; [|split; [|split; [|split; [|split]]]].
  - intros fuel Hfuel. unfold run_batch. rewrite Hrun.
    rewrite Hloop by exact Hfuel. simpl. destruct errs; reflexivity.
  - exact Hsum.
  - exact C1.
  - exact C2.
  - unfold get_batch_status. simpl. exact C4.
  - rewrite C3. rewrite count_status_pending. lia.
Qed.
End JobProperties.

(** ** Deleting chunks and annotations *)

Lemma filter_neg_nil {A : Type} (f : A -> bool) (l : list A) :
  List.filter f (List.filter (fun x => negb (f x)) l) = [].
Proof.
  induction l as [|x l IH]; simpl; [reflexivity|].
  destruct (f x) eqn:E; simpl; [exact IH|]. rewrite E. exact IH.
Qed.

Lemma filter_neg_idem {A : Type} (f : A -> bool) (l : list A) :
  List.filter (fun x => negb (f x)) (List.filter (fun x => negb (f x)) l)
  = List.filter (fun x => negb (f x)) l.
Proof.
  induction l as [|x l IH]; simpl; [reflexivity|].
  destruct (f x) eqn:E; simpl; [exact IH|]. rewrite E. simpl. f_equal. exact IH.
Qed.

Lemma filter_other_key (t : list pydict) (k p q : string) :
  q <> p ->
  List.filter (fun r => sql_eqb (col r k) (VStr q))
    (List.filter (fun r => negb (sql_eqb (col r k) (VStr p))) t)
  = List.filter (fun r => sql_eqb (col r k) (VStr q)) t.
Proof.
  intros Hne. induction t as [|r t IH]; simpl; [reflexivity|].
  destruct (sql_eqb (col r k) (VStr p)) eqn:Ep; simpl.
  - rewrite sql_eqb_eq_str in Ep. apply eq_str_true in Ep. rewrite Ep.
    destruct (sql_eqb (VStr p) (VStr q)) eqn:Eq; [|exact IH].
    apply sql_eqb_text in Eq. congruence.
  - destruct (sql_eqb (col r k) (VStr q)); [f_equal|]; exact IH.
Qed.

(** X24.  [delete_chunks] with a text id leaves the paper without chunks:
    [get_chunks] and [get_embeddings] return the empty list for it.  Every
    other paper is answered as before, and the [embeddings] table is left as
    it was: the vectors of the deleted chunks stay in it (nothing
    cascades). *)
Theorem delete_chunks_clears (json_loads : string -> exn + value) (pid : string)
    (d : database) :
  get_chunks json_loads (VStr pid) (delete_chunks (VStr pid) d) = inr [] /\
  get_embeddings json_loads (VStr pid) (delete_chunks (VStr pid) d) = inr [] /\
  (forall q, q <> pid ->
     get_chunks json_loads (VStr q) (delete_chunks (VStr pid) d)
     = get_chunks json_loads (VStr q) d /\
     get_embeddings json_loads (VStr q) (delete_chunks (VStr pid) d)
     = get_embeddings json_loads (VStr q) d) /\
  (forall r, In r (chunks (delete_chunks (VStr pid) d)) <->
             In r (chunks d) /\ col r "paper_id" <> VStr pid) /\
  embeddings (delete_chunks (VStr pid) d) = embeddings d /\
  papers (delete_chunks (VStr pid) d) = papers d /\
  jobs (delete_chunks (VStr pid) d) = jobs d.
Proof.
  repeat split; try reflexivity.
  - unfold get_chunks, chunk_rows, delete_chunks. cbn [chunks with_chunks].
    rewrite filter_neg_nil. reflexivity.
  - unfold get_embeddings, joined_rows, delete_chunks.
    cbn [bind_param chunks embeddings with_chunks].
    rewrite filter_neg_nil. reflexivity.
  - unfold get_chunks, chunk_rows, delete_chunks. cbn [chunks with_chunks].
    rewrite filter_other_key by assumption. reflexivity.
  - unfold get_embeddings, joined_rows, delete_chunks.
    cbn [bind_param chunks embeddings with_chunks].
    rewrite filter_other_key by assumption. reflexivity.
  - unfold delete_chunks in H. cbn [chunks with_chunks] in H.
    apply filter_In in H. tauto.
  - unfold delete_chunks in H. cbn [chunks with_chunks] in H.
    apply filter_In in H as [_ H]. intros Hr. rewrite Hr in H.
    rewrite sql_eqb_refl in H by discriminate. discriminate.
  - intros [Hin Hne]. unfold delete_chunks. cbn [chunks with_chunks].
    apply filter_In. split; [exact Hin|].
    apply negb_true_iff. rewrite sql_eqb_eq_str.
    destruct (eq_str (col r "paper_id") pid) eqn:E; [|reflexivity].
    apply eq_str_true in E. contradiction.
Qed.

Section DeleteAnnotation.
Variable json_loads : string -> exn + value.
Variable json_loads_bytes : list Byte.byte -> exn + value.

Local Notation get := (get_annotation json_loads json_loads_bytes).

(** X25.  [delete_annotation] with a text id removes every row with that id,
    so [get_annotation] returns [None] for it; every other id is answered as
    before; and deleting once more changes nothing. *)
Theorem delete_annotation_removes (aid : string) (t : list pydict) :
  exists t',
    delete_annotation (VStr aid) t = inr t' /\
    get (VStr aid) t' = inr None /\
    (forall q, q <> aid -> get (VStr q) t' = get (VStr q) t) /\
    (forall r, In r t' <-> In r t /\ col r "id" <> VStr aid) /\
    delete_annotation (VStr aid) t' = inr t'.
Proof.
  eexists. split; [reflexivity|]. repeat split.
  - unfold get_annotation. cbn [bind_param].
    destruct (List.find _ _) as [r|] eqn:E; [|reflexivity].
    apply find_some in E as [Hin Hr]. apply filter_In in Hin as [_ Hn].
    rewrite Hr in Hn. discriminate.
  - intros q Hq. unfold get_annotation. cbn [bind_param].
    rewrite find_filter; [reflexivity|].
    intros r Hr. rewrite sql_eqb_eq_str in Hr. apply eq_str_true in Hr.
    rewrite Hr. apply negb_true_iff.
    destruct (sql_eqb (VStr q) (VStr aid)) eqn:E; [|reflexivity].
    apply sql_eqb_text in E. contradiction.
  - apply filter_In in H. tauto.
  - apply filter_In in H as [_ H]. intros Hr. rewrite Hr in H.
    rewrite sql_eqb_refl in H by discriminate. discriminate.
  - intros [Hin Hne]. apply filter_In. split; [exact Hin|].
    apply negb_true_iff. rewrite sql_eqb_eq_str.
    destruct (eq_str (col r "id") aid) eqn:E; [|reflexivity].
    apply eq_str_true in E. contradiction.
  - unfold delete_annotation. cbn [bind_param]. f_equal. apply filter_neg_idem.
Qed.
End DeleteAnnotation.

(** ** Extracting the DOI and the text *)

Lemma update_paper_doi json_dumps (pid doi : string) (d : database) :
  update_paper json_dumps (VStr pid) [("doi", VStr doi)] d
  = inr (with_papers d
           (map (fun r => if sql_eqb (col r "id") (VStr pid)
                          then <["doi" := VStr doi]> r else r) (papers d))).
Proof.
  unfold update_paper, set_clauses, sql_update. simpl.
  destruct (existsb _ _); reflexivity.
Qed.

Lemma update_paper_needs_ocr json_dumps (pid : string) (d : database) :
  update_paper json_dumps (VStr pid)
    [("status", VStr "needs_ocr"); ("metadata", VDict [("has_text", VBool false)])] d
  = inr (with_papers d
           (map (fun r => if sql_eqb (col r "id") (VStr pid)
                          then <["metadata" :=
                                   VStr (json_dumps (VDict [("has_text", VBool false)]))]>
                                 (<["status" := VStr "needs_ocr"]> r)
                          else r) (papers d))).
Proof.
  unfold update_paper, set_clauses, sql_update. simpl.
  destruct (existsb _ _); reflexivity.
Qed.

Lemma update_paper_indexed json_dumps (pid now : string) (d : database) :
  update_paper json_dumps (VStr pid)
    [("indexed_at", VStr now); ("status", VStr "indexed")] d
  = inr (with_papers d
           (map (fun r => if sql_eqb (col r "id") (VStr pid)
                          then <["status" := VStr "indexed"]>
                                 (<["indexed_at" := VStr now]> r)
                          else r) (papers d))).
Proof.
  unfold update_paper, set_clauses, sql_update. simpl.
  destruct (existsb _ _); reflexivity.
Qed.

Lemma sql_eqb_text_l (i : string) (x : value) : sql_eqb (VStr i) x = true -> x = VStr i.
Proof.
  destruct x as [|[]|z|q|s0|bs|dd]; try discriminate.
  intros H. apply sql_eqb_text in H. congruence.
Qed.

Lemma stored_as_text (v : option value) (i : string) (w : value) :
  v = Some (VStr i) -> stored_as v w -> w = VStr i.
Proof. intros -> (x & Hx & Hb). inversion Hx; subst x. simpl in Hb. congruence. Qed.

Lemma notify_step j st p msg s :
  _notify_progress j st p msg s
  = (match raised s (ProgressEvent j st p msg) with Some e => inl e | None => inr tt end,
     notified s (ProgressEvent j st p msg)).
Proof.
  unfold _notify_progress, raised, notified.
  destruct (_progress_callback s) as [call|]; [destruct (call _ _)|]; reflexivity.
Qed.

Lemma notified_frame s ev :
  db (notified s ev) = db s /\ clock (notified s ev) = clock s.
Proof. unfold notified. destruct (_progress_callback s); simpl; auto. Qed.

Section ChunkProperties.
Variable json_dumps : value -> string.

Lemma add_chunk_row (c : pydict) (d d' : database) :
  add_chunk json_dumps c d = inr d' ->
  exists row,
    d' = with_chunks d (insert_or_replace (chunks d) "id" row) /\
    stored_as (c !! "id") (col row "id") /\
    stored_as (c !! "paper_id") (col row "paper_id") /\
    stored_as (c !! "page") (col row "page") /\
    stored_as (c !! "text") (col row "text").
Proof.
  unfold add_chunk, lookup_key. intros H.
  destruct (c !! "id") as [cid|] eqn:E1; [|discriminate].
  destruct (c !! "paper_id") as [pid|] eqn:E2; [|discriminate].
  destruct (c !! "page") as [page|] eqn:E3; [|discriminate].
  destruct (c !! "bbox") as [bbox|] eqn:E4; [|discriminate].
  destruct (c !! "text") as [text|] eqn:E5; [|discriminate].
  cbv zeta in H.
  destruct (bind_param cid) as [|cid'] eqn:B1; [discriminate|].
  destruct (bind_param pid) as [|pid'] eqn:B2; [discriminate|].
  destruct (bind_param page) as [|page'] eqn:B3; [discriminate|].
  destruct (bind_param text) as [|text'] eqn:B4; [discriminate|].
  destruct (bind_param (default (VInt 0) (c !! "chunk_index"))) as [|idx'] eqn:B5;
    [discriminate|].
  exists (list_to_map [("id", cid'); ("paper_id", pid'); ("page", page');
                       ("bbox", VStr (json_dumps bbox)); ("text", text');
                       ("chunk_index", idx')]).
  split.
  - destruct pid', page', text'; try discriminate; inversion H; reflexivity.
  - unfold stored_as, col. simpl.
    repeat split; eexists; (split; [reflexivity|]); by simplify_map_eq.
Qed.

Lemma add_chunks_frame (cs : list pydict) : forall d,
  papers (snd (add_chunks json_dumps cs d)) = papers d /\
  embeddings (snd (add_chunks json_dumps cs d)) = embeddings d /\
  jobs (snd (add_chunks json_dumps cs d)) = jobs d.
Proof.
  induction cs as [|c cs IH]; intros d; simpl; [auto|].
  destruct (add_chunk json_dumps c d) as [e|d1] eqn:E; simpl; [auto|].
  destruct (add_chunk_row _ _ _ E) as (row & -> & _).
  destruct (IH (with_chunks d (insert_or_replace (chunks d) "id" row))) as (A & B & C).
  rewrite A, B, C. auto.
Qed.

Lemma add_chunks_rows (cs : list pydict) : forall d row,
  In row (chunks (snd (add_chunks json_dumps cs d))) ->
  In row (chunks d) \/
  exists c, In c cs /\ stored_as (c !! "id") (col row "id") /\
            stored_as (c !! "paper_id") (col row "paper_id") /\
            stored_as (c !! "page") (col row "page") /\
            stored_as (c !! "text") (col row "text").
Proof.
  induction cs as [|c cs IH]; intros d row; simpl; [auto|].
  destruct (add_chunk json_dumps c d) as [e|d1] eqn:E; simpl; [auto|].
  intros Hin. destruct (IH _ _ Hin) as [Hold|(c' & Hc' & H)].
  - destruct (add_chunk_row _ _ _ E) as (row1 & -> & H1).
    simpl in Hold. apply In_insert_or_replace in Hold as [->|[Hold _]]; [|auto].
    right. exists c. auto.
  - right. exists c'. auto.
Qed.

Lemma add_chunks_keeps_id (cs : list pydict) (pid i : string) :
  Forall (fun c => c !! "paper_id" = Some (VStr pid)) cs ->
  forall d,
    (exists row, In row (chunks d) /\ col row "id" = VStr i /\
                 col row "paper_id" = VStr pid) ->
    exists row, In row (chunks (snd (add_chunks json_dumps cs d))) /\
                col row "id" = VStr i /\ col row "paper_id" = VStr pid.
Proof.
  induction 1 as [|c cs Hc Hall IH]; intros d Hrow; simpl; [exact Hrow|].
  destruct (add_chunk json_dumps c d) as [e|d1] eqn:E; simpl; [exact Hrow|].
  apply IH. destruct Hrow as (row & Hin & Hid & Hp).
  destruct (add_chunk_row _ _ _ E) as (row1 & -> & _ & Hp1 & _).
  simpl. destruct (sql_eqb (col row "id") (col row1 "id")) eqn:Eq.
  - exists row1. split; [apply In_insert_or_replace; auto|].
    rewrite Hid in Eq. apply sql_eqb_text_l in Eq. split; [exact Eq|].
    apply (stored_as_text _ _ _ Hc Hp1).
  - exists row. split; [apply In_insert_or_replace; auto|]. auto.
Qed.

Lemma add_chunks_all (cs : list pydict) (pid : string) :
  Forall (fun c => c !! "paper_id" = Some (VStr pid)) cs ->
  forall d, fst (add_chunks json_dumps cs d) = None ->
  forall c i, In c cs -> c !! "id" = Some (VStr i) ->
    exists row, In row (chunks (snd (add_chunks json_dumps cs d))) /\
                col row "id" = VStr i /\ col row "paper_id" = VStr pid.
Proof.
  induction 1 as [|c0 cs Hc Hall IH]; intros d Hok c i Hin Hid; [destruct Hin|].
  simpl in Hok |- *.
  destruct (add_chunk json_dumps c0 d) as [e|d1] eqn:E; [discriminate|].
  destruct Hin as [->|Hin]; [|apply (IH d1 Hok c i Hin Hid)].
  apply add_chunks_keeps_id; [exact Hall|].
  destruct (add_chunk_row _ _ _ E) as (row1 & -> & Hi1 & Hp1 & _).
  exists row1. simpl. split; [apply In_insert_or_replace; auto|].
  split; [apply (stored_as_text _ _ _ Hid Hi1)|apply (stored_as_text _ _ _ Hc Hp1)].
Qed.
Lemma replace_chunks_rows (cs : list pydict) (pid : string) (d : database) :
  let cs' := map (fun chunk : pydict => <["paper_id" := VStr pid]> chunk) cs in
  let run := add_chunks json_dumps cs' (delete_chunks (VStr pid) d) in
  papers (snd run) = papers d /\ embeddings (snd run) = embeddings d /\
  jobs (snd run) = jobs d /\
  (forall row, In row (chunks (snd run)) -> col row "paper_id" = VStr pid ->
     exists c, In c cs /\ stored_as (c !! "id") (col row "id") /\
               stored_as (c !! "page") (col row "page") /\
               stored_as (c !! "text") (col row "text")) /\
  (forall row, In row (chunks (snd run)) -> col row "paper_id" <> VStr pid ->
     In row (chunks d)) /\
  (fst run = None ->
   forall c i, In c cs -> c !! "id" = Some (VStr i) ->
     exists row, In row (chunks (snd run)) /\ col row "id" = VStr i /\
                 col row "paper_id" = VStr pid).
Proof.
  intros cs' run.
  assert (Hcs' : forall c', In c' cs' ->
            exists c, In c cs /\ c' !! "paper_id" = Some (VStr pid) /\
                      c' !! "id" = c !! "id" /\ c' !! "page" = c !! "page" /\
                      c' !! "text" = c !! "text").
  { intros c' Hc'. apply in_map_iff in Hc' as (c & <- & Hc). exists c.
    split; [exact Hc|]. rewrite lookup_insert_eq.
    rewrite !lookup_insert_ne by discriminate. auto. }
  destruct (add_chunks_frame cs' (delete_chunks (VStr pid) d)) as (A & B & C).
  fold run in A, B, C. repeat split; try assumption.
  - intros row Hin Hp. apply add_chunks_rows in Hin as [Hold|(c' & Hc' & Hi & _ & Hg & Ht)].
    + unfold delete_chunks in Hold. cbn [chunks with_chunks] in Hold.
      apply filter_In in Hold as [_ Hn]. rewrite Hp in Hn.
      rewrite sql_eqb_refl in Hn by discriminate. discriminate.
    + destruct (Hcs' c' Hc') as (c & Hc & _ & E1 & E2 & E3).
      exists c. rewrite <- E1, <- E2, <- E3. auto.
  - intros row Hin Hp. apply add_chunks_rows in Hin as [Hold|(c' & Hc' & _ & Hq & _)].
    + unfold delete_chunks in Hold. cbn [chunks with_chunks] in Hold.
      apply filter_In in Hold. tauto.
    + destruct (Hcs' c' Hc') as (c & _ & E0 & _).
      elim Hp. apply (stored_as_text _ _ _ E0 Hq).
  - intros Hok c i Hc Hi.
    apply (add_chunks_all cs' pid) with (c := <["paper_id" := VStr pid]> c).
    + apply List.Forall_forall. intros c' Hc'.
      destruct (Hcs' c' Hc') as (_ & _ & E0 & _). exact E0.
    + exact Hok.
    + apply in_map_iff. exists c. auto.
    + rewrite lookup_insert_ne by discriminate. exact Hi.
Qed.
End ChunkProperties.

Section ExtractProperties.
Variable json_dumps : value -> string.
Variable utcnow : nat -> string.
Variable extract_text_from_pdf : string -> exn + (list pydict * bool).
Variable extract_doi_from_pdf : string -> exn + option string.

Local Notation extract_doi := (_extract_doi json_dumps extract_doi_from_pdf).
Local Notation extract_text := (_extract_text json_dumps utcnow extract_text_from_pdf).

(** X26.  [_extract_doi] writes at most the [doi] column of the paper's own
    row.  A paper dictionary without [id] raises [KeyError] and nothing
    happens.  Otherwise the "Extracting DOI..." event is delivered first; an
    exception of the observer there, or else of the extractor, goes on and
    the database is untouched.  When the extractor finds no DOI, or an empty
    one, the database is untouched; when it finds one, every paper row with
    the paper's id gets it, and every other row and table stays as it was.
    In both cases the call ends with the last event: it raises what the
    observer raises there, and returns when the observer raises nothing. *)
Theorem extract_doi_sets_doi (paper : pydict) (pdf_path : string) (s : processor) :
  let first := ProgressEvent (VStr "") "running" (1 # 2) "Extracting DOI..." in
  let s1 := notified s first in
  (paper !! "id" = None -> extract_doi paper pdf_path s = (inl (KeyError "id"), s)) /\
  (forall pid e, paper !! "id" = Some pid -> raised s first = Some e ->
     extract_doi paper pdf_path s = (inl e, s1) /\ db s1 = db s) /\
  (forall pid e, paper !! "id" = Some pid -> raised s first = None ->
     extract_doi_from_pdf pdf_path = inl e ->
     extract_doi paper pdf_path s = (inl e, s1) /\ db s1 = db s) /\
  (forall pid, paper !! "id" = Some pid -> raised s first = None ->
     extract_doi_from_pdf pdf_path = inr None \/
     extract_doi_from_pdf pdf_path = inr (Some "") ->
     exists s',
       extract_doi paper pdf_path s
       = (match raised s1 (ProgressEvent (VStr "") "running" 1 "No DOI found") with
          | Some e => inl e
          | None => inr tt
          end, s') /\
       db s' = db s) /\
  (forall doi pid,
     col paper "id" = VStr pid -> raised s first = None ->
     extract_doi_from_pdf pdf_path = inr (Some doi) -> doi <> "" ->
     exists s',
       extract_doi paper pdf_path s
       = (match raised s1 (ProgressEvent (VStr "") "running" 1 ("Found DOI: " ++ doi)) with
          | Some e => inl e
          | None => inr tt
          end, s') /\
       papers (db s')
       = map (fun r => if sql_eqb (col r "id") (VStr pid)
                       then <["doi" := VStr doi]> r else r) (papers (db s)) /\
       chunks (db s') = chunks (db s) /\ embeddings (db s') = embeddings (db s) /\
       jobs (db s') = jobs (db s)).
Proof.
  intros first s1.
  assert (Hdb1 : db s1 = db s) by apply notified_frame.
  subst first s1.
  split; [|split; [|split; [|split]]].
  - intros H. unfold _extract_doi. rewrite bind_run. unfold lift at 1.
    rewrite (lookup_key_none _ _ H). reflexivity.
  - intros pid e Hid Hr. unfold _extract_doi. rewrite bind_run. unfold lift at 1.
    rewrite (lookup_key_some _ _ _ Hid). rewrite bind_run, notify_step, Hr.
    split; [reflexivity|exact Hdb1].
  - intros pid e Hid Hr He. unfold _extract_doi. rewrite bind_run. unfold lift at 1.
    rewrite (lookup_key_some _ _ _ Hid). rewrite bind_run, notify_step, Hr.
    rewrite bind_run. unfold lift at 1. rewrite He.
    split; [reflexivity|exact Hdb1].
  - intros pid Hid Hr Hd. unfold _extract_doi. rewrite bind_run. unfold lift at 1.
    rewrite (lookup_key_some _ _ _ Hid). rewrite bind_run, notify_step, Hr.
    rewrite bind_run. unfold lift at 1.
    destruct Hd as [-> | ->]; rewrite notify_step;
      (eexists; split; [reflexivity|]); rewrite (proj1 (notified_frame _ _)); exact Hdb1.
  - intros doi pid Hid Hr Hd Hne. unfold _extract_doi. rewrite bind_run. unfold lift at 1.
    rewrite (lookup_key_col _ _ _ Hid) by discriminate.
    rewrite bind_run, notify_step, Hr.
    rewrite bind_run. unfold lift at 1. rewrite Hd.
    destruct doi as [|c rest]; [contradiction|].
    rewrite bind_run. unfold exec at 1. rewrite update_paper_doi.
    rewrite notify_step.
    eexists. split; [reflexivity|]. rewrite (proj1 (notified_frame _ _)).
    simpl. rewrite Hdb1. auto.
Qed.

(** X27.  [_extract_text] replaces the chunks of the paper.  The
    "Extracting text from PDF..." event is delivered first; an exception of
    the observer there, or else of the extractor, goes on and the database
    is untouched.  When the extractor finds no text, the paper's row gets
    status ['needs_ocr'] and the metadata [{"has_text": false}], and the
    chunks stay.  When it finds text, the "Saving ..." event is delivered;
    an exception of the observer there goes on and the database is
    untouched.  Otherwise, however the call ends: every chunk row of the
    paper is one written for a new chunk (the old ones are gone), every
    chunk row of another paper was there before, and the [embeddings] and
    [jobs] tables are as they were (the vectors of the old chunks stay).
    The call raises what [add_chunks] raises, or else what the observer
    raises on the last event, and returns otherwise.  When it returns, every
    new chunk with a text id has its row, and the paper's row has status
    ['indexed'] and the clock reading as [indexed_at]; when it raises, the
    [papers] table is as it was, unless the exception is the observer's on
    the last event, which comes after the paper's row was updated. *)
Theorem extract_text_replaces_chunks (paper : pydict) (pid pdf_path : string)
    (s : processor) :
  col paper "id" = VStr pid ->
  let first := ProgressEvent (VStr "") "running" (1 # 10) "Extracting text from PDF..." in
  let s1 := notified s first in
  (forall e, raised s first = Some e ->
     extract_text paper pdf_path s = (inl e, s1) /\ db s1 = db s) /\
  (raised s first = None ->
   (forall e, extract_text_from_pdf pdf_path = inl e ->
      extract_text paper pdf_path s = (inl e, s1) /\ db s1 = db s) /\
   (forall cs, extract_text_from_pdf pdf_path = inr (cs, false) ->
      exists s',
        extract_text paper pdf_path s = (inr tt, s') /\
        papers (db s')
        = map (fun r => if sql_eqb (col r "id") (VStr pid)
                        then <["metadata" :=
                                 VStr (json_dumps (VDict [("has_text", VBool false)]))]>
                               (<["status" := VStr "needs_ocr"]> r)
                        else r) (papers (db s)) /\
        chunks (db s') = chunks (db s) /\ embeddings (db s') = embeddings (db s) /\
        jobs (db s') = jobs (db s)) /\
   (forall cs r s',
      extract_text_from_pdf pdf_path = inr (cs, true) ->
      extract_text paper pdf_path s = (r, s') ->
      let saving :=
        ProgressEvent (VStr "") "running" (1 # 2)
          ("Saving " ++ pretty (length cs) ++ " text chunks...") in
      let s2 := notified s1 saving in
      let last :=
        ProgressEvent (VStr "") "running" 1
          ("Extracted " ++ pretty (length cs) ++ " chunks") in
      let added :=
        add_chunks json_dumps (map (fun chunk : pydict => <["paper_id" := VStr pid]> chunk) cs)
          (delete_chunks (VStr pid) (db s)) in
      let indexed :=
        map (fun r => if sql_eqb (col r "id") (VStr pid)
                      then <["status" := VStr "indexed"]>
                             (<["indexed_at" := VStr (utcnow (clock s))]> r)
                      else r) (papers (db s)) in
      embeddings (db s') = embeddings (db s) /\ jobs (db s') = jobs (db s) /\
      (forall e, raised s1 saving = Some e -> r = inl e /\ db s' = db s) /\
      (raised s1 saving = None ->
       r = match fst added with
           | Some e => inl e
           | None => match raised s2 last with Some e => inl e | None => inr tt end
           end /\
       (forall row, In row (chunks (db s')) -> col row "paper_id" = VStr pid ->
          exists c, In c cs /\ stored_as (c !! "id") (col row "id") /\
                    stored_as (c !! "page") (col row "page") /\
                    stored_as (c !! "text") (col row "text")) /\
       (forall row, In row (chunks (db s')) -> col row "paper_id" <> VStr pid ->
          In row (chunks (db s))) /\
       (fst added = None ->
        (forall c i, In c cs -> c !! "id" = Some (VStr i) ->
           exists row, In row (chunks (db s')) /\ col row "id" = VStr i /\
                       col row "paper_id" = VStr pid) /\
        papers (db s') = indexed) /\
       (forall e, fst added = Some e -> papers (db s') = papers (db s))))).
Proof.
  intros Hid first s1.
  assert (Hdb1 : db s1 = db s) by apply notified_frame.
  assert (Hc1 : clock s1 = clock s) by apply notified_frame.
  assert (Hk : lookup_key paper "id" = inr (VStr pid))
    by (apply lookup_key_col; [exact Hid|discriminate]).
  split.
  { intros e Hr. unfold _extract_text. rewrite bind_run. unfold lift at 1. rewrite Hk.
    rewrite bind_run, notify_step. fold first. rewrite Hr. split; [reflexivity|exact Hdb1]. }
  intros Hr. split; [|split].
  - intros e He. unfold _extract_text. rewrite bind_run. unfold lift at 1. rewrite Hk.
    rewrite bind_run, notify_step. fold first. rewrite Hr.
    rewrite bind_run. unfold lift at 1. rewrite He. split; [reflexivity|exact Hdb1].
  - intros cs He. unfold _extract_text. rewrite bind_run. unfold lift at 1. rewrite Hk.
    rewrite bind_run, notify_step. fold first. rewrite Hr.
    rewrite bind_run. unfold lift at 1. rewrite He. cbn [fst snd negb].
    unfold exec. rewrite update_paper_needs_ocr.
    eexists. split; [reflexivity|]. fold s1. simpl. rewrite Hdb1. auto.
  - intros cs r s' He Hrun saving s2 last added indexed.
    assert (Hdb2 : db s2 = db s) by (unfold s2; rewrite (proj1 (notified_frame _ _)); exact Hdb1).
    assert (Hc2 : clock s2 = clock s) by (unfold s2; rewrite (proj2 (notified_frame _ _)); exact Hc1).
    unfold _extract_text in Hrun. rewrite bind_run in Hrun. unfold lift at 1 in Hrun.
    rewrite Hk in Hrun. rewrite bind_run, notify_step in Hrun. fold first in Hrun.
    rewrite Hr in Hrun. fold s1 in Hrun.
    rewrite bind_run in Hrun. unfold lift at 1 in Hrun. rewrite He in Hrun.
    cbn [fst snd negb] in Hrun. cbv zeta in Hrun.
    rewrite bind_run, notify_step in Hrun.
    rewrite (length_map (fun chunk : pydict => <["paper_id" := VStr pid]> chunk) cs) in Hrun.
    fold saving in Hrun. fold s2 in Hrun.
    destruct (raised s1 saving) as [e2|] eqn:E2.
    { inversion Hrun; subst r s'. rewrite Hdb2.
      split; [reflexivity|]. split; [reflexivity|]. split; [|discriminate].
      intros e H. inversion H. auto. }
    rewrite bind_run in Hrun. unfold exec at 1 in Hrun. rewrite bind_run in Hrun.
    cbn [db with_db] in Hrun. rewrite Hdb2 in Hrun.
    destruct (replace_chunks_rows json_dumps cs pid (db s)) as (A & B & C & D & E & F).
    cbv zeta in A, B, C, D, E, F. fold added in Hrun, A, B, C, D, E, F.
    destruct added as [[e|] d3] eqn:Ea; cbn [fst snd] in A, B, C, D, E, F |- *.
    + inversion Hrun; subst r s'. simpl.
      split; [exact B|]. split; [exact C|]. split; [discriminate|]. intros _.
      split; [reflexivity|]. split; [exact D|]. split; [exact E|].
      split; [discriminate|]. intros _ _. exact A.
    + rewrite bind_run in Hrun. unfold utcnow_isoformat at 1 in Hrun.
      rewrite bind_run in Hrun.
      unfold exec at 1 in Hrun. cbn [db with_db with_clock] in Hrun.
      rewrite update_paper_indexed in Hrun. rewrite notify_step in Hrun.
      fold last in Hrun.
      match type of Hrun with context [raised ?x last] =>
        change (raised x last) with (raised s2 last) in Hrun end.
      inversion Hrun; subst r s'. rewrite (proj1 (notified_frame _ _)). simpl.
      split; [exact B|]. split; [exact C|]. split; [discriminate|]. intros _.
      split; [reflexivity|]. split; [exact D|]. split; [exact E|].
      split; [|discriminate]. intros _. split; [apply F; reflexivity|].
      rewrite A. cbn [clock with_db]. rewrite Hc2. reflexivity.
Qed.
End ExtractProperties.

(** ** From the embedding pass to the search *)

Lemma decode_bbox_inr json_loads (r r' : pydict) :
  decode_bbox json_loads r = inr r' ->
  exists b v, col r "bbox" = VStr b /\ json_loads b = inr v /\ r' = <["bbox" := v]> r.
Proof.
  unfold decode_bbox. destruct (col r "bbox") as [|[]|z|q|b|bs|dd]; try discriminate.
  destruct (json_loads b) as [e|v] eqn:E; [discriminate|].
  intros H. inversion H. eauto.
Qed.

Lemma decode_rows_Forall2 json_loads (rows : list pydict) : forall out,
  decode_rows json_loads rows = inr out ->
  Forall2 (fun r o => decode_bbox json_loads r = inr o) rows out.
Proof.
  induction rows as [|r rows IH]; simpl; intros out H.
  - inversion H. constructor.
  - destruct (decode_bbox json_loads r) as [e|r'] eqn:E; [discriminate|].
    destruct (decode_rows json_loads rows) as [e|rest]; [discriminate|].
    inversion H; subst. constructor; auto.
Qed.

Lemma decode_rows_total json_loads (rows : list pydict) :
  Forall (fun r => exists r', decode_bbox json_loads r = inr r') rows ->
  exists out, decode_rows json_loads rows = inr out.
Proof.
  induction 1 as [|r rows (r' & Hr) Hall (out & IH)]; simpl; [eauto|].
  rewrite Hr, IH. eauto.
Qed.

Lemma joined_row_col (c e : pydict) :
  col (joined_row (c, e)) "id" = col c "id" /\
  col (joined_row (c, e)) "page" = col c "page" /\
  col (joined_row (c, e)) "bbox" = col c "bbox" /\
  col (joined_row (c, e)) "text" = col c "text" /\
  col (joined_row (c, e)) "vector" = col e "vector".
Proof. unfold joined_row, col. simpl. repeat split; by simplify_map_eq. Qed.

Lemma emb_row_col (cid : value) (bs : list Byte.byte) :
  col (emb_row cid bs) "chunk_id" = cid /\ col (emb_row cid bs) "vector" = VBytes bs.
Proof. unfold emb_row, col. split; by simplify_map_eq. Qed.

Lemma update_paper_ready json_dumps (pid : string) (d : database) :
  update_paper json_dumps (VStr pid) [("embeddings_ready", VInt 1)] d
  = inr (with_papers d
           (map (fun r => if sql_eqb (col r "id") (VStr pid)
                          then <["embeddings_ready" := VInt 1]> r else r) (papers d))).
Proof.
  unfold update_paper, set_clauses, sql_update. simpl.
  destruct (existsb _ _); reflexivity.
Qed.

Section EmbeddedProperties.
Variable json_dumps : value -> string.
Variable json_loads : string -> exn + value.
Variable embed_texts : list value -> exn + list (list Z).
Variable repr_other : value -> string.

Local Notation compute_embeddings :=
  (_compute_embeddings json_dumps json_loads embed_texts repr_other).

Lemma joined_rows_In (pid : value) (d : database) (ce : pydict * pydict) :
  In ce (joined_rows pid d) <->
  In (fst ce) (chunk_rows pid d) /\ In (snd ce) (embeddings d) /\
  sql_eqb (col (fst ce) "id") (col (snd ce) "chunk_id") = true.
Proof.
  unfold joined_rows, chunk_rows. rewrite !stable_sort_In, in_flat_map. split.
  - intros (c & Hc & Hin). apply in_map_iff in Hin as (e & <- & He).
    apply filter_In in He. simpl. tauto.
  - intros (Hc & He & Heq). exists (fst ce). split; [exact Hc|].
    apply in_map_iff. exists (snd ce). split; [destruct ce; reflexivity|].
    apply filter_In. auto.
Qed.

Lemma embedded_rows (paper : pydict) (pid : string) (s s' : processor) :
  col paper "id" = VStr pid ->
  (forall texts embs, embed_texts texts = inr embs -> length embs = length texts) ->
  text_ids (chunks (db s)) ->
  compute_embeddings paper s = (inr tt, s') ->
  exists cs rows,
    get_chunks json_loads (VStr pid) (db s') = inr cs /\ cs <> [] /\
    get_embeddings json_loads (VStr pid) (db s') = inr rows /\
    (forall c, In c cs ->
       exists r v, In r rows /\ col r "id" = col c "id" /\ col r "page" = col c "page" /\
                   col r "text" = col c "text" /\ r !! "bbox" = c !! "bbox" /\
                   col r "vector" = VBytes (vector_to_bytes v)) /\
    (forall r, In r rows -> exists c, In c cs /\ col r "id" = col c "id") /\
    papers (db s')
    = map (fun r => if sql_eqb (col r "id") (VStr pid)
                    then <["embeddings_ready" := VInt 1]> r else r) (papers (db s)).
Proof.
  intros Hid Hlen Hwf H.
  destruct (compute_embeddings_returns _ _ _ _ _ _ _ Hlen Hwf H)
    as (cs & W & Hg & Hne & _ & HW & Hall & Hup).
  rewrite Hid in Hg, Hup. rewrite update_paper_ready in Hup.
  assert (Hdb : db s' = with_papers (with_embeddings (db s) (embeddings (db s')))
                          (map (fun r => if sql_eqb (col r "id") (VStr pid)
                                         then <["embeddings_ready" := VInt 1]> r else r)
                               (papers (db s)))).
  { inversion Hup. reflexivity. }
  assert (Hch : chunks (db s') = chunks (db s)) by (rewrite Hdb; reflexivity).
  assert (Hrows : chunk_rows (VStr pid) (db s') = chunk_rows (VStr pid) (db s))
    by (unfold chunk_rows; rewrite Hch; reflexivity).
  unfold get_chunks in Hg.
  pose proof (decode_rows_Forall2 _ _ _ Hg) as F2.
  pose proof (text_ids_chunk_rows (VStr pid) (db s) Hwf) as [Htxt _].
  rewrite List.Forall_forall in Htxt.
  assert (Hdec : forall c0 e c, In c0 (chunk_rows (VStr pid) (db s)) ->
            decode_bbox json_loads c0 = inr c ->
            exists v, c = <["bbox" := v]> c0 /\
              decode_bbox json_loads (joined_row (c0, e))
              = inr (<["bbox" := v]> (joined_row (c0, e)))).
  { intros c0 e c Hc0 Hd. apply decode_bbox_inr in Hd as (b & v & Hb & Hv & ->).
    exists v. split; [reflexivity|]. unfold decode_bbox.
    destruct (joined_row_col c0 e) as (_ & _ & -> & _). rewrite Hb, Hv. reflexivity. }
  destruct (decode_rows_total json_loads (map joined_row (joined_rows (VStr pid) (db s'))))
    as (rows & Hrows_ok).
  { apply List.Forall_forall. intros jr Hjr.
    apply in_map_iff in Hjr as ([c0 e] & <- & Hce).
    apply joined_rows_In in Hce as (Hc0 & _). simpl in Hc0. rewrite Hrows in Hc0.
    destruct (Forall2_In_l _ _ _ _ F2 Hc0) as (c & _ & Hd).
    destruct (Hdec c0 e c Hc0 Hd) as (v & _ & Hj). eauto. }
  pose proof (decode_rows_Forall2 _ _ _ Hrows_ok) as F2'.
  exists cs, rows. split; [unfold get_chunks; rewrite Hrows; exact Hg|].
  split; [exact Hne|].
  split; [unfold get_embeddings; cbn [bind_param]; exact Hrows_ok|].
  split; [|split; [|rewrite Hdb; reflexivity]].
  - intros c Hc.
    destruct (Forall2_In_r _ _ _ _ F2 Hc) as (c0 & Hc0 & Hd).
    destruct (Htxt c0 Hc0) as [i Hi].
    assert (HcW : In c (map fst W)) by (rewrite HW; exact Hc).
    apply in_map_iff in HcW as ([c' v] & Hfst & HinW). simpl in Hfst. subst c'.
    rewrite List.Forall_forall in Hall. specialize (Hall _ HinW). simpl in Hall.
    set (e := emb_row (col c "id") (vector_to_bytes v)) in *.
    destruct (Hdec c0 e c Hc0 Hd) as (b & Hb & Hj).
    assert (Hcid : col c "id" = col c0 "id")
      by (rewrite Hb; apply col_insert_ne; discriminate).
    assert (Hin : In (c0, e) (joined_rows (VStr pid) (db s'))).
    { apply joined_rows_In. simpl. rewrite Hrows. split; [exact Hc0|].
      split; [exact Hall|]. unfold e. rewrite (proj1 (emb_row_col _ _)), Hcid, Hi.
      apply sql_eqb_refl. discriminate. }
    assert (Hjr : In (joined_row (c0, e)) (map joined_row (joined_rows (VStr pid) (db s'))))
      by (apply in_map; exact Hin).
    destruct (Forall2_In_l _ _ _ _ F2' Hjr) as (r & Hr & Hdr).
    rewrite Hj in Hdr. inversion Hdr; subst r. clear Hdr.
    destruct (joined_row_col c0 e) as (J1 & J2 & _ & J4 & J5).
    exists (<["bbox" := b]> (joined_row (c0, e))), v. split; [exact Hr|].
    rewrite !col_insert_ne by discriminate. rewrite J1, J2, J4, J5, Hb.
    rewrite !col_insert_ne by discriminate. rewrite !lookup_insert_eq.
    repeat split; reflexivity.
  - intros r Hr.
    destruct (Forall2_In_r _ _ _ _ F2' Hr) as (jr & Hjr & Hdr).
    apply in_map_iff in Hjr as ([c0 e] & <- & Hce).
    apply joined_rows_In in Hce as (Hc0 & _). simpl in Hc0. rewrite Hrows in Hc0.
    destruct (Forall2_In_l _ _ _ _ F2 Hc0) as (c & Hc & Hd).
    destruct (Hdec c0 e c Hc0 Hd) as (v & Hv & Hj).
    rewrite Hj in Hdr. inversion Hdr; subst r. exists c. split; [exact Hc|].
    rewrite Hv. rewrite !col_insert_ne by discriminate.
    apply (proj1 (joined_row_col c0 e)).
Qed.

(** X28.  After [_compute_embeddings] has returned for a paper,
    [get_embeddings] answers for it without raising, with at least one row;
    every chunk [get_chunks] lists has a row there with its id, page, text
    and decoded bbox and a vector written by [vector_to_bytes], and every
    row belongs to a chunk of the paper.  (The embedding model returns one
    vector per text; chunk ids are text and distinct.) *)
Theorem embed_then_get_embeddings (paper : pydict) (pid : string) (s s' : processor) :
  col paper "id" = VStr pid ->
  (forall texts embs, embed_texts texts = inr embs -> length embs = length texts) ->
  text_ids (chunks (db s)) ->
  compute_embeddings paper s = (inr tt, s') ->
  exists cs rows,
    get_chunks json_loads (VStr pid) (db s') = inr cs /\
    get_embeddings json_loads (VStr pid) (db s') = inr rows /\
    rows <> [] /\
    (forall c, In c cs ->
       exists r v, In r rows /\ col r "id" = col c "id" /\ col r "page" = col c "page" /\
                   col r "text" = col c "text" /\ r !! "bbox" = c !! "bbox" /\
                   col r "vector" = VBytes (vector_to_bytes v)) /\
    (forall r, In r rows -> exists c, In c cs /\ col r "id" = col c "id").
Proof.
  intros Hid Hlen Hwf H.
  destruct (embedded_rows paper pid s s' Hid Hlen Hwf H)
    as (cs & rows & Hg & Hne & He & Hall & Honly & _).
  exists cs, rows. repeat split; try assumption.
  destruct cs as [|c cs]; [congruence|].
  destruct (Hall c (or_introl eq_refl)) as (r & _ & Hr & _).
  intros ->. destruct Hr.
Qed.

(** X29.  After [_compute_embeddings] has returned for a paper,
    [semantic_search] on it is refused only when the paper has no row in the
    [papers] table (and then it had none before the pass): never as not
    ready, and never for want of embeddings. *)
Theorem embedded_paper_is_searchable (embed_text : string -> exn + list Z)
    (dot_value : list Z -> list Z -> Q) (paper : pydict) (pid : string)
    (s s' : processor) :
  col paper "id" = VStr pid ->
  (forall texts embs, embed_texts texts = inr embs -> length embs = length texts) ->
  text_ids (chunks (db s)) ->
  compute_embeddings paper s = (inr tt, s') ->
  forall query top_k e,
    semantic_search json_loads embed_text dot_value pid query top_k (db s') = Refused e ->
    e = HTTPException 404 "Paper not found" /\ get_paper (VStr pid) (db s) = None.
Proof.
  intros Hid Hlen Hwf H query top_k e.
  destruct (embedded_rows paper pid s s' Hid Hlen Hwf H)
    as (cs & rows & Hg & Hne & He & Hall & _ & Hp).
  assert (Hrows : rows <> []).
  { destruct cs as [|c cs]; [congruence|].
    destruct (Hall c (or_introl eq_refl)) as (r & _ & Hr & _).
    intros ->. destruct Hr. }
  unfold semantic_search, get_paper. rewrite Hp.
  rewrite find_map_same.
  2:{ intros r. destruct (sql_eqb (col r "id") (VStr pid)) eqn:E; [|exact E].
      rewrite col_insert_ne by discriminate. exact E. }
  destruct (List.find _ (papers (db s))) as [r0|] eqn:Ef; simpl.
  - apply find_some in Ef as [_ Ef]. rewrite Ef. rewrite lookup_insert_eq. simpl.
    rewrite He. destruct rows as [|r rows]; [congruence|].
    destruct (search _ _ _ _ _) as [|rs]; [discriminate|].
    destruct (normalize_scores rs); discriminate.
  - intros H0. inversion H0. auto.
Qed.
End EmbeddedProperties.

(** ** The properties on the sample data *)

Lemma add_job_enqueues_witness :
  length (get_pending_jobs Sample.queue4) = S (length (get_pending_jobs Demo.queue)).
Proof.
  destruct (add_job_enqueues Demo.json_dumps (Demo.utcnow 3) Sample.job4 Demo.queue
              Sample.queue4)
    as (row & _ & _ & _ & _ & _ & _ & _ & _ & _ & _ & _ & H & _).
  - vm_compute. reflexivity.
  - exact H.
Defined.

Lemma add_job_keeps_creation_order_witness :
  StronglySorted created_no_later (jobs Sample.queue4).
Proof.
  apply (add_job_keeps_creation_order Demo.json_dumps (Demo.utcnow 3) Sample.job4
           Demo.queue Sample.queue4).
  - apply (in_order_sorted (fun a b => sql_leb (col a "created_at") (col b "created_at"))).
    vm_compute. reflexivity.
  - repeat (constructor; [vm_compute; reflexivity|]). constructor.
  - vm_compute. reflexivity.
Defined.

Lemma add_paper_then_get_paper_witness :
  get_paper (VStr "p3") Demo.library = None /\
  exists row, get_paper (VStr "p3") Sample.library3 = Some row /\
              col row "status" = VStr "pending".
Proof.
  destruct (add_paper_then_get_paper Demo.json_dumps "2024-05-02T08:00:00" Sample.paper3
              Demo.library Sample.library3 "p3")
    as (H1 & (row & H2 & _ & _ & H3 & _) & _).
  - vm_compute. reflexivity.
  - vm_compute. reflexivity.
  - split; [exact H1|]. exists row. split; assumption.
Defined.

Lemma normalize_scores_idempotent_witness :
  normalize_scores Sample.normalized = inr Sample.normalized.
Proof.
  apply (normalize_scores_idempotent Demo.results). vm_compute. reflexivity.
Defined.

Lemma search_count_witness :
  length (Demo.ranking 2) = 2%nat.
Proof.
  destruct (search_count Demo.embed_text Demo.dot_value "cat" Demo.candidates 2
              (Demo.ranking 2)) as (H & _).
  - vm_compute. reflexivity.
  - lia.
  - exact H.
Defined.

Lemma search_then_normalize_witness :
  exists out, normalize_scores (Demo.ranking 2) = inr out /\ length out = 2%nat.
Proof.
  destruct (search_then_normalize Demo.embed_text Demo.dot_value "cat" Demo.candidates 2
              (Demo.ranking 2)) as (out & H1 & H2 & _).
  - vm_compute. reflexivity.
  - exists out. split; [exact H1|]. rewrite H2. vm_compute. reflexivity.
Defined.

Lemma save_annotation_upserts_witness :
  exists row, Sample.saved_once = [row] /\ col row "id" = VStr "a1" /\
              col row "created_at" = VStr "2024-05-02T09:00:00".
Proof.
  destruct (save_annotation_upserts Demo.json_dumps Demo.json_loads Sample.json_loads_bytes
              "2024-05-02T09:00:00" Sample.annotation [] Sample.saved_once "a1")
    as [(_ & row & H1 & H2 & H3 & _)|((x & Hx) & _)].
  - vm_compute. reflexivity.
  - vm_compute. reflexivity.
  - exists row. auto.
  - vm_compute in Hx. discriminate Hx.
Defined.

Lemma save_then_get_annotation_witness :
  exists row,
    get_annotation Demo.json_loads Sample.json_loads_bytes (VStr "a1") Sample.saved_twice
    = inr (Some row) /\
    row !! "geometry" = Some (VDict []) /\
    col row "updated_at" = VStr "2024-05-02T10:00:00".
Proof.
  destruct (save_then_get_annotation Demo.json_dumps Demo.json_loads Sample.json_loads_bytes
              "2024-05-02T10:00:00" Sample.annotation Sample.saved_once Sample.saved_twice
              "a1" (VDict []))
    as (row & H1 & H2 & _ & H3 & _).
  - reflexivity.
  - vm_compute. reflexivity.
  - vm_compute. reflexivity.
  - vm_compute. reflexivity.
  - exists row. auto.
Defined.

Lemma run_batch_reports_witness :
  reported (Demo.idle Demo.library) Sample.after.
Proof.
  apply (run_batch_reports Demo.json_dumps Demo.json_loads Demo.utcnow Demo.pdf_exists
           Demo.path_str Demo.extract_text_from_pdf Demo.extract_doi_from_pdf
           Demo.embed_texts Demo.repr_other 4 (Demo.idle Demo.library) Sample.result).
  vm_compute. reflexivity.
Defined.

Lemma run_batch_keeps_papers_witness :
  same_papers Demo.library (db Sample.after).
Proof.
  destruct (run_batch_keeps_papers Demo.json_dumps Demo.json_loads Demo.utcnow
              Demo.pdf_exists Demo.path_str Demo.extract_text_from_pdf
              Demo.extract_doi_from_pdf Demo.embed_texts Demo.repr_other 4
              (Demo.idle Demo.library) Sample.result Sample.after) as (H & _).
  - vm_compute. reflexivity.
  - exact H.
Defined.

Lemma enqueue_paper_jobs_order_witness :
  exists d',
    enqueue_paper_jobs Demo.json_dumps "k1" "k2" "k3" (Demo.utcnow 3) (Demo.utcnow 4)
      (Demo.utcnow 5) (VStr "p2") Demo.queue
    = (inr (standard_jobs "k1" "k2" "k3" (VStr "p2")), d') /\
    length (jobs d') = 6%nat.
Proof.
  destruct (enqueue_paper_jobs_order Demo.json_dumps "k1" "k2" "k3" (Demo.utcnow 3)
              (Demo.utcnow 4) (Demo.utcnow 5) "p2" Demo.queue)
    as (r1 & r2 & r3 & d' & H1 & H2 & _); try discriminate; try (vm_compute; reflexivity).
  exists d'. split; [exact H1|]. rewrite H2. vm_compute. reflexivity.
Defined.

Lemma process_job_refuses_witness :
  exists s',
    Sample.process Sample.stray (Demo.idle Demo.library)
    = (inl (ValueError "Paper p9 not found"), s').
Proof.
  destruct (process_job_refuses Demo.json_dumps Demo.json_loads Demo.utcnow Demo.pdf_exists
              Demo.path_str Demo.extract_text_from_pdf Demo.extract_doi_from_pdf
              Demo.embed_texts Demo.repr_other Sample.stray (Demo.idle Demo.library))
    as (_ & _ & _ & H).
  destruct (H "j9" (VStr "EMBED") "p9") as (_ & H1); try (vm_compute; reflexivity).
  destruct H1 as ((s' & H1 & _) & _); try (vm_compute; reflexivity).
  exists s'. exact H1.
Defined.

Lemma run_batch_again_witness :
  exists result s',
    (forall fuel, (length (get_pending_jobs (db (Demo.idle Demo.library))) < fuel)%nat ->
                  Demo.run fuel (Demo.idle Demo.library) = Some (inr result, s')) /\
    forall fuel, Demo.run (S fuel) s' = Some (inr (Completed 0 0 None), s').
Proof.
  destruct (run_batch_again Demo.json_dumps Demo.json_loads Demo.utcnow Demo.pdf_exists
              Demo.path_str Demo.extract_text_from_pdf Demo.extract_doi_from_pdf
              Demo.embed_texts Demo.repr_other (Demo.idle Demo.library)) as (_ & H).
  - reflexivity.
  - apply text_ids_check_sound. vm_compute. reflexivity.
  - exact H.
Defined.

Lemma batch_status_after_run_batch_witness :
  exists p f s',
    (p + f = st_pending (get_batch_status Demo.library))%nat /\
    st_pending (get_batch_status (db s')) = 0%nat.
Proof.
  destruct (batch_status_after_run_batch Demo.json_dumps Demo.json_loads Demo.utcnow
              Demo.pdf_exists Demo.path_str Demo.extract_text_from_pdf
              Demo.extract_doi_from_pdf Demo.embed_texts Demo.repr_other
              (Demo.idle Demo.library)) as (p & f & errs & s' & _ & H1 & H2 & _).
  - reflexivity.
  - apply text_ids_check_sound. vm_compute. reflexivity.
  - exists p, f, s'. split; assumption.
Defined.

Lemma extract_text_replaces_chunks_witness :
  embeddings (db (snd Sample.extracted)) = embeddings Demo.indexed /\
  jobs (db (snd Sample.extracted)) = jobs Demo.indexed.
Proof.
  destruct (extract_text_replaces_chunks Demo.json_dumps Demo.utcnow
              Demo.extract_text_from_pdf (Demo.paper "p1" "/pdfs/p1.pdf") "p1"
              "/pdfs/p1.pdf" (Demo.idle Demo.indexed)) as (_ & H).
  - vm_compute. reflexivity.
  - destruct H as (_ & _ & H); [vm_compute; reflexivity|].
    destruct (H [Demo.chunk "c1" "a cat sat on the mat" 0;
                 Demo.chunk "c2" "the stock market fell" 1]
                (fst Sample.extracted) (snd Sample.extracted)) as (H1 & H2 & _).
    + vm_compute. reflexivity.
    + vm_compute. reflexivity.
    + split; assumption.
Defined.

Lemma embed_then_get_embeddings_witness :
  exists rows,
    get_embeddings Demo.json_loads (VStr "p1") (db Sample.embedded) = inr rows /\
    rows <> [].
Proof.
  destruct (embed_then_get_embeddings Demo.json_dumps Demo.json_loads Demo.embed_texts
              Demo.repr_other (Demo.paper "p1" "/pdfs/p1.pdf") "p1"
              (Demo.idle Demo.indexed) Sample.embedded) as (cs & rows & _ & H1 & H2 & _).
  - vm_compute. reflexivity.
  - intros texts embs H. inversion H. apply length_map.
  - apply text_ids_check_sound. vm_compute. reflexivity.
  - vm_compute. reflexivity.
  - exists rows. split; assumption.
Defined.

Lemma embedded_paper_is_searchable_witness :
  match semantic_search Demo.json_loads Demo.embed_text Demo.dot_value "p1" "cat" 2
          (db Sample.embedded) with
  | Refused _ => False
  | _ => True
  end.
Proof.
  destruct (semantic_search Demo.json_loads Demo.embed_text Demo.dot_value "p1" "cat" 2
              (db Sample.embedded)) as [e| |] eqn:E; [|exact I|exact I].
  destruct (embedded_paper_is_searchable Demo.json_dumps Demo.json_loads Demo.embed_texts
              Demo.repr_other Demo.embed_text Demo.dot_value
              (Demo.paper "p1" "/pdfs/p1.pdf") "p1" (Demo.idle Demo.indexed)
              Sample.embedded) with (query := "cat") (top_k := 2) (e := e) as [_ Hn].
  - vm_compute. reflexivity.
  - intros texts embs H. inversion H. apply length_map.
  - apply text_ids_check_sound. vm_compute. reflexivity.
  - vm_compute. reflexivity.
  - exact E.
  - vm_compute in Hn. discriminate Hn.
Defined.

(** ** A callback that raises

    [_extract_text] on [p1] with a callback that raises on the last
    notification: the call raises what the callback raised, after the
    chunks were stored and the paper's row was marked as indexed. *)
Example demo_extract_watched :
  let run := Sample.extract (Demo.paper "p1" "/pdfs/p1.pdf") "/pdfs/p1.pdf"
               (Sample.watched Demo.library) in
  fst run = inl (RuntimeError "callback failed") /\
  map (fun r => (col r "id", col r "status")) (papers (db (snd run)))
  = [(VStr "p1", VStr "indexed"); (VStr "p2", VStr "pending")] /\
  map (fun r => (col r "id", col r "paper_id")) (chunks (db (snd run)))
  = [(VStr "c1", VStr "p1"); (VStr "c2", VStr "p1")] /\
  map ev_message (delivered (snd run))
  = ["Extracting text from PDF..."; "Saving 2 text chunks..."; "Extracted 2 chunks"].
Proof. vm_compute. repeat split; reflexivity. Qed.

(** The sample batch with that callback: the text of [p1] is extracted and
    embedded and [embeddings_ready] is set, yet both jobs are recorded as
    failed, with the error of the callback; the batch itself goes on to the
    end. *)
Example demo_batch_watched :
  match Demo.run 4 (Sample.watched Demo.library) with
  | Some (r, s) =>
      r = inr (Completed 0 3
                 (Some [(VStr "j2",
                         "No chunks found for paper p2. Run text extraction first.");
                        (VStr "j3", "callback failed"); (VStr "j1", "callback failed")])) /\
      map (fun r => (col r "id", col r "status", col r "embeddings_ready")) (papers (db s))
      = [(VStr "p1", VStr "indexed", VInt 1); (VStr "p2", VStr "pending", VInt 0)] /\
      map (fun r => col r "chunk_id") (embeddings (db s)) = [VStr "c1"; VStr "c2"] /\
      map (fun r => (col r "id", col r "type", col r "status")) (jobs (db s))
      = [(VStr "j1", VStr "EMBED", VStr "failed"); (VStr "j2", VStr "EMBED", VStr "failed");
         (VStr "j3", VStr "EXTRACT_TEXT", VStr "failed")]
  | None => False
  end.
Proof. vm_compute. repeat split; reflexivity. Qed.
